(** * Rekall plugin core: a shallow embedding of [rekall/plugin.py]

    The development follows the Python module class by class:
    - Python values, truthiness and exceptions;
    - the session (an external collaborator of the module);
    - [Command] and [ProfileCommand]: construction and activation;
    - [PluginHeader]: the declared table schema;
    - [TypedProfileCommand] and [Producer]: the collect/render contract;
    - [PluginMetadataDatabase]: per-name resolution of the active plugin.

    Dictionaries are [gmap]s, sets are [gset]s, tuples and lists are [list]s.
    Code that reads or writes the session runs in a state-and-exception
    monad over the session's state. *)

From Stdlib Require Import ZArith.
From stdpp Require Import base option list strings gmap fin_maps fin_sets.

Local Open Scope string_scope.
Local Open Scope list_scope.

(** ** Python values *)

(** The exception classes the module raises or provokes. Messages are not
    part of the model. *)
Inductive PyExc : Type :=
  | InvalidArgs
  | PluginError
  | RuntimeError
  | ValueError
  | TypeError
  | KeyError
  | IndexError
  | AttributeError
  | NotImplementedError.

Global Instance PyExc_eq_dec : EqDecision PyExc.
Proof. solve_decision. Defined.

(** The outcome of a call: a value or a raised exception. *)
Inductive Result (A : Type) : Type :=
  | Ok (a : A)
  | Raise (e : PyExc).
Global Arguments Ok {A} a.
Global Arguments Raise {A} e.

Definition rbind {A B} (r : Result A) (k : A → Result B) : Result B :=
  match r with
  | Ok a => k a
  | Raise e => Raise e
  end.

(** A profile: its name and the [object_classes] dictionary from type names
    to classes (a class is identified by its name). *)
Record Profile : Type := mkProfile {
  profile_name : string;
  object_classes : gmap string string
}.

Global Instance Profile_eq_dec : EqDecision Profile.
Proof. solve_decision. Defined.

Definition Profile_to_pair (p : Profile) : string * gmap string string :=
  (profile_name p, object_classes p).
Definition Profile_of_pair (t : string * gmap string string) : Profile :=
  mkProfile t.1 t.2.

Global Instance Profile_countable : Countable Profile :=
  inj_countable' Profile_to_pair Profile_of_pair
    (λ p, match p with mkProfile _ _ => eq_refl end).

(** The Python objects the module handles. [True] and [False] are the
    integers [1] and [0], as they are for dictionary keys and truth tests.
    [OSession] is a reference to the session object, whose state lives in the
    store threaded by the monad below. *)
Inductive PyObj : Type :=
  | ONone
  | OInt (z : Z)
  | OStr (s : string)
  | OType (cls : string)
  | OProfile (p : Profile)
  | OSession
  | OObject (id : nat).

Global Instance PyObj_eq_dec : EqDecision PyObj.
Proof. solve_decision. Defined.

Definition PyObj_to_sum (o : PyObj)
    : (bool + Z) + ((string + string) + (Profile + nat)) :=
  match o with
  | ONone => inl (inl false)
  | OSession => inl (inl true)
  | OInt z => inl (inr z)
  | OStr s => inr (inl (inl s))
  | OType c => inr (inl (inr c))
  | OProfile p => inr (inr (inl p))
  | OObject n => inr (inr (inr n))
  end.
Definition PyObj_of_sum (e : (bool + Z) + ((string + string) + (Profile + nat)))
    : PyObj :=
  match e with
  | inl (inl false) => ONone
  | inl (inl true) => OSession
  | inl (inr z) => OInt z
  | inr (inl (inl s)) => OStr s
  | inr (inl (inr c)) => OType c
  | inr (inr (inl p)) => OProfile p
  | inr (inr (inr n)) => OObject n
  end.

Global Instance PyObj_countable : Countable PyObj :=
  inj_countable' PyObj_to_sum PyObj_of_sum
    (λ o, match o with
          | ONone | OInt _ | OStr _ | OType _ | OProfile _ | OSession | OObject _ =>
              eq_refl
          end).

(** Python's truth test ([if x], [not x]). *)
Definition truthy (o : PyObj) : bool :=
  match o with
  | ONone => false
  | OInt z => negb (z =? 0)%Z
  | OStr s => negb (String.eqb s "")
  | OType _ | OProfile _ | OSession | OObject _ => true
  end.

(** [isinstance(t, type)] and [isinstance(t, basestring)]. *)
Definition is_type (o : PyObj) : bool :=
  match o with OType _ => true | _ => false end.
Definition is_basestring (o : PyObj) : bool :=
  match o with OStr _ => true | _ => false end.

(** A dictionary with string keys (keyword arguments, a column
    specification, an instance's [__dict__]). *)
Abbreviation Dict := (gmap string PyObj).

(** [d.get(k)]: the value, or [None]. *)
Definition dict_get (d : Dict) (k : string) : PyObj := default ONone (d !! k).

(** The truth value of a dictionary: it is not empty. *)
Definition dict_truthy (d : Dict) : bool := negb (bool_decide (d = ∅)).

(** ** PluginHeader *)

(** A column specification is a dictionary with the keys ["cname"], ["name"]
    and ["type"]. The constructor's [isinstance(column, dict)] test is
    settled by this type. *)
Abbreviation Column := (gmap string PyObj).

Record PluginHeader : Type := mkPluginHeader {
  header : list Column;
  by_cname : gmap PyObj Column;
  by_name : gmap PyObj Column
}.

(** What the [raise] for a column without a true cname raises. Its message
    is built by [%] with [columns], the tuple of all the constructor's
    arguments, on a text with one [%r]: a tuple of one column fills it and
    [ValueError] is raised; a longer tuple makes the formatting itself raise
    [TypeError]. *)
Definition missing_cname_error (columns : list Column) : PyExc :=
  match columns with
  | [_] => ValueError
  | _ => TypeError
  end.

(** One round of the constructor's loop, on the two dictionaries built so
    far; [columns] is the whole tuple. The message for a duplicate cname is
    built from the pair of the cname and the tuple, on a text with two
    [%r]. *)
Definition add_column (columns : list Column)
    (st : gmap PyObj Column * gmap PyObj Column)
    (column : Column) : Result (gmap PyObj Column * gmap PyObj Column) :=
  let cname := dict_get column "cname" in
  if negb (truthy cname) then Raise (missing_cname_error columns)
  else if from_option dict_truthy false (st.1 !! cname) then Raise ValueError
  else
    let by_cname' := <[cname := column]> st.1 in
    let name := dict_get column "name" in
    Ok (by_cname', if truthy name then <[name := column]> st.2 else st.2).

(** The loop from [todo] on. *)
Fixpoint add_columns (columns : list Column)
    (st : gmap PyObj Column * gmap PyObj Column)
    (todo : list Column) : Result (gmap PyObj Column * gmap PyObj Column) :=
  match todo with
  | [] => Ok st
  | column :: rest =>
      rbind (add_column columns st column) (λ st', add_columns columns st' rest)
  end.

(** [PluginHeader.__init__(self, *columns)]. *)
Definition PluginHeader__init__ (columns : list Column) : Result PluginHeader :=
  rbind (add_columns columns (∅, ∅) columns)
        (λ st, Ok (mkPluginHeader columns st.1 st.2)).

(** [PluginHeader.all_names]. *)
Definition all_names (h : PluginHeader) : gset PyObj :=
  dom (by_cname h) ∪ dom (by_name h).

(** [PluginHeader.find_column]: by cname, else by human name. *)
Definition find_column (h : PluginHeader) (name : PyObj) : option Column :=
  match by_cname h !! name with
  | Some c => Some c
  | None => by_name h !! name
  end.

(** [PluginHeader.dictify]: [result[self.header[idx]["cname"]] = value] for
    each position of the row; indexing past the header raises [IndexError],
    a column without the key raises [KeyError]. *)
Fixpoint dictify_from (hdr : list Column) (idx : nat) (row : list PyObj)
    (result : gmap PyObj PyObj) : Result (gmap PyObj PyObj) :=
  match row with
  | [] => Ok result
  | value :: rest =>
      match hdr !! idx with
      | None => Raise IndexError
      | Some column =>
          match column !! "cname" with
          | None => Raise KeyError
          | Some cname => dictify_from hdr (S idx) rest (<[cname := value]> result)
          end
      end
  end.

Definition dictify (h : PluginHeader) (row : list PyObj) : Result (gmap PyObj PyObj) :=
  dictify_from (header h) 0 row ∅.

(** ** The session and the monad of session-dependent code *)

(** Modelled from the spec: the session class is an external collaborator
    whose source is not part of the module. It holds a parameter store with
    [HasParameter]/[GetParameter], where a parameter that is not set is
    computed by its hook on first access and cached; the resolved profile is
    the parameter ["profile_obj"], read and written through the [profile]
    property; and a privilege flag. [hooks] records what each parameter's
    hook (for the profile: autodetection) finds on this image, [None] when it
    finds nothing. A hook that finds nothing leaves the store as it was. *)
Record Session : Type := mkSession {
  state : gmap string PyObj;
  hooks : gmap string PyObj;
  privileged : bool
}.

(** Computations over the session: the outcome and the session afterwards.
    What a computation did to the session before raising stays done. *)
Definition M (A : Type) : Type := Session → Result A * Session.

Definition ret {A} (a : A) : M A := λ s, (Ok a, s).
Definition raise {A} (e : PyExc) : M A := λ s, (Raise e, s).
Definition bind {A B} (m : M A) (k : A → M B) : M B :=
  λ s, match m s with
       | (Ok a, s') => k a s'
       | (Raise e, s') => (Raise e, s')
       end.

Notation "'do' x <- m ; k" := (bind m (λ x, k))
  (at level 10, x name, m at level 100, k at level 200).
Notation "m ;; k" := (bind m (λ _, k))
  (at level 100, k at level 200, right associativity).

(** [session.HasParameter(item)]. *)
Definition HasParameter (item : string) (s : Session) : bool :=
  bool_decide (dict_get (state s) item ≠ ONone).

(** [session.GetParameter(item)]. *)
Definition GetParameter (item : string) : M PyObj :=
  λ s, if HasParameter item s then (Ok (dict_get (state s) item), s)
       else
         let found := dict_get (hooks s) item in
         (Ok found,
          if bool_decide (found = ONone) then s
          else mkSession (<[item := found]> (state s)) (hooks s) (privileged s)).

(** Reading and writing [session.profile]. *)
Definition session_profile : M PyObj := GetParameter "profile_obj".

Definition session_set_profile (value : PyObj) : M unit :=
  λ s, (Ok tt, mkSession (<["profile_obj" := value]> (state s)) (hooks s) (privileged s)).

(** The profile a read of [session.profile] resolves to. *)
Definition resolved_profile (s : Session) : PyObj :=
  if HasParameter "profile_obj" s then dict_get (state s) "profile_obj"
  else dict_get (hooks s) "profile_obj".

(** [self.session], as a reference to the store: an instance without the
    attribute, or with an object that is not a session, has none of the
    session's attributes. *)
Definition self_session (self : Dict) : M unit :=
  match self !! "session" with
  | Some OSession => ret tt
  | _ => raise AttributeError
  end.

(** ** Command *)

(** [Command.__init__(self, **kwargs)]; [self] is the instance's
    [__dict__]. The [super] call reaches [object.__init__] with no
    arguments. *)
Definition Command__init__ (kwargs : Dict) (self : Dict) : M Dict :=
  let session := dict_get kwargs "session" in
  let kwargs := delete "session" kwargs in
  if dict_truthy kwargs then raise InvalidArgs
  else if bool_decide (session = ONone) then raise InvalidArgs
  else ret (<["session" := session]> self).

(** [Command.is_active(cls, session)]. *)
Definition Command_is_active : M bool := ret true.

(** ** ProfileCommand and the mixins *)

(** [ProfileCommand.is_active(cls, session)]: Python's [a and b] gives [a]
    when it is false and [b] otherwise. *)
Definition ProfileCommand_is_active (PROFILE_REQUIRED : bool) : M bool :=
  if PROFILE_REQUIRED then
    do a <- Command_is_active;
    if a then
      do profile <- session_profile;
      ret (bool_decide (profile ≠ ONone))
    else ret a
  else ret true.

(** The classes of the module that take part in a plugin's constructor
    chain before [Command]; [KernelASMixin] and [PhysicalASMixin], which
    need the address spaces and the [load_as] plugin, are left out. *)
Inductive Base : Type :=
  | ProfileCommand
  | VerbosityMixIn
  | PrivilegedMixIn.

Global Instance Base_eq_dec : EqDecision Base.
Proof. solve_decision. Defined.

(** The body of [ProfileCommand.__init__] after its [super] call. *)
Definition ProfileCommand_acquire (PROFILE_REQUIRED : bool) (profile : PyObj)
    (self : Dict) : M Dict :=
  (if bool_decide (profile ≠ ONone)
   then (self_session self ;; session_set_profile profile)
   else ret tt) ;;
  self_session self ;;
  λ s,
    if HasParameter "profile_obj" s then
      (do p <- session_profile; ret (<["profile" := p]> self)) s
    else if PROFILE_REQUIRED then
      (do p <- session_profile;
       let self := <["profile" := p]> self in
       if negb (truthy p) then raise PluginError else ret self) s
    else ret self s.

(** The body of [PrivilegedMixIn.__init__] after its [super] call. *)
Definition PrivilegedMixIn_check (self : Dict) : M Dict :=
  self_session self ;;
  λ s, if negb (privileged s) then raise PluginError s else ret self s.

(** The constructor chain of a class whose method resolution order lists
    [mro] before [Command]: each [__init__] binds the keywords of its own
    signature, passes the others on with [super], and runs its body when the
    rest of the chain returns. [PROFILE_REQUIRED] is the attribute of the
    class being constructed. *)
Fixpoint init_chain (PROFILE_REQUIRED : bool) (mro : list Base)
    (kwargs : Dict) (self : Dict) : M Dict :=
  match mro with
  | [] => Command__init__ kwargs self
  | ProfileCommand :: rest =>
      let profile := dict_get kwargs "profile" in
      let kwargs := delete "profile" kwargs in
      do self <- init_chain PROFILE_REQUIRED rest kwargs self;
      ProfileCommand_acquire PROFILE_REQUIRED profile self
  | VerbosityMixIn :: rest =>
      let self := <["verbosity" := default (OInt 1) (kwargs !! "verbosity")]> self in
      let kwargs := delete "verbosity" kwargs in
      init_chain PROFILE_REQUIRED rest kwargs self
  | PrivilegedMixIn :: rest =>
      do self <- init_chain PROFILE_REQUIRED rest kwargs self;
      PrivilegedMixIn_check self
  end.

(** The constructor of the class on a fresh instance, with the keywords
    the call has bound to its [**kwargs]. *)
Definition construct (PROFILE_REQUIRED : bool) (mro : list Base) (kwargs : Dict)
    : M Dict :=
  init_chain PROFILE_REQUIRED mro kwargs ∅.

(** Calling the class with keywords. The new instance is bound to [self],
    the first parameter of every [__init__] of the chain, so a keyword of
    that name is a [TypeError] of the call, raised before any body runs. *)
Definition call_class (PROFILE_REQUIRED : bool) (mro : list Base)
    (keywords : Dict) : M Dict :=
  if bool_decide (is_Some (keywords !! "self")) then raise TypeError
  else construct PROFILE_REQUIRED mro keywords.

(** [ProfileCommand.__init__(self, profile=None, **kwargs)] for a class
    deriving from [ProfileCommand] alone. *)
Definition ProfileCommand__init__ (PROFILE_REQUIRED : bool) (kwargs : Dict)
    : M Dict :=
  construct PROFILE_REQUIRED [ProfileCommand] kwargs.

(** The keywords a class's chain accepts. *)
Definition recognized (mro : list Base) : list string :=
  "session" ::
  flat_map (λ b, match b with
                 | ProfileCommand => ["profile"]
                 | VerbosityMixIn => ["verbosity"]
                 | PrivilegedMixIn => []
                 end) mro.

(** ** TypedProfileCommand and Producer *)

(** What iterating a generator gives: the items it yields, and the exception
    that ends the iteration when it ends by one. *)
Record Gen (A : Type) : Type := mkGen {
  yielded : list A;
  raised : option PyExc
}.
Global Arguments mkGen {A} yielded raised.
Global Arguments yielded {A} g.
Global Arguments raised {A} g.

(** [for x in src: yield f(x)], where [f] may raise: the generator stops at
    the first item on which [f] raises, and otherwise ends as [src] does. *)
Fixpoint gen_each {A B} (f : A → Result B) (items : list A)
    (ending : option PyExc) : Gen B :=
  match items with
  | [] => mkGen [] ending
  | x :: rest =>
      match f x with
      | Ok y => let g := gen_each f rest ending in mkGen (y :: yielded g) (raised g)
      | Raise e => mkGen [] (Some e)
      end
  end.

(** [TypedProfileCommand.collect_as_dicts], over what [collect()] yields. A
    class that declares no [table_header] has [None] there, which has no
    [dictify]. *)
Definition collect_as_dicts (table_header : option PluginHeader)
    (collect : Gen (list PyObj)) : Gen (gmap PyObj PyObj) :=
  gen_each (λ row, match table_header with
                   | Some h => dictify h row
                   | None => Raise AttributeError
                   end)
           (yielded collect) (raised collect).

(** [row[0]]. *)
Definition first_item (row : list PyObj) : Result PyObj :=
  match row with
  | v :: _ => Ok v
  | [] => Raise IndexError
  end.

(** [Producer.produce]. *)
Definition produce (collect : Gen (list PyObj)) : Gen PyObj :=
  gen_each first_item (yielded collect) (raised collect).

(** The operations of a renderer, as the calls it can receive:
    [table_header], [table_row], and any other method of the renderer
    interface ([section], [format], ...). *)
Inductive RendererCall : Type :=
  | call_table_header (columns : option PluginHeader)
  | call_table_row (args : list PyObj)
  | call_other (method : string) (args : list PyObj).

(** A renderer is an output sink reacting to the calls made on it. *)
Class Renderer (R : Type) : Type := {
  renderer_call : RendererCall → R → R
}.

(** The renderer that records the calls it receives, oldest first. *)
Global Instance recording_renderer : Renderer (list RendererCall) := {
  renderer_call c log := log ++ [c]
}.

(** [TypedProfileCommand.render]: the renderer afterwards, and the exception
    that [collect()] ended with, if any. *)
Definition render `{Renderer R} (table_header : option PluginHeader)
    (collect : Gen (list PyObj)) (renderer : R) : R * option PyExc :=
  let renderer := renderer_call (call_table_header table_header) renderer in
  (fold_left (λ r row, renderer_call (call_table_row row) r)
             (yielded collect) renderer,
   raised collect).

(** [TypedProfileCommand.reflect]; [self] is the instance's [__dict__]. A
    function that falls off its end returns [None]. *)
Definition reflect (table_header : option PluginHeader) (self : Dict)
    (member : PyObj) : Result PyObj :=
  match table_header with
  | None => Raise AttributeError
  | Some h =>
      match by_cname h !! member with
      | None => Raise KeyError
      | Some column =>
          if negb (dict_truthy column) then Raise KeyError
          else
            let t := dict_get column "type" in
            if is_type t then Ok t
            else if negb (truthy t) then Ok ONone
            else match t with
                 | OStr type_name =>
                     match self !! "profile" with
                     | Some (OProfile p) =>
                         Ok (from_option OType ONone (object_classes p !! type_name))
                     | _ => Raise AttributeError
                     end
                 | _ => Ok ONone
                 end
      end
  end.

(** ** PluginMetadataDatabase *)

(** A plugin class, as the database sees it: the class's own name, the name
    it registers under ([None] when it declares none) and its [is_active]
    class method, inherited or overridden. *)
Record PluginClass : Type := mkPluginClass {
  cls__name__ : string;
  name : PyObj;
  is_active : M bool
}.

(** Modelled from the spec: [config.CommandMetadata], whose source is not
    part of the module, is a snapshot of one plugin class's declarations; the
    database reads its [plugin_cls]. *)
Record CommandMetadata : Type := mkCommandMetadata {
  plugin_cls : PluginClass
}.

(** What [GetActivePlugin] returns: a metadata record, or the sentinel.
    Modelled from the spec: [obj.NoneObject], whose source is not part of
    the module, is the explicit absent value, built from its reason. *)
Inductive ActivePlugin : Type :=
  | Metadata (command_metadata : CommandMetadata)
  | NoneObject (reason : string).

(** [PluginMetadataDatabase.Rebuild], over the registry's classes in the
    order [Command.classes.itervalues()] gives them. *)
Definition Rebuild (classes : list PluginClass)
    : gmap PyObj (list CommandMetadata) :=
  fold_left (λ db plugin_cls,
               <[name plugin_cls :=
                   default [] (db !! name plugin_cls) ++ [mkCommandMetadata plugin_cls]]> db)
            classes ∅.

(** The loop of [GetActivePlugin]. *)
Fixpoint active_results (candidates : list CommandMetadata)
    (results : list CommandMetadata) : M (list CommandMetadata) :=
  match candidates with
  | [] => ret results
  | command_metadata :: rest =>
      do active <- is_active (plugin_cls command_metadata);
      active_results rest
        (if active : bool then results ++ [command_metadata] else results)
  end.

(** [PluginMetadataDatabase.GetActivePlugin]. *)
Definition GetActivePlugin (db : gmap PyObj (list CommandMetadata))
    (plugin_name : PyObj) : M ActivePlugin :=
  do results <- active_results (default [] (db !! plugin_name)) [];
  if Nat.ltb 1 (length results) then raise RuntimeError
  else match results with
       | first :: _ => ret (Metadata first)
       | [] => ret (NoneObject "Plugin not active")
       end.

(** ** Vocabulary of the statements *)

(** The cname a column declares, the cnames of a schema in column order, and
    the human names it provides. *)
Definition cname_of (column : Column) : PyObj := dict_get column "cname".
Definition name_of (column : Column) : PyObj := dict_get column "name".
Definition cnames (columns : list Column) : list PyObj := cname_of <$> columns.
Definition provided_names (columns : list Column) : list PyObj :=
  filter (λ n, truthy n = true) (name_of <$> columns).

(** The two dictionaries as the constructor's loop leaves them when no round
    raises. *)
Definition index_by_cname (columns : list Column) (m : gmap PyObj Column)
    : gmap PyObj Column :=
  fold_left (λ m column, <[cname_of column := column]> m) columns m.
Definition index_by_name (columns : list Column) (m : gmap PyObj Column)
    : gmap PyObj Column :=
  fold_left (λ m column,
               if truthy (name_of column) then <[name_of column := column]> m else m)
            columns m.

(** A header the constructor can have built: every cname is true in a truth
    test, and no two columns share one. *)
Definition well_formed (columns : list Column) : Prop :=
  Forall (λ column, truthy (cname_of column) = true) columns ∧ NoDup (cnames columns).

(** Every entry of [by_cname] is filed under its own cname, which is true in
    a truth test. *)
Definition filed_by_cname (m : gmap PyObj Column) : Prop :=
  ∀ k column, m !! k = Some column → cname_of column = k ∧ truthy k = true.

(** ** Example data *)

(** The schema of the specification's example, and its two rows. *)
Definition offset_column : Column :=
  {[ "cname" := OStr "offset"; "name" := OStr "Offset"; "type" := OStr "address" ]}.
Definition name_column : Column :=
  {[ "cname" := OStr "name"; "name" := OStr "Name" ]}.
Definition example_columns : list Column := [offset_column; name_column].
Definition example_rows : list (list PyObj) :=
  [[OInt 4096; OStr "A"]; [OInt 8192; OStr "B"]].

(** A column whose cname is the empty string. *)
Definition empty_cname_column : Column := {[ "cname" := OStr "" ]}.

(** A column whose human name is the empty string. *)
Definition empty_name_column : Column :=
  {[ "cname" := OStr "offset"; "name" := OStr "" ]}.

(** A call's keywords with one named [self]. *)
Definition self_keywords : Dict := {[ "session" := OSession; "self" := OInt 1 ]}.

(** The rows of a producer of two objects, and a row that is too short for
    the example schema. *)
Definition producer_rows : list (list PyObj) := [[OObject 1]; [OObject 2]].
Definition short_row : list PyObj := [OInt 4096].
Definition long_row : list PyObj := [OInt 4096; OStr "A"; OInt 7].

(** The header the constructor builds from the example schema. *)
Definition example_header : PluginHeader :=
  mkPluginHeader example_columns (index_by_cname example_columns ∅)
                 (index_by_name example_columns ∅).

(** Two profiles: one that defines the type named ["address"], one that
    defines no type. *)
Definition profile_with_address : Profile :=
  mkProfile "with_address" {[ "address" := "Address" ]}.
Definition profile_without_types : Profile := mkProfile "without_types" ∅.

(** A session whose resolved profile is [profile_with_address]. *)
Definition session_with_address : Session :=
  mkSession {[ "profile_obj" := OProfile profile_with_address ]} ∅ false.

(** The type a name resolves to in the session's profile, read from the
    session when the question is asked. *)
Definition resolve_in_session (type_name : string) : M PyObj :=
  do profile <- session_profile;
  match profile with
  | OProfile p => ret (from_option OType ONone (object_classes p !! type_name))
  | _ => raise AttributeError
  end.

(** A session with nothing set and nothing to detect. *)
Definition blank_session : Session := mkSession ∅ ∅ false.

(** The session after [session.profile = value]. *)
Definition with_profile (value : PyObj) (s : Session) : Session :=
  mkSession (<["profile_obj" := value]> (state s)) (hooks s) (privileged s).

(** The instance a [ProfileCommand] class gives on [session_with_address]
    when no profile is passed. *)
Definition instance_with_address : Dict :=
  <["profile" := OProfile profile_with_address]> (<["session" := OSession]> ∅).

(** The registered implementations of a name, in registry order, and those
    among some classes that report active. *)
Definition implementations (plugin_name : PyObj) (classes : list PluginClass)
    : list PluginClass :=
  filter (λ cls, name cls = plugin_name) classes.
Definition reporting_active (reports : PluginClass → bool)
    (classes : list PluginClass) : list PluginClass :=
  filter (λ cls, reports cls = true) classes.

(** The specification's scenario: two classes named ["foo"], [class_A] never
    active and [class_B] always active. *)
Definition class_A : PluginClass := mkPluginClass "A" (OStr "foo") (ret false).
Definition class_B : PluginClass := mkPluginClass "B" (OStr "foo") (ret true).

(** Two implementations of ["pslist"] that inherit their [is_active]: one
    from [Command], one from [ProfileCommand] with [PROFILE_REQUIRED]. *)
Definition pslist_plain : PluginClass :=
  mkPluginClass "PlainPsList" (OStr "pslist") Command_is_active.
Definition pslist_profiled : PluginClass :=
  mkPluginClass "ProfiledPsList" (OStr "pslist") (ProfileCommand_is_active true).

(** A session with no profile yet, whose autodetection finds
    [profile_with_address]. *)
Definition detecting_session : Session :=
  mkSession ∅ {[ "profile_obj" := OProfile profile_with_address ]} false.

(** ** More of PluginHeader and TypedProfileCommand *)

(** [PluginHeader.types_in_output]: the declared type of each column that
    has one, in column order. *)
Definition types_in_output (h : PluginHeader) : list PyObj :=
  filter (λ t, truthy t = true) ((λ column, dict_get column "type") <$> header h).

(** [Producer.table_header]: the one-column schema
    [PluginHeader(dict(type=type_name, name=type_name, cname=type_name))],
    for the class's [type_name]. *)
Definition Producer_column (type_name : PyObj) : Column :=
  {[ "type" := type_name; "name" := type_name; "cname" := type_name ]}.
Definition Producer_table_header (type_name : PyObj) : Result PluginHeader :=
  PluginHeader__init__ [Producer_column type_name].

(** [row[name]] on a dictionary. *)
Definition dict_item (row : gmap PyObj PyObj) (name : PyObj) : Result PyObj :=
  match row !! name with
  | Some v => Ok v
  | None => Raise KeyError
  end.

(** [TypedProfileCommand.get_column]: it draws from [collect_as_dicts()]
    and stops at the first dictionary without the key. *)
Definition get_column (table_header : option PluginHeader)
    (collect : Gen (list PyObj)) (name : PyObj) : Gen PyObj :=
  gen_each (λ row, dict_item row name)
           (yielded (collect_as_dicts table_header collect))
           (raised (collect_as_dicts table_header collect)).

(** A schema in which two columns share the human name ["Name"], and that
    name is also the cname of a third. *)
Definition shadowing_columns : list Column :=
  [ {[ "cname" := OStr "a"; "name" := OStr "Name" ]};
    {[ "cname" := OStr "b"; "name" := OStr "Name" ]};
    {[ "cname" := OStr "Size"; "name" := OStr "b" ]} ].
Definition shadowing_header : PluginHeader :=
  mkPluginHeader shadowing_columns (index_by_cname shadowing_columns ∅)
                 (index_by_name shadowing_columns ∅).

(** ** More of PluginMetadataDatabase *)

(** [PluginMetadataDatabase.__init__]: the database built for a session. *)
Definition PluginMetadataDatabase__init__ (session : PyObj)
    (classes : list PluginClass) : Result (gmap PyObj (list CommandMetadata)) :=
  if bool_decide (session = ONone) then Raise RuntimeError
  else Ok (Rebuild classes).

(** [PluginMetadataDatabase.MetadataByName]: a generator over
    [self.db[name]]. *)
Definition MetadataByName (db : gmap PyObj (list CommandMetadata))
    (name : PyObj) : Gen CommandMetadata :=
  match db !! name with
  | Some implementations => mkGen implementations None
  | None => mkGen [] (Some KeyError)
  end.

(** [PluginMetadataDatabase.GetRequirments]. The [requirements] of a
    metadata record are computed by [config.CommandMetadata], outside the
    module, and are a parameter here. *)
Definition GetRequirments (requirements : CommandMetadata → gset PyObj)
    (db : gmap PyObj (list CommandMetadata)) (command_name : PyObj)
    : Result (gset PyObj) :=
  match db !! command_name with
  | Some implementations =>
      Ok (fold_left (λ result metadata, result ∪ requirements metadata)
                    implementations ∅)
  | None => Raise KeyError
  end.

(** The truth test [if command_metadata:] on what [GetActivePlugin]
    returns: the sentinel is false, a metadata record is true. *)
Definition active_truthy (found : ActivePlugin) : bool :=
  match found with
  | Metadata _ => true
  | NoneObject _ => false
  end.

(** [PluginMetadataDatabase.Serialize], with the database's names in the
    order [for name in self.db] gives them. [Metadata()] of a record is
    computed outside the module and is a parameter. *)
Fixpoint Serialize_from {V} (Metadata_of : CommandMetadata → V)
    (db : gmap PyObj (list CommandMetadata)) (names : list PyObj)
    (result : gmap PyObj V) : M (gmap PyObj V) :=
  match names with
  | [] => ret result
  | name :: rest =>
      do command_metadata <- GetActivePlugin db name;
      Serialize_from Metadata_of db rest
        (match command_metadata with
         | Metadata md => <[name := Metadata_of md]> result
         | NoneObject _ => result
         end)
  end.

Definition Serialize {V} (Metadata_of : CommandMetadata → V)
    (db : gmap PyObj (list CommandMetadata)) (names : list PyObj)
    : M (gmap PyObj V) :=
  Serialize_from Metadata_of db names ∅.

(** [Command.GetActiveClasses], iterated to its end: the classes yielded,
    how the iteration ended, and the session afterwards. *)
Fixpoint GetActiveClasses (classes : list PluginClass) (s : Session)
    : Gen PluginClass * Session :=
  match classes with
  | [] => (mkGen [] None, s)
  | command_cls :: rest =>
      match is_active command_cls s with
      | (Ok active, s1) =>
          let later := GetActiveClasses rest s1 in
          (mkGen (if active then command_cls :: yielded later.1 else yielded later.1)
                 (raised later.1),
           later.2)
      | (Raise e, s1) => (mkGen [] (Some e), s1)
      end
  end.

(** What [GetActivePlugin] makes of the implementations that report
    active. *)
Definition resolution (active : list PluginClass) : Result ActivePlugin :=
  match active with
  | [] => Ok (NoneObject "Plugin not active")
  | [cls] => Ok (Metadata (mkCommandMetadata cls))
  | _ => Raise RuntimeError
  end.

(** A name with more than one implementation reporting active, and the
    entry [Serialize] adds to its result for a name. *)
Definition ambiguous (reports : PluginClass → bool) (classes : list PluginClass)
    (plugin_name : PyObj) : Prop :=
  (1 < length (reporting_active reports (implementations plugin_name classes)))%nat.

Global Instance ambiguous_dec reports classes plugin_name :
  Decision (ambiguous reports classes plugin_name).
Proof. unfold ambiguous. apply _. Defined.

Definition catalog_entry {V} (Metadata_of : CommandMetadata → V)
    (reports : PluginClass → bool) (classes : list PluginClass)
    (result : gmap PyObj V) (plugin_name : PyObj) : gmap PyObj V :=
  match reporting_active reports (implementations plugin_name classes) with
  | [cls] => <[plugin_name := Metadata_of (mkCommandMetadata cls)]> result
  | _ => result
  end.

(** A registry of four classes under two names; on the blank session, which
    has no profile to find, [class_B] and [pslist_plain] are the active
    ones. *)
Definition registry_example : list PluginClass :=
  [class_A; pslist_profiled; class_B; pslist_plain].
Definition registry_reports (cls : PluginClass) : bool :=
  bool_decide (cls__name__ cls = "B") || bool_decide (cls__name__ cls = "PlainPsList").

(** ** get_plugin *)

(** A registered class with what its construction needs: its
    [PROFILE_REQUIRED] and the classes of its method resolution order that
    come before [Command]; and what its [is_active] does when it is handed
    an object that is not the session. *)
Record PluginImpl : Type := mkPluginImpl {
  impl_cls : PluginClass;
  impl_PROFILE_REQUIRED : bool;
  impl_mro : list Base;
  impl_is_active_on : PyObj → Result bool
}.

(** [Command.is_active] does not look at its argument;
    [ProfileCommand.is_active] of a class that requires a profile reads the
    argument's [profile], which an object that is not a session is taken
    not to have. *)
Definition Command_is_active_on (session : PyObj) : Result bool := Ok true.
Definition ProfileCommand_is_active_on (PROFILE_REQUIRED : bool)
    (session : PyObj) : Result bool :=
  if PROFILE_REQUIRED then Raise AttributeError else Ok true.

(** Reading an attribute of the instance. *)
Definition getattr (self : Dict) (attr : string) : M PyObj :=
  match self !! attr with
  | Some v => ret v
  | None => raise AttributeError
  end.

(** [Command.get_plugin(self, name, **kwargs)], over [self.classes.values()],
    with the keywords bound to its [**kwargs]. [is_active] is handed
    whatever the caller's [session] attribute holds. The class is called
    with [session], [profile] and the given keywords; a keyword given twice
    is a [TypeError] of the call. A function that falls off its end returns
    [None]. *)
Fixpoint get_plugin (classes : list PluginImpl) (self : Dict)
    (plugin_name : PyObj) (kwargs : Dict) : M (option Dict) :=
  match classes with
  | [] => ret None
  | cls :: rest =>
      if bool_decide (name (impl_cls cls) = plugin_name) then
        do session <- getattr self "session";
        do active <- match session with
                     | OSession => is_active (impl_cls cls)
                     | _ => λ s, (impl_is_active_on cls session, s)
                     end;
        if active : bool then
          do session <- getattr self "session";
          do profile <- getattr self "profile";
          if bool_decide (is_Some (kwargs !! "session") ∨ is_Some (kwargs !! "profile"))
          then raise TypeError
          else
            do instance <- construct (impl_PROFILE_REQUIRED cls) (impl_mro cls)
                             (<["session" := session]> (<["profile" := profile]> kwargs));
            ret (Some instance)
        else get_plugin rest self plugin_name kwargs
      else get_plugin rest self plugin_name kwargs
  end.

(** The registered classes of a name that report active. *)
Definition active_impls (reports : PluginClass → bool) (plugin_name : PyObj)
    (classes : list PluginImpl) : list PluginImpl :=
  filter (λ cls, name (impl_cls cls) = plugin_name ∧ reports (impl_cls cls) = true)
         classes.

(** Three registered classes with their construction data; [class_A]
    answers false whatever it is handed. *)
Definition impl_A : PluginImpl :=
  mkPluginImpl class_A false [] (λ _, Ok false).
Definition impl_profiled : PluginImpl :=
  mkPluginImpl pslist_profiled true [ProfileCommand] (ProfileCommand_is_active_on true).
Definition impl_plain : PluginImpl :=
  mkPluginImpl pslist_plain false [] Command_is_active_on.

(** On [session_with_address] every class but [class_A] reports active. *)
Definition reports_but_A (cls : PluginClass) : bool :=
  negb (bool_decide (cls__name__ cls = "A")).

(** ** What construction may change in the session *)

(** [s'] differs from [s] at most in the parameter ["profile_obj"]. *)
Definition session_frame (s s' : Session) : Prop :=
  hooks s' = hooks s ∧ privileged s' = privileged s ∧
  ∀ item, item ≠ "profile_obj" → state s' !! item = state s !! item.

(** A computation that keeps within the frame. *)
Definition framed {A} (m : M A) : Prop :=
  ∀ s r s', m s = (r, s') → session_frame s s'.

(** The instance of a class deriving from [VerbosityMixIn] and
    [ProfileCommand], constructed on [detecting_session] with the session as
    only keyword. *)
Definition detected_instance : Dict :=
  <["profile" := OProfile profile_with_address]>
    (<["session" := OSession]> (<["verbosity" := OInt 1]> ∅)).

(** * The kernel configuration parser: [config_parser.py]

    Text is a [string] whose characters are code points below 256. The
    values [c_ast.CNumber] and [c_ast.CLiteral] build, and the integer that
    [int(value, base=0)] reads ([None] where it raises [ValueError]), are
    parameters: [c_ast] is outside the module and [int] is a builtin. *)

(** The characters the parser tests for: newline, [=], [#] and the double
    quote. *)
Definition newline_char : Ascii.ascii := Ascii.ascii_of_nat 10.
Definition equals_char : Ascii.ascii := Ascii.ascii_of_nat 61.
Definition hash_char : Ascii.ascii := Ascii.ascii_of_nat 35.
Definition quote_char : Ascii.ascii := Ascii.ascii_of_nat 34.

(** [\w] of the regular expression: a letter, a digit or the underscore. *)
Definition is_word_char (c : Ascii.ascii) : bool :=
  let n := Ascii.N_of_ascii c in
  ((48 <=? n) && (n <=? 57) || (65 <=? n) && (n <=? 90) ||
   (97 <=? n) && (n <=? 122) || (n =? 95))%N.

(** A whitespace character, as [isspace()] of a text string has it. *)
Definition is_space_char (c : Ascii.ascii) : bool :=
  let n := Ascii.N_of_ascii c in
  ((9 <=? n) && (n <=? 13) || (28 <=? n) && (n <=? 32) ||
   (n =? 133) || (n =? 160))%N.

(** [config.split('\n')]. *)
Fixpoint split_lines (config : string) : list string :=
  match config with
  | EmptyString => [EmptyString]
  | String c rest =>
      if Ascii.eqb c newline_char then EmptyString :: split_lines rest
      else match split_lines rest with
           | line :: lines => String c line :: lines
           | [] => [String c EmptyString]
           end
  end.

(** The longest prefix of word characters, and what follows it. *)
Fixpoint span_word (line : string) : string * string :=
  match line with
  | String c rest =>
      if is_word_char c then (String c (span_word rest).1, (span_word rest).2)
      else (EmptyString, line)
  | EmptyString => (EmptyString, EmptyString)
  end.

(** [self._flag_and_value_regex.match(line)] on a line without newline: the
    groups [flag] and [value], when the line is one or more word characters,
    then [=], then any characters up to its end. The greedy run of word
    characters can only end where the word characters end, since [=] is
    none. *)
Definition match_flag_and_value (line : string) : option (string * string) :=
  match span_word line with
  | (String c flag, String e value) =>
      if Ascii.eqb e equals_char then Some (String c flag, value) else None
  | _ => None
  end.

(** [line.isspace()]: not empty, and whitespace only. *)
Fixpoint all_space (line : string) : bool :=
  match line with
  | EmptyString => true
  | String c rest => is_space_char c && all_space rest
  end.
Definition isspace (line : string) : bool :=
  match line with
  | EmptyString => false
  | _ => all_space line
  end.

(** [value[-1]]. *)
Fixpoint last_char (value : string) : option Ascii.ascii :=
  match value with
  | EmptyString => None
  | String c EmptyString => Some c
  | String _ rest => last_char rest
  end.

Section ConfigParser.
Context {CValue : Type} (CNumber : Z → CValue) (CLiteral : string → CValue).
Context (int_base0 : string → option Z).

(** The outcome of parsing: the flags, or the line that raised
    [UnknownConfigLineFormatException]. *)
Inductive ParseResult : Type :=
  | Flags (flags : gmap string CValue)
  | UnknownConfigLineFormatException (line : string).

(** [ConfigParser._parse_value]; [None] is its [ValueError]. *)
Definition _parse_value (value : string) : option CValue :=
  if String.eqb value "y" then Some (CNumber 1)
  else if (2 <=? String.length value)%nat
          && bool_decide (String.get 0 value = Some quote_char)
          && bool_decide (last_char value = Some quote_char)
       then Some (CLiteral (String.substring 1 (String.length value - 2) value))
       else CNumber <$> int_base0 value.

(** [ConfigParser._process_flag_and_value_line]. *)
Definition _process_flag_and_value_line (line flag value : string)
    (flags : gmap string CValue) : ParseResult :=
  if String.eqb value "m"
  then Flags (<[String.append flag "_MODULE" := CNumber 1]> flags)
  else match _parse_value value with
       | Some v => Flags (<[flag := v]> flags)
       | None => UnknownConfigLineFormatException line
       end.

(** One round of the loop of [parse]. *)
Definition parse_line (line : string) (flags : gmap string CValue) : ParseResult :=
  match match_flag_and_value line with
  | Some (flag, value) => _process_flag_and_value_line line flag value flags
  | None =>
      if (bool_decide (line = EmptyString) || isspace line
          || bool_decide (String.get 0 line = Some hash_char))%bool
      then Flags flags
      else UnknownConfigLineFormatException line
  end.

Fixpoint parse_lines (lines : list string) (flags : gmap string CValue)
    : ParseResult :=
  match lines with
  | [] => Flags flags
  | line :: rest =>
      match parse_line line flags with
      | Flags flags' => parse_lines rest flags'
      | UnknownConfigLineFormatException l => UnknownConfigLineFormatException l
      end
  end.

(** [ConfigParser.parse]. *)
Definition parse (config : string) : ParseResult :=
  parse_lines (split_lines config) ∅.

End ConfigParser.

Global Arguments Flags {CValue} flags.
Global Arguments UnknownConfigLineFormatException {CValue} line.

(** A text without newline. *)
Definition one_line (text : string) : Prop := split_lines text = [text].

(** A flag name: word characters, at least one. *)
Fixpoint all_word (text : string) : bool :=
  match text with
  | EmptyString => true
  | String c rest => is_word_char c && all_word rest
  end.
Definition is_flag_name (text : string) : Prop :=
  text ≠ EmptyString ∧ all_word text = true.

(** A line [parse] passes over: empty, whitespace only, or a comment. *)
Definition skipped_line (line : string) : bool :=
  bool_decide (line = EmptyString) || isspace line
  || bool_decide (String.get 0 line = Some hash_char).

(** No newline in the text. *)
Fixpoint no_newline (text : string) : bool :=
  match text with
  | EmptyString => true
  | String c rest => negb (Ascii.eqb c newline_char) && no_newline rest
  end.

(** [before], a newline, [after]. *)
Definition joined (before after : string) : string :=
  before +:+ String newline_char after.

(** [value] between double quotes. *)
Definition quoted (value : string) : string :=
  String quote_char (value +:+ String quote_char EmptyString).

(** Values for the examples: numbers and literals as they are, and an
    [int] that reads nothing. *)
Definition reads_nothing (value : string) : option Z := None.

(** Lines of a kernel configuration. *)
Definition smp_line : string := "CONFIG_SMP" +:+ String equals_char "y".
Definition comment_line : string := "# CONFIG_PREEMPT is not set".
Definition indented_line : string := " CONFIG_NUMA" +:+ String equals_char "y".

(** * The handles plugin: [plugins/windows/handles.py]

    Handles and tasks are objects of the profile, outside the module; what
    the plugin reads from them is given by parameters: the type
    [get_object_type] finds ([None] for its [NoneObject]), the texts the
    file and key objects give as names, the two texts each format call
    receives, the name object in [NameInfo] ([None] when it compares equal
    to [None]) with its own truth test and its text under
    [utils.SmartUnicode], and a task's handle table. *)

(** [text.replace("'", "")]. *)
Fixpoint remove_apostrophes (text : string) : string :=
  match text with
  | EmptyString => EmptyString
  | String c rest =>
      if Ascii.eqb c (Ascii.ascii_of_nat 39) then remove_apostrophes rest
      else String c (remove_apostrophes rest)
  end.

(** [for count, x in enumerate(items)]. *)
Fixpoint enumerate_from {A} (count : nat) (items : list A) : list (nat * A) :=
  match items with
  | [] => []
  | x :: rest => (count, x) :: enumerate_from (S count) rest
  end.

Section Handles.
Context {Handle Task NameObject : Type}.
Context (get_object_type : Handle → option string).
Context (file_name_with_device full_key_name : Handle → string).
Context (process_texts thread_texts : Handle → string * string).
Context (NameInfo_Name : Handle → option NameObject).
Context (name_truth : NameObject → bool) (SmartUnicode : NameObject → string).
Context (HandleTableList : Task → bool) (handles : Task → list Handle).

(** The attributes [Handles.__init__] takes from its keywords:
    [object_types] ([None] when absent), [silent] and [named_only]. *)
Context (object_list : option (list string)) (silent named_only : bool).

(** The truth test on [self.object_list]. *)
Definition object_list_given : bool :=
  match object_list with
  | Some (_ :: _) => true
  | _ => false
  end.

(** The truth test on a name: a text is true when not empty, the name
    object of [NameInfo] as it says itself. *)
Definition name_truthy (name : string + NameObject) : bool :=
  match name with
  | inl text => negb (String.eqb text "")
  | inr object => name_truth object
  end.

(** [utils.SmartUnicode(name)]. *)
Definition name_text (name : string + NameObject) : string :=
  match name with
  | inl text => text
  | inr object => SmartUnicode object
  end.

(** The name [enumerate_handles] gives a handle of a type it lets
    through: a text, or the name object of [NameInfo]. *)
Definition handle_name (handle : Handle) (object_type : string)
    : string + NameObject :=
  if String.eqb object_type "File" then inl (file_name_with_device handle)
  else if String.eqb object_type "Key" then inl (full_key_name handle)
  else if String.eqb object_type "Process" then
    inl ((process_texts handle).1 +:+ "(" +:+ (process_texts handle).2 +:+ ")")
  else if String.eqb object_type "Thread" then
    inl ("TID " +:+ (thread_texts handle).1 +:+ " PID " +:+ (thread_texts handle).2)
  else match NameInfo_Name handle with
       | None => inl ""
       | Some name => inr name
       end.

(** One round of the loop of [enumerate_handles]: what it yields for a
    handle, if anything. *)
Definition enumerate_handle (handle : Handle)
    : option (Handle * string * (string + NameObject)) :=
  match get_object_type handle with
  | None => None
  | Some object_type =>
      if object_list_given
         && negb (bool_decide (object_type ∈ default [] object_list))
      then None
      else
        let name := handle_name handle object_type in
        if negb (name_truthy name) && named_only then None
        else Some (handle, object_type, name)
  end.

(** [Handles.enumerate_handles]. *)
Definition enumerate_handles (task : Task)
    : list (Handle * string * (string + NameObject)) :=
  if HandleTableList task then omap enumerate_handle (handles task) else [].

(** What [Handles.render] does, as the calls it makes: [table_header] and
    [table_row] on the renderer, [report_progress] on the session. A row
    stands for its handle, task, type and name; the handle's value and
    granted access are read off the handle. *)
Inductive HandlesCall : Type :=
  | handles_table_header
  | handles_report_progress (task : Task) (count : nat)
  | handles_table_row (handle : Handle) (task : Task) (object_type : string)
                      (name : string + NameObject).

(** The body of the inner loop of [render]. *)
Definition render_handle (task : Task)
    (item : nat * (Handle * string * (string + NameObject))) : list HandlesCall :=
  let '(count, (handle, object_type, name)) := item in
  handles_report_progress task count ::
  (if silent && (String.length (remove_apostrophes (name_text name)) =? 0)%nat then []
   else [handles_table_row handle task object_type name]).

(** [Handles.render], over the tasks [filter_processes()] gives. *)
Definition Handles_render (tasks : list Task) : list HandlesCall :=
  handles_table_header ::
  flat_map (λ task, flat_map (render_handle task)
                             (enumerate_from 0 (enumerate_handles task)))
           tasks.

End Handles.

(** The rows among the calls of [render], in order. *)
Definition rows_of {Handle Task NameObject}
    (calls : list (@HandlesCall Handle Task NameObject))
    : list (Handle * Task * string * (string + NameObject)) :=
  omap (λ call, match call with
                | handles_table_row handle task object_type name =>
                    Some (handle, task, object_type, name)
                | _ => None
                end) calls.

(** The progress reports among the calls of [render], in order. *)
Definition progress_of {Handle Task NameObject}
    (calls : list (@HandlesCall Handle Task NameObject)) : list (Task * nat) :=
  omap (λ call, match call with
                | handles_report_progress task count => Some (task, count)
                | _ => None
                end) calls.

(** A handle table of four handles, numbered: a file without name, a handle
    whose type is not found, a process, and a mutant named by a lone
    apostrophe. The name objects of [NameInfo] are their texts, true when
    not empty. *)
Definition table_object_type (handle : nat) : option string :=
  match handle with
  | 0 => Some "File"
  | 2 => Some "Process"
  | 3 => Some "Mutant"
  | _ => None
  end.
Definition table_NameInfo (handle : nat) : option string :=
  match handle with
  | 0 => Some "named in NameInfo"
  | 3 => Some "'"
  | _ => None
  end.
Definition table_truth (name : string) : bool := negb (String.eqb name "").
Definition table_enumerate (object_list : option (list string)) (named_only : bool)
    : list (nat * string * (string + string)) :=
  enumerate_handles table_object_type (λ _, "") (λ _, "")
    (λ _, ("cmd.exe", "1234")) (λ _, ("0", "0")) table_NameInfo table_truth
    (λ _ : unit, true) (λ _, [0; 1; 2; 3]) object_list named_only tt.

(** * Declaring arguments and requirements: the [args] class methods *)

(** A call on the metadata object that [args] receives: [add_argument] with
    its option strings and its keywords other than the help text ([True]
    written [OInt 1]), or [add_requirement]. The object belongs to [config.CommandMetadata],
    outside the module; it is taken to record the calls. *)
Inductive Declaration : Type :=
  | add_argument (names : list string) (options : list (string * PyObj))
  | add_requirement (requirement : string).

(** The classes of the two plugin files that define [args]. *)
Inductive ArgsClass : Type :=
  | Args_Command
  | Args_ProfileCommand
  | Args_KernelASMixin
  | Args_PhysicalASMixin
  | Args_VerbosityMixIn
  | Args_Handles.

Global Instance ArgsClass_eq_dec : EqDecision ArgsClass.
Proof. solve_decision. Defined.

(** The calls a class's [args] makes itself. *)
Definition own_declarations (cls : ArgsClass) : list Declaration :=
  match cls with
  | Args_Command => []
  | Args_ProfileCommand =>
      [add_argument ["-p"; "--profile"] [("critical", OInt 1)];
       add_requirement "profile"]
  | Args_KernelASMixin => [add_argument ["--dtb"] [("type", OStr "IntParser")]]
  | Args_PhysicalASMixin => [add_requirement "physical_address_space"]
  | Args_VerbosityMixIn =>
      [add_argument ["-V"; "--verbosity"]
                    [("default", OInt 1); ("type", OStr "IntParser")]]
  | Args_Handles =>
      [add_argument ["-t"; "--object_types"] [("type", OStr "ArrayStringParser")];
       add_argument ["--named_only"] [("type", OStr "Boolean")]]
  end.

(** [Command.args] and [ProfileCommand.args] do not call [super]. *)
Definition calls_super (cls : ArgsClass) : bool :=
  match cls with
  | Args_Command | Args_ProfileCommand => false
  | _ => true
  end.

(** [cls.args(metadata)] for a class whose method resolution order has
    [mro] as its classes that define [args]: a class that calls [super]
    does so before its own calls; past the last class, [super] has no
    [args]. *)
Fixpoint args (mro : list ArgsClass) : Result (list Declaration) :=
  match mro with
  | [] => Raise AttributeError
  | cls :: rest =>
      if calls_super cls
      then rbind (args rest) (λ declared, Ok (declared ++ own_declarations cls))
      else Ok (own_declarations cls)
  end.

(** * Properties *)

(** ** PluginHeader: construction *)

Section header_construction.
Implicit Types (columns : list Column) (column : Column).
Implicit Types (st : gmap PyObj Column * gmap PyObj Column).

Lemma truthy_cname_nonempty column :
  truthy (cname_of column) = true → dict_truthy column = true.
Proof.
  unfold cname_of, dict_get, dict_truthy. intros Ht.
  rewrite bool_decide_eq_false_2; [done|].
  intros ->. by rewrite lookup_empty in Ht.
Qed.

Lemma truthy_cname_lookup column :
  truthy (cname_of column) = true → column !! "cname" = Some (cname_of column).
Proof.
  unfold cname_of, dict_get. by destruct (column !! "cname").
Qed.

(** What a round that does not raise has checked and done. *)
Lemma add_column_Ok all st column st' :
  filed_by_cname st.1 →
  add_column all st column = Ok st' ↔
    truthy (cname_of column) = true ∧ st.1 !! cname_of column = None ∧
    st' = (<[cname_of column := column]> st.1,
           if truthy (name_of column) then <[name_of column := column]> st.2
           else st.2).
Proof.
  intros Hfiled. unfold add_column. fold (cname_of column) (name_of column).
  destruct (truthy (cname_of column)) eqn:Ht; simpl; [|naive_solver].
  destruct (st.1 !! cname_of column) as [old|] eqn:Hold; simpl.
  - destruct (Hfiled _ _ Hold) as [Hk Htk].
    rewrite truthy_cname_nonempty by congruence. naive_solver.
  - naive_solver.
Qed.

Lemma filed_by_cname_insert (m : gmap PyObj Column) column :
  filed_by_cname m → truthy (cname_of column) = true →
  filed_by_cname (<[cname_of column := column]> m).
Proof.
  intros Hm Ht k c. rewrite lookup_insert.
  case_decide; [naive_solver|apply Hm].
Qed.

Lemma index_by_cname_fresh columns : ∀ (m : gmap PyObj Column) k,
  k ∉ cnames columns → index_by_cname columns m !! k = m !! k.
Proof.
  unfold index_by_cname, cnames.
  induction columns as [|column rest IH]; intros m k Hk; simpl; [done|].
  rewrite fmap_cons, not_elem_of_cons in Hk. destruct Hk as [Hne Hk].
  rewrite IH by done. by rewrite lookup_insert_ne.
Qed.

(** The constructor's loop succeeds exactly on the columns it accepts,
    and then leaves the two indexes. *)
Lemma add_columns_Ok all columns : ∀ st st',
  filed_by_cname st.1 →
  add_columns all st columns = Ok st' ↔
    well_formed columns ∧ (∀ k, k ∈ cnames columns → st.1 !! k = None) ∧
    st' = (index_by_cname columns st.1, index_by_name columns st.2).
Proof.
  unfold well_formed, cnames, index_by_cname, index_by_name.
  induction columns as [|column rest IH]; intros st st' Hfiled; simpl.
  - split.
    + intros [= <-]. split_and!; [constructor|constructor|set_solver|by destruct st].
    + intros (_ & _ & ->). by destruct st.
  - destruct (add_column all st column) as [st1|e] eqn:Hc; simpl.
    + apply add_column_Ok in Hc as (Ht & Hfresh & ->); [|done].
      rewrite IH by (by apply filed_by_cname_insert). simpl.
      rewrite Forall_cons, NoDup_cons. split.
      * intros ((HF & HN) & Hk & ->). split_and!; try done.
        -- intros Hin. specialize (Hk _ Hin). by rewrite lookup_insert_eq in Hk.
        -- intros k [->|Hin]%elem_of_cons; [done|].
           specialize (Hk _ Hin). rewrite lookup_insert in Hk. by case_decide.
      * intros (((_ & HF) & (Hnin & HN)) & Hk & ->). split_and!; try done.
        intros k Hin. rewrite lookup_insert_ne by (intros <-; done).
        apply Hk. by right.
    + split; [done|]. intros ((HF & HN) & Hk & _).
      apply Forall_cons in HF as [Ht _].
      assert (add_column all st column =
              Ok (<[cname_of column := column]> st.1,
                  if truthy (name_of column) then <[name_of column := column]> st.2
                  else st.2)) as Hok.
      { apply add_column_Ok; [done|]. split_and!; [done| |done].
        apply Hk. by left. }
      congruence.
Qed.

Lemma dom_index_by_cname columns : ∀ (m : gmap PyObj Column),
  dom (index_by_cname columns m) = dom m ∪ list_to_set (cnames columns).
Proof.
  unfold index_by_cname, cnames.
  induction columns as [|column rest IH]; intros m; simpl.
  - set_solver.
  - rewrite IH, dom_insert_L. set_solver.
Qed.

Lemma dom_index_by_name columns : ∀ (m : gmap PyObj Column),
  dom (index_by_name columns m) = dom m ∪ list_to_set (provided_names columns).
Proof.
  unfold index_by_name, provided_names.
  induction columns as [|column rest IH]; intros m; simpl.
  - set_solver.
  - rewrite IH, filter_cons.
    destruct (truthy (name_of column)) eqn:Ht.
    + rewrite decide_True by done. rewrite dom_insert_L. set_solver.
    + rewrite decide_False by congruence. done.
Qed.

(** The constructor, in closed form. *)
Lemma PluginHeader__init__Ok columns h :
  PluginHeader__init__ columns = Ok h ↔
    well_formed columns ∧
    h = mkPluginHeader columns (index_by_cname columns ∅) (index_by_name columns ∅).
Proof.
  unfold PluginHeader__init__.
  destruct (add_columns columns (∅, ∅) columns) as [st|e] eqn:Hadd; simpl.
  - apply add_columns_Ok in Hadd as (Hwf & _ & ->); [|by intros ? ? ?].
    simpl. naive_solver.
  - split; [done|]. intros [Hwf ->].
    assert (add_columns columns (∅, ∅) columns =
            Ok (index_by_cname columns ∅, index_by_name columns ∅)) as Hok.
    { apply (add_columns_Ok columns columns (∅, ∅)); [by intros ? ? ?|].
      split_and!; done. }
    congruence.
Qed.

(** The constructor raises on every other tuple of columns. *)
Lemma PluginHeader__init__Raise columns :
  ¬ well_formed columns → ∃ e, PluginHeader__init__ columns = Raise e.
Proof.
  intros Hnwf. destruct (PluginHeader__init__ columns) as [h|e] eqn:Hinit.
  - by apply PluginHeader__init__Ok in Hinit as [Hwf _].
  - by exists e.
Qed.

(** A header of one column whose cname is not true: the message is
    formatted, and [ValueError] raised. *)
Lemma PluginHeader__init__one_column column :
  truthy (cname_of column) = false →
  PluginHeader__init__ [column] = Raise ValueError.
Proof.
  intros Ht. unfold PluginHeader__init__. cbn [add_columns].
  unfold add_column. fold (cname_of column). by rewrite Ht.
Qed.

End header_construction.

(** C2 (as amended). Construction of a [PluginHeader] from column
    dictionaries fails, raising an exception, when two columns share a cname
    and when some column has no cname; it succeeds when every column's cname
    is present and true in Python's truth test (not [None], not empty, not
    zero) and the cnames are pairwise distinct, and then [all_names] is the
    union of the set of cnames and the set of the human names that are
    provided and true in the truth test. *)
Theorem PluginHeader_construction (columns : list Column) :
  ((∃ i j ci cj c, i ≠ j ∧ columns !! i = Some ci ∧ columns !! j = Some cj ∧
                   ci !! "cname" = Some c ∧ cj !! "cname" = Some c) →
   ∃ e, PluginHeader__init__ columns = Raise e) ∧
  ((∃ column, column ∈ columns ∧ column !! "cname" = None) →
   ∃ e, PluginHeader__init__ columns = Raise e) ∧
  (well_formed columns →
   ∃ h, PluginHeader__init__ columns = Ok h ∧ header h = columns ∧
        all_names h = list_to_set (cnames columns) ∪
                      list_to_set (provided_names columns)).
Proof.
  split_and!.
  - intros (i & j & ci & cj & c & Hij & Hi & Hj & Hci & Hcj).
    apply PluginHeader__init__Raise. intros [_ Hnd]. apply Hij.
    apply (NoDup_lookup (cnames columns) i j c Hnd); unfold cnames;
      rewrite list_lookup_fmap; [rewrite Hi|rewrite Hj]; simpl;
      unfold cname_of, dict_get; [by rewrite Hci|by rewrite Hcj].
  - intros (column & Hin & Hnone).
    apply PluginHeader__init__Raise. intros [Hall _].
    rewrite Forall_forall in Hall. specialize (Hall _ Hin).
    unfold cname_of, dict_get in Hall. by rewrite Hnone in Hall.
  - intros Hwf. eexists. split; [by apply PluginHeader__init__Ok|].
    split; [done|]. unfold all_names; simpl.
    rewrite dom_index_by_cname, dom_index_by_name, !dom_empty_L. set_solver.
Qed.

Lemma example_columns_well_formed : well_formed example_columns.
Proof.
  split.
  - repeat constructor.
  - unfold cnames. simpl. apply NoDup_cons. split; [|apply NoDup_singleton].
    rewrite list_elem_of_singleton. vm_compute. discriminate.
Defined.

Lemma example_header_constructed :
  PluginHeader__init__ example_columns = Ok example_header.
Proof. apply PluginHeader__init__Ok. split; [apply example_columns_well_formed|done]. Qed.

(** The example schema is accepted, and its names are the two cnames and the
    two human names. *)
Lemma PluginHeader_construction_witness :
  ∃ h, PluginHeader__init__ example_columns = Ok h ∧ header h = example_columns ∧
       all_names h = list_to_set (cnames example_columns) ∪
                     list_to_set (provided_names example_columns).
Proof.
  exact (proj2 (proj2 (PluginHeader_construction example_columns))
               example_columns_well_formed).
Defined.

(** C2, as stated, fails on a column whose cname is the empty string: the
    column has a cname, the cnames are distinct, and construction raises.
    It fails also on a column whose human name is the empty string: the
    header is constructed, and the name provided is not among its names. *)
Lemma PluginHeader_empty_cname_rejected :
  Forall (λ column : Column, is_Some (column !! "cname")) [empty_cname_column] ∧
  NoDup (cnames [empty_cname_column]) ∧
  PluginHeader__init__ [empty_cname_column] = Raise ValueError ∧
  empty_name_column !! "cname" = Some (OStr "offset") ∧
  empty_name_column !! "name" = Some (OStr "") ∧
  PluginHeader__init__ [empty_name_column]
    = Ok (mkPluginHeader [empty_name_column]
                         {[ OStr "offset" := empty_name_column ]} ∅) ∧
  all_names (mkPluginHeader [empty_name_column]
                            {[ OStr "offset" := empty_name_column ]} ∅)
    = {[ OStr "offset" ]}.
Proof.
  split_and!.
  - repeat constructor. by eexists.
  - apply NoDup_singleton.
  - reflexivity.
  - reflexivity.
  - reflexivity.
  - reflexivity.
  - unfold all_names. cbn [by_cname by_name].
    rewrite dom_singleton_L, dom_empty_L. set_solver.
Qed.

(** ** PluginHeader: lookups in a constructed header *)

Section constructed_header.
Context (columns : list Column) (h : PluginHeader).
Hypothesis constructed : PluginHeader__init__ columns = Ok h.

Lemma constructed_well_formed : well_formed columns.
Proof using constructed. by apply PluginHeader__init__Ok in constructed as [? _]. Qed.

Lemma constructed_header : header h = columns.
Proof using constructed. by apply PluginHeader__init__Ok in constructed as [_ ->]. Qed.

Lemma constructed_by_cname : by_cname h = index_by_cname columns ∅.
Proof using constructed. by apply PluginHeader__init__Ok in constructed as [_ ->]. Qed.

Lemma constructed_cname_lookup column :
  column ∈ columns → column !! "cname" = Some (cname_of column).
Proof using constructed.
  intros Hin. apply truthy_cname_lookup.
  destruct constructed_well_formed as [Hall _].
  rewrite Forall_forall in Hall. by apply Hall.
Qed.

(** A key that is no cname has no entry in [by_cname]. *)
Lemma constructed_by_cname_None member :
  member ∉ cnames columns → by_cname h !! member = None.
Proof using constructed.
  intros Hnin. rewrite constructed_by_cname.
  by rewrite index_by_cname_fresh.
Qed.
End constructed_header.

Lemma index_by_cname_lookup columns : ∀ (m : gmap PyObj Column) column,
  NoDup (cnames columns) → column ∈ columns →
  index_by_cname columns m !! cname_of column = Some column.
Proof.
  unfold index_by_cname, cnames.
  induction columns as [|c rest IH]; intros m column Hnd Hin; simpl.
  - by apply elem_of_nil in Hin.
  - rewrite fmap_cons in Hnd. apply NoDup_cons in Hnd as [Hc Hnd].
    apply elem_of_cons in Hin as [->|Hin].
    + change (index_by_cname rest (<[cname_of c := c]> m) !! cname_of c = Some c).
      rewrite index_by_cname_fresh by done. apply lookup_insert_eq.
    + by apply IH.
Qed.

(** Each column of a constructed header is the entry of its cname. *)
Lemma constructed_by_cname_Some columns h column :
  PluginHeader__init__ columns = Ok h → column ∈ columns →
  by_cname h !! cname_of column = Some column.
Proof.
  intros Hc Hin. rewrite (constructed_by_cname _ _ Hc).
  apply index_by_cname_lookup; [|done].
  by destruct (constructed_well_formed _ _ Hc).
Qed.

(** ** dictify and collect_as_dicts *)

Section dictify.
Context (hdr : list Column).
Hypothesis cname_present :
  ∀ column, column ∈ hdr → column !! "cname" = Some (cname_of column).
Hypothesis cnames_distinct : NoDup (cnames hdr).

(** The loop of [dictify], started at column [idx] with [result] built so
    far, on a row that does not run past the header. *)
Lemma dictify_from_fits (row : list PyObj) : ∀ idx (result : gmap PyObj PyObj),
  (idx + length row ≤ length hdr)%nat →
  ∃ d, dictify_from hdr idx row result = Ok d ∧
       (∀ j c, (j < length row)%nat → cnames hdr !! (idx + j)%nat = Some c →
               d !! c = row !! j) ∧
       (∀ c, (∀ j, (j < length row)%nat → cnames hdr !! (idx + j)%nat ≠ Some c) →
             d !! c = result !! c).
Proof using cname_present cnames_distinct.
  induction row as [|value rest IH]; intros idx result Hlen; simpl in *.
  - exists result. split_and!; [done|intros; lia|done].
  - destruct (lookup_lt_is_Some_2 hdr idx) as [column Hcol]; [lia|].
    rewrite Hcol, (cname_present column) by (by eapply list_elem_of_lookup_2).
    destruct (IH (S idx) (<[cname_of column := value]> result)) as (d & -> & Hin & Hout);
      [lia|].
    assert (cnames hdr !! idx = Some (cname_of column)) as Hidx.
    { unfold cnames. by rewrite list_lookup_fmap, Hcol. }
    exists d. split_and!; [done| |].
    + intros [|j] c Hj Hc.
      * rewrite Nat.add_0_r, Hidx in Hc. injection Hc as <-.
        rewrite Hout; [by rewrite lookup_insert_eq|].
        intros j Hj' Hdup.
        pose proof (NoDup_lookup _ _ _ _ cnames_distinct Hidx Hdup). lia.
      * simpl. apply Hin; [lia|]. by replace (S idx + j) with (idx + S j) by lia.
    + intros c Hc. rewrite Hout.
      * apply lookup_insert_ne. intros <-. apply (Hc 0); [lia|].
        by rewrite Nat.add_0_r.
      * intros j Hj. replace (S idx + j) with (idx + S j) by lia. apply Hc. lia.
Qed.

(** A row as long as the header becomes a dictionary on exactly the
    cnames, each value under the cname of its position. *)
Lemma dictify_from_full (row : list PyObj) :
  length row = length hdr →
  ∃ d, dictify_from hdr 0 row ∅ = Ok d ∧
       dom d = list_to_set (cnames hdr) ∧
       (∀ j c, cnames hdr !! j = Some c → d !! c = row !! j).
Proof using cname_present cnames_distinct.
  intros Hlen.
  destruct (dictify_from_fits row 0 ∅) as (d & Hd & Hin & Hout); [lia|].
  assert (length (cnames hdr) = length hdr) as Hlc
    by (unfold cnames; by rewrite length_fmap).
  exists d. split_and!; [done| |].
  - apply set_eq. intros c. rewrite elem_of_dom, elem_of_list_to_set. split.
    + intros [v Hv]. destruct (decide (c ∈ cnames hdr)) as [|Hnin]; [done|].
      rewrite Hout in Hv; [by rewrite lookup_empty in Hv|].
      intros j _ Hj. apply Hnin. by eapply list_elem_of_lookup_2.
    + intros [j Hj]%list_elem_of_lookup_1.
      pose proof (lookup_lt_Some _ _ _ Hj) as Hlt.
      rewrite (Hin j c) by (simpl; done || lia).
      apply lookup_lt_is_Some_2. lia.
  - intros j c Hj. apply Hin; [|done].
    pose proof (lookup_lt_Some _ _ _ Hj). lia.
Qed.
End dictify.

Lemma gen_each_Ok {A B} (f : A → Result B) (g : A → B) items ending :
  Forall (λ x, f x = Ok (g x)) items →
  gen_each f items ending = mkGen (g <$> items) ending.
Proof.
  induction 1 as [|x rest Hx _ IH]; simpl; [done|]. by rewrite Hx, IH.
Qed.

Lemma gen_each_Forall2 {A B} (f : A → Result B) items results ending :
  Forall2 (λ x y, f x = Ok y) items results →
  gen_each f items ending = mkGen results ending.
Proof.
  induction 1 as [|x y rest ys Hx _ IH]; simpl; [done|]. by rewrite Hx, IH.
Qed.

(** C4 (as amended). For a constructed schema and rows that each have as
    many values as the schema has columns, [collect_as_dicts()] yields one
    dictionary per row of [collect()], in the same order, and ends as
    [collect()] ends; each dictionary's key set is the schema's set of
    cnames, and it holds each value of the row under the cname of the
    value's position. *)
Theorem collect_as_dicts_rows (columns : list Column) (h : PluginHeader)
    (collect : Gen (list PyObj)) :
  PluginHeader__init__ columns = Ok h →
  Forall (λ row, length row = length columns) (yielded collect) →
  length (yielded (collect_as_dicts (Some h) collect)) = length (yielded collect) ∧
  raised (collect_as_dicts (Some h) collect) = raised collect ∧
  ∀ i row, yielded collect !! i = Some row →
    ∃ d, yielded (collect_as_dicts (Some h) collect) !! i = Some d ∧
         dom d = list_to_set (cnames columns) ∧
         ∀ j c, cnames columns !! j = Some c → d !! c = row !! j.
Proof.
  intros Hc Hrows.
  pose proof (constructed_header _ _ Hc) as Hhdr.
  destruct (constructed_well_formed _ _ Hc) as [_ Hnd].
  assert (∃ dicts, Forall2 (λ row d, dictify h row = Ok d ∧
             dom d = list_to_set (cnames columns) ∧
             ∀ j c, cnames columns !! j = Some c → d !! c = row !! j)
            (yielded collect) dicts) as [dicts Hdicts].
  { induction Hrows as [|row rest Hrow _ [dicts IH]]; [by exists []|].
    destruct (dictify_from_full columns) with (row := row) as (d & Hd & Hdom & Hval);
      [by apply constructed_cname_lookup with h|done|done|].
    exists (d :: dicts). constructor; [|done].
    unfold dictify. by rewrite Hhdr. }
  unfold collect_as_dicts.
  rewrite (gen_each_Forall2 _ _ dicts).
  - simpl. split_and!; [symmetry; by eapply Forall2_length|done|].
    intros i row Hi.
    destruct (Forall2_lookup_l _ _ _ _ _ Hdicts Hi) as (d & Hd & _ & Hdom & Hval).
    by exists d.
  - eapply Forall2_impl; [done|]. by intros row d [? _].
Qed.

(** The example of the specification meets the hypotheses of
    [collect_as_dicts_rows]. *)
Lemma collect_as_dicts_rows_witness :
  PluginHeader__init__ example_columns = Ok example_header ∧
  Forall (λ row, length row = length example_columns) example_rows ∧
  length (yielded (collect_as_dicts (Some example_header) (mkGen example_rows None)))
    = length example_rows ∧
  raised (collect_as_dicts (Some example_header) (mkGen example_rows None)) = None ∧
  ∀ i row, example_rows !! i = Some row →
    ∃ d, yielded (collect_as_dicts (Some example_header) (mkGen example_rows None)) !! i
           = Some d ∧
         dom d = list_to_set (cnames example_columns) ∧
         ∀ j c, cnames example_columns !! j = Some c → d !! c = row !! j.
Proof.
  split; [exact example_header_constructed|].
  split; [repeat constructor|].
  apply (collect_as_dicts_rows example_columns example_header
           (mkGen example_rows None) example_header_constructed).
  repeat constructor.
Defined.

(** The dictionaries of the specification's example. *)
Example collect_as_dicts_example :
  collect_as_dicts (Some example_header) (mkGen example_rows None) =
  mkGen [ {[ OStr "offset" := OInt 4096; OStr "name" := OStr "A" ]};
          {[ OStr "offset" := OInt 8192; OStr "name" := OStr "B" ]} ] None.
Proof. reflexivity. Qed.

(** C4, as stated, fails on rows whose length is not the schema's: a short
    row gives a dictionary without some cname, and a long row ends the
    iteration with [IndexError] before any dictionary is yielded for it. *)
Lemma collect_as_dicts_arity_mismatch :
  PluginHeader__init__ example_columns = Ok example_header ∧
  collect_as_dicts (Some example_header) (mkGen [short_row] None) =
    mkGen [ {[ OStr "offset" := OInt 4096 ]} ] None ∧
  dom ({[ OStr "offset" := OInt 4096 ]} : gmap PyObj PyObj)
    ≠ list_to_set (cnames example_columns) ∧
  collect_as_dicts (Some example_header) (mkGen [long_row] None) =
    mkGen [] (Some IndexError).
Proof.
  split; [exact example_header_constructed|].
  split; [reflexivity|]. split; [|reflexivity].
  intros Heq. assert (OStr "name" ∈ dom ({[ OStr "offset" := OInt 4096 ]} : gmap PyObj PyObj)) as Hin.
  { rewrite Heq. apply elem_of_list_to_set. unfold cnames; simpl. set_solver. }
  apply elem_of_dom in Hin as [v Hv].
  rewrite lookup_singleton_ne in Hv; [done|]. discriminate.
Qed.

(** ** Producer *)

(** C3. When every row that [collect()] yields has a first element,
    [produce()] yields exactly those first elements, one per row and in the
    rows' order, and ends as [collect()] ends. *)
Theorem produce_first_column (collect : Gen (list PyObj)) (firsts : list PyObj) :
  Forall2 (λ row first, head row = Some first) (yielded collect) firsts →
  produce collect = mkGen firsts (raised collect).
Proof.
  intros Hfirsts. unfold produce. apply gen_each_Forall2.
  eapply Forall2_impl; [done|]. intros [|v row] first; simpl; congruence.
Qed.

(** A producer of two objects. *)
Lemma produce_first_column_witness :
  Forall2 (λ row first, head row = Some first) producer_rows [OObject 1; OObject 2] ∧
  produce (mkGen producer_rows None) = mkGen [OObject 1; OObject 2] None.
Proof.
  split; [repeat constructor|].
  apply (produce_first_column (mkGen producer_rows None)). repeat constructor.
Defined.

(** A row without a first element ends the iteration with [IndexError],
    after the first elements of the rows before it. *)
Lemma produce_empty_row before after ending firsts :
  Forall2 (λ row first, head row = Some first) before firsts →
  produce (mkGen (before ++ [] :: after) ending) = mkGen firsts (Some IndexError).
Proof.
  unfold produce; simpl. induction 1 as [|row first ? ? Hrow _ IH]; simpl; [done|].
  destruct row; simplify_eq/=. by rewrite IH.
Qed.

(** ** Rendering *)

(** C8. On every renderer, the default [render] has the effect of the call
    [table_header(self.table_header)] followed by one [table_row] call per
    row that [collect()] yields, in order, with the row's values as the
    positional arguments, and of no other call; the
    recording renderer's log grows by exactly these calls. *)
Theorem render_calls `{Renderer R} (table_header : option PluginHeader)
    (collect : Gen (list PyObj)) (renderer : R) (log : list RendererCall) :
  render table_header collect renderer =
    (fold_left (λ r call, renderer_call call r)
               (call_table_header table_header :: (call_table_row <$> yielded collect))
               renderer,
     raised collect) ∧
  render table_header collect log =
    (log ++ call_table_header table_header :: (call_table_row <$> yielded collect),
     raised collect).
Proof.
  assert (∀ `{Renderer R'} (r : R') rows,
            fold_left (λ r row, renderer_call (call_table_row row) r) rows r =
            fold_left (λ r call, renderer_call call r) (call_table_row <$> rows) r)
    as Hrows.
  { intros R' ? r rows. revert r. induction rows as [|row rows IH]; intros r; simpl;
      [done|apply IH]. }
  unfold render. split.
  - simpl. by rewrite Hrows.
  - f_equal. rewrite Hrows. simpl.
    generalize (call_table_row <$> yielded collect). intros calls.
    change (log ++ call_table_header table_header :: calls)
      with (log ++ [call_table_header table_header] ++ calls).
    rewrite app_assoc. generalize (log ++ [call_table_header table_header]).
    induction calls as [|call calls IH]; intros l; simpl.
    + by rewrite app_nil_r.
    + rewrite IH. by rewrite <-app_assoc.
Qed.

(** The rendering of the specification's example: the header, then the two
    rows. *)
Example render_example :
  render (Some example_header) (mkGen example_rows None) ([] : list RendererCall) =
  ([call_table_header (Some example_header);
    call_table_row [OInt 4096; OStr "A"];
    call_table_row [OInt 8192; OStr "B"]], None).
Proof. reflexivity. Qed.

(** ** reflect *)

(** C10. On a constructed schema, [reflect(key)] raises [KeyError] for every
    key that is no cname of the schema, whatever [find_column] makes of the
    key: [find_column] falls back to the human names, [reflect] does not. *)
Theorem reflect_KeyError (columns : list Column) (h : PluginHeader) (self : Dict)
    (member : PyObj) :
  PluginHeader__init__ columns = Ok h →
  member ∉ cnames columns →
  reflect (Some h) self member = Raise KeyError ∧
  find_column h member = by_name h !! member.
Proof.
  intros Hc Hnin. unfold reflect, find_column.
  rewrite (constructed_by_cname_None _ _ Hc); done.
Qed.

(** The human name ["Offset"] finds its column with [find_column], and is
    refused by [reflect]. *)
Lemma reflect_KeyError_witness :
  PluginHeader__init__ example_columns = Ok example_header ∧
  (OStr "Offset" ∉ cnames example_columns) ∧
  find_column example_header (OStr "Offset") = Some offset_column ∧
  reflect (Some example_header) ∅ (OStr "Offset") = Raise KeyError.
Proof.
  assert (OStr "Offset" ∉ cnames example_columns) as Hnin.
  { unfold cnames; simpl. rewrite !not_elem_of_cons. split_and!; try discriminate.
    apply not_elem_of_nil. }
  split; [exact example_header_constructed|]. split; [exact Hnin|].
  split; [reflexivity|].
  exact (proj1 (reflect_KeyError example_columns example_header ∅ (OStr "Offset")
                  example_header_constructed Hnin)).
Defined.

(** C9 (as amended). On a constructed schema and for a key that is the cname
    of a column, [reflect(key)] returns the column's declared type when it is
    a class; returns [None] when the column declares no type, or one that is
    false in a truth test; and, when the declared type is a non-empty string
    and the instance's [profile] attribute holds a profile, returns the class
    that this profile's [object_classes] has under that name, or [None] when
    it has none. *)
Theorem reflect_column_type (columns : list Column) (h : PluginHeader)
    (self : Dict) (column : Column) :
  PluginHeader__init__ columns = Ok h →
  column ∈ columns →
  (∀ cls, dict_get column "type" = OType cls →
     reflect (Some h) self (cname_of column) = Ok (OType cls)) ∧
  (truthy (dict_get column "type") = false →
     reflect (Some h) self (cname_of column) = Ok ONone) ∧
  (∀ type_name p,
     dict_get column "type" = OStr type_name → type_name ≠ "" →
     self !! "profile" = Some (OProfile p) →
     reflect (Some h) self (cname_of column) =
       Ok (from_option OType ONone (object_classes p !! type_name))).
Proof.
  intros Hc Hin. unfold reflect.
  rewrite (constructed_by_cname_Some _ _ _ Hc Hin).
  destruct (constructed_well_formed _ _ Hc) as [Hall _].
  rewrite Forall_forall in Hall.
  rewrite (truthy_cname_nonempty column) by (by apply Hall). simpl.
  split_and!.
  - by intros cls ->.
  - intros Hf. destruct (dict_get column "type"); simpl in *; try done; by rewrite Hf.
  - intros type_name p -> Hne Hp. simpl.
    destruct (String.eqb_spec type_name ""); [done|]. simpl. by rewrite Hp.
Qed.

(** The ["offset"] column of the example declares the type name ["address"];
    an instance holding [profile_with_address] reflects it to the profile's
    class. *)
Lemma reflect_column_type_witness :
  PluginHeader__init__ example_columns = Ok example_header ∧
  offset_column ∈ example_columns ∧
  reflect (Some example_header) {[ "profile" := OProfile profile_with_address ]}
          (cname_of offset_column) = Ok (OType "Address").
Proof.
  split; [exact example_header_constructed|].
  assert (offset_column ∈ example_columns) as Hin by (by left).
  split; [exact Hin|].
  exact (proj2 (proj2 (reflect_column_type example_columns example_header
                         {[ "profile" := OProfile profile_with_address ]}
                         offset_column example_header_constructed Hin))
               "address" profile_with_address eq_refl
               ltac:(discriminate) eq_refl).
Defined.

(** ** The session's profile *)

Lemma HasParameter_true item s :
  HasParameter item s = true ↔ dict_get (state s) item ≠ ONone.
Proof. unfold HasParameter. apply bool_decide_eq_true. Qed.

Lemma HasParameter_false item s :
  HasParameter item s = false ↔ dict_get (state s) item = ONone.
Proof.
  unfold HasParameter. rewrite bool_decide_eq_false.
  split; [apply dec_stable|by intros -> ?].
Qed.

(** Reading [session.profile] gives the resolved profile, and leaves a
    session that resolves to the same profile; a session that already has
    the parameter, or whose autodetection finds nothing, is left as it
    was. *)
Lemma session_profile_resolves s :
  ∃ s', session_profile s = (Ok (resolved_profile s), s') ∧
        resolved_profile s' = resolved_profile s ∧
        (HasParameter "profile_obj" s = true ∨ resolved_profile s = ONone → s' = s).
Proof.
  unfold session_profile, GetParameter, resolved_profile.
  destruct (HasParameter "profile_obj" s) eqn:Hhas.
  - exists s. by rewrite Hhas.
  - case_bool_decide as Hfound.
    + exists s. rewrite Hhas. split_and!; [done|done|done].
    + eexists. split; [done|]. split.
      * assert (HasParameter "profile_obj"
                  (mkSession (<["profile_obj" := dict_get (hooks s) "profile_obj"]> (state s))
                             (hooks s) (privileged s)) = true) as ->.
        { apply HasParameter_true. simpl. unfold dict_get at 1.
          by rewrite lookup_insert_eq. }
        simpl. unfold dict_get at 1. by rewrite lookup_insert_eq.
      * intros [?|?]; done.
Qed.

(** ** Activation *)

Lemma ProfileCommand_is_active_resolves (s : Session) :
  ProfileCommand_is_active false s = (Ok true, s) ∧
  ∃ s', ProfileCommand_is_active true s =
          (Ok (bool_decide (resolved_profile s ≠ ONone)), s') ∧
        resolved_profile s' = resolved_profile s.
Proof.
  split; [done|].
  destruct (session_profile_resolves s) as (s' & Hread & Hsame & _).
  exists s'. split; [|done].
  unfold ProfileCommand_is_active, Command_is_active, bind, ret. by rewrite Hread.
Qed.

(** C6. [Command.is_active] returns [True] on every session.
    [ProfileCommand.is_active] returns a boolean and never raises: [True]
    when [PROFILE_REQUIRED] is false; and when it is true, [True] exactly
    when the session's profile resolves to something other than [None], the
    session resolving to the same profile afterwards. *)
Theorem is_active_total (s : Session) :
  Command_is_active s = (Ok true, s) ∧
  ProfileCommand_is_active false s = (Ok true, s) ∧
  ∃ s', ProfileCommand_is_active true s =
          (Ok (bool_decide (resolved_profile s ≠ ONone)), s') ∧
        resolved_profile s' = resolved_profile s.
Proof.
  split; [done|]. apply ProfileCommand_is_active_resolves.
Qed.

(** The activation checks the module defines are stable in the sense the
    database's resolution needs: on all sessions that resolve to the profile
    [p], they give one answer and stay among these sessions. *)
Lemma inherited_is_active_stable PROFILE_REQUIRED p s1 :
  resolved_profile s1 = p →
  ∃ s2, ProfileCommand_is_active PROFILE_REQUIRED s1 =
          (Ok (negb PROFILE_REQUIRED || bool_decide (p ≠ ONone)), s2) ∧
        resolved_profile s2 = p.
Proof.
  intros <-. destruct (ProfileCommand_is_active_resolves s1) as (Hfalse & s2 & Htrue & Hsame).
  destruct PROFILE_REQUIRED; simpl; [by exists s2|by exists s1].
Qed.

(** ** Construction *)

Lemma bind_Raise {A B} (m : M A) (k : A → M B) e s s' :
  m s = (Raise e, s') → bind m k s = (Raise e, s').
Proof. unfold bind. by intros ->. Qed.

Lemma bind_Ok {A B} (m : M A) (k : A → M B) a s s' :
  m s = (Ok a, s') → bind m k s = k a s'.
Proof. unfold bind. by intros ->. Qed.

(** The keywords that reach [Command.__init__] decide: one that is not the
    session, or no session, and it raises [InvalidArgs]. *)
Lemma Command__init__InvalidArgs (kwargs self : Dict) s :
  (∃ k, is_Some (kwargs !! k) ∧ k ≠ "session") ∨ dict_get kwargs "session" = ONone →
  Command__init__ kwargs self s = (Raise InvalidArgs, s).
Proof.
  intros Hbad. unfold Command__init__, dict_truthy.
  case_bool_decide as Hempty; simpl; [|done].
  case_bool_decide as Hsession; [done|].
  destruct Hbad as [(k & [v Hk] & Hne)|Hnone]; [|done].
  assert (delete "session" kwargs !! k = Some v) as Hin
    by (by rewrite lookup_delete_ne).
  by rewrite Hempty, lookup_empty in Hin.
Qed.

Lemma init_chain_InvalidArgs PROFILE_REQUIRED mro : ∀ (kwargs self : Dict) s,
  (∃ k, is_Some (kwargs !! k) ∧ k ∉ recognized mro) ∨ dict_get kwargs "session" = ONone →
  init_chain PROFILE_REQUIRED mro kwargs self s = (Raise InvalidArgs, s).
Proof.
  unfold recognized.
  induction mro as [|base rest IH]; intros kwargs self s Hbad; simpl.
  - apply Command__init__InvalidArgs.
    destruct Hbad as [(k & Hk & Hnin)|?]; [left|by right].
    exists k. split; [done|]. intros ->. apply Hnin. by left.
  - destruct base; simpl in Hbad.
    + apply bind_Raise, IH.
      destruct Hbad as [(k & Hk & Hnin)|Hnone].
      * left. exists k. rewrite !not_elem_of_cons in Hnin.
        destruct Hnin as (Hs & Hp & Hrest).
        split; [by rewrite lookup_delete_ne|].
        rewrite not_elem_of_cons. done.
      * right. unfold dict_get in *. by rewrite lookup_delete_ne.
    + apply IH.
      destruct Hbad as [(k & Hk & Hnin)|Hnone].
      * left. exists k. rewrite !not_elem_of_cons in Hnin.
        destruct Hnin as (Hs & Hp & Hrest).
        split; [by rewrite lookup_delete_ne|].
        rewrite not_elem_of_cons. done.
      * right. unfold dict_get in *. by rewrite lookup_delete_ne.
    + apply bind_Raise, IH.
      destruct Hbad as [(k & Hk & Hnin)|Hnone]; [left|by right].
      by exists k.
Qed.

(** C7 (as amended). Calling a plugin class with keywords none of which is
    named [self]: a keyword that no class of the constructor chain accepts,
    or the lack of a session (no [session] keyword, or [None] for it),
    raises [InvalidArgs]: no instance is produced, and the session is left
    as it was. *)
Theorem construct_InvalidArgs (PROFILE_REQUIRED : bool) (mro : list Base)
    (kwargs : Dict) (s : Session) :
  kwargs !! "self" = None →
  (∃ k, is_Some (kwargs !! k) ∧ k ∉ recognized mro) ∨
    dict_get kwargs "session" = ONone →
  call_class PROFILE_REQUIRED mro kwargs s = (Raise InvalidArgs, s).
Proof.
  intros Hself Hbad. unfold call_class.
  rewrite bool_decide_eq_false_2 by (rewrite Hself; by intros [? ?]).
  by apply init_chain_InvalidArgs.
Qed.

(** A keyword that neither [VerbosityMixIn] nor [ProfileCommand] nor
    [Command] takes, and a construction without session. *)
Lemma construct_InvalidArgs_witness :
  (∃ k, is_Some (({[ "session" := OSession; "pid" := OInt 4 ]} : Dict) !! k) ∧
        k ∉ recognized [VerbosityMixIn; ProfileCommand]) ∧
  call_class true [VerbosityMixIn; ProfileCommand]
             {[ "session" := OSession; "pid" := OInt 4 ]} blank_session
    = (Raise InvalidArgs, blank_session) ∧
  dict_get ({[ "profile" := OProfile profile_with_address ]} : Dict) "session" = ONone ∧
  call_class true [ProfileCommand] {[ "profile" := OProfile profile_with_address ]}
             blank_session
    = (Raise InvalidArgs, blank_session).
Proof.
  assert (∃ k, is_Some (({[ "session" := OSession; "pid" := OInt 4 ]} : Dict) !! k) ∧
               k ∉ recognized [VerbosityMixIn; ProfileCommand]) as Hpid.
  { exists "pid". split; [by eexists|].
    unfold recognized; simpl. rewrite !not_elem_of_cons.
    split_and!; try discriminate. apply not_elem_of_nil. }
  split; [exact Hpid|].
  split; [exact (construct_InvalidArgs true [VerbosityMixIn; ProfileCommand]
                   {[ "session" := OSession; "pid" := OInt 4 ]} blank_session
                   eq_refl (or_introl Hpid))|].
  split; [reflexivity|].
  exact (construct_InvalidArgs true [ProfileCommand]
           {[ "profile" := OProfile profile_with_address ]} blank_session
           eq_refl (or_intror eq_refl)).
Defined.

(** C7, as stated, fails on a keyword named [self]: no class of the chain
    accepts it, and the call raises [TypeError], not [InvalidArgs]. *)
Lemma call_class_self_keyword :
  recognized [VerbosityMixIn; ProfileCommand] = ["session"; "verbosity"; "profile"] ∧
  self_keywords !! "self" = Some (OInt 1) ∧
  call_class true [VerbosityMixIn; ProfileCommand] self_keywords blank_session
    = (Raise TypeError, blank_session).
Proof. split_and!; reflexivity. Qed.

(** A recognized keyword set with a session goes through: the instance holds
    the session and the verbosity. *)
Example construct_example :
  fst (construct false [VerbosityMixIn; ProfileCommand]
         {[ "session" := OSession; "verbosity" := OInt 5 ]} blank_session)
  = Ok {[ "session" := OSession; "verbosity" := OInt 5 ]}.
Proof.
  reflexivity.
Qed.

(** [Command.__init__] with the session as its only keyword. *)
Lemma Command__init__Ok (kwargs self : Dict) s :
  delete "session" kwargs = ∅ → dict_get kwargs "session" ≠ ONone →
  Command__init__ kwargs self s = (Ok (<["session" := dict_get kwargs "session"]> self), s).
Proof.
  intros Hrest Hsession. unfold Command__init__, dict_truthy.
  rewrite bool_decide_eq_true_2 by done. simpl.
  by rewrite bool_decide_eq_false_2.
Qed.

Lemma self_session_Ok (self : Dict) s :
  self !! "session" = Some OSession → self_session self s = (Ok tt, s).
Proof. unfold self_session. by intros ->. Qed.

(** The body of [ProfileCommand.__init__], given a profile: the profile is
    installed into the session and becomes the instance's. *)
Lemma ProfileCommand_acquire_override PROFILE_REQUIRED profile (self : Dict) s :
  self !! "session" = Some OSession → profile ≠ ONone →
  ProfileCommand_acquire PROFILE_REQUIRED profile self s =
    (Ok (<["profile" := profile]> self), with_profile profile s).
Proof.
  intros Hself Hprofile. unfold ProfileCommand_acquire.
  rewrite bool_decide_eq_true_2 by done.
  assert (HasParameter "profile_obj" (with_profile profile s) = true) as Hhas.
  { apply HasParameter_true. simpl. unfold dict_get. by rewrite lookup_insert_eq. }
  unfold bind, self_session, session_set_profile, ret. rewrite Hself.
  fold (with_profile profile s). rewrite Hhas.
  unfold session_profile, GetParameter. rewrite Hhas.
  simpl. unfold dict_get. by rewrite lookup_insert_eq.
Qed.

(** The body of [ProfileCommand.__init__], given no profile, on a session
    whose profile is not set. *)
Lemma ProfileCommand_acquire_unset PROFILE_REQUIRED (self : Dict) s :
  self !! "session" = Some OSession →
  dict_get (state s) "profile_obj" = ONone →
  dict_get (hooks s) "profile_obj" = ONone →
  ProfileCommand_acquire PROFILE_REQUIRED ONone self s =
    (if PROFILE_REQUIRED then Raise PluginError else Ok self, s).
Proof.
  intros Hself Hstate Hhooks. unfold ProfileCommand_acquire.
  rewrite bool_decide_eq_false_2 by (by intros ?).
  assert (HasParameter "profile_obj" s = false) as Hhas
    by (by apply HasParameter_false).
  unfold bind, self_session, ret. rewrite Hself, Hhas.
  destruct PROFILE_REQUIRED; [|done].
  unfold raise, session_profile, GetParameter.
  rewrite Hhas, Hhooks. by rewrite bool_decide_eq_true_2.
Qed.

(** The body of [ProfileCommand.__init__], given no profile, on a session
    that has its profile. *)
Lemma ProfileCommand_acquire_set PROFILE_REQUIRED (self : Dict) s :
  self !! "session" = Some OSession →
  dict_get (state s) "profile_obj" ≠ ONone →
  ProfileCommand_acquire PROFILE_REQUIRED ONone self s =
    (Ok (<["profile" := dict_get (state s) "profile_obj"]> self), s).
Proof.
  intros Hself Hstate. unfold ProfileCommand_acquire.
  rewrite bool_decide_eq_false_2 by (by intros ?).
  assert (HasParameter "profile_obj" s = true) as Hhas
    by (by apply HasParameter_true).
  unfold bind, self_session, ret. rewrite Hself, Hhas.
  unfold session_profile, GetParameter. by rewrite Hhas.
Qed.

(** C5. On a session whose profile is not set and cannot be autodetected,
    constructing a plugin with [PROFILE_REQUIRED] true raises [PluginError]
    when no profile is given; when a profile is given, construction returns
    the instance, whose [profile] is the given one, and the given profile is
    installed into the session. *)
Theorem ProfileCommand_requires_profile (s : Session) :
  dict_get (state s) "profile_obj" = ONone →
  dict_get (hooks s) "profile_obj" = ONone →
  ProfileCommand__init__ true {[ "session" := OSession ]} s = (Raise PluginError, s) ∧
  ∀ profile, profile ≠ ONone →
    ProfileCommand__init__ true {[ "session" := OSession; "profile" := profile ]} s =
      (Ok (<["profile" := profile]> {[ "session" := OSession ]}),
       with_profile profile s) ∧
    resolved_profile (with_profile profile s) = profile.
Proof.
  intros Hstate Hhooks. unfold ProfileCommand__init__, construct. simpl. split.
  - erewrite bind_Ok.
    + apply (ProfileCommand_acquire_unset true); [|done|done].
      apply lookup_insert_eq.
    + rewrite delete_singleton_ne by done.
      rewrite Command__init__Ok; [done| |done].
      by rewrite delete_singleton_eq.
  - intros profile Hprofile. split.
    + erewrite bind_Ok.
      * unfold dict_get at 1. rewrite lookup_insert_ne, lookup_singleton_eq by done.
        simpl. apply ProfileCommand_acquire_override; [|done].
        apply lookup_insert_eq.
      * rewrite delete_insert_ne, delete_singleton_eq, insert_empty by done.
        rewrite Command__init__Ok; [by rewrite insert_empty| |done].
        by rewrite delete_singleton_eq.
    + unfold resolved_profile.
      assert (HasParameter "profile_obj" (with_profile profile s) = true) as ->.
      { apply HasParameter_true. simpl. unfold dict_get. by rewrite lookup_insert_eq. }
      simpl. unfold dict_get. by rewrite lookup_insert_eq.
Qed.

(** On the blank session, construction fails without a profile and succeeds
    with [profile_with_address]. *)
Lemma ProfileCommand_requires_profile_witness :
  dict_get (state blank_session) "profile_obj" = ONone ∧
  dict_get (hooks blank_session) "profile_obj" = ONone ∧
  ProfileCommand__init__ true {[ "session" := OSession ]} blank_session
    = (Raise PluginError, blank_session) ∧
  ProfileCommand__init__ true
      {[ "session" := OSession; "profile" := OProfile profile_with_address ]}
      blank_session
    = (Ok (<["profile" := OProfile profile_with_address]> {[ "session" := OSession ]}),
       with_profile (OProfile profile_with_address) blank_session).
Proof.
  split; [reflexivity|]. split; [reflexivity|].
  destruct (ProfileCommand_requires_profile blank_session eq_refl eq_refl)
    as [Hraise Hgiven].
  split; [exact Hraise|].
  exact (proj1 (Hgiven (OProfile profile_with_address) ltac:(discriminate))).
Defined.

(** C9, as stated, fails when the session's profile changes after the
    instance was constructed: the instance built on
    [session_with_address] keeps that profile; constructing a second plugin
    with [profile_without_types] installs it into the session; the name
    ["address"] then resolves to [None] in the session's profile, while
    [reflect] still answers with the class of the instance's profile. *)
Lemma reflect_uses_instance_profile :
  construct true [ProfileCommand] {[ "session" := OSession ]} session_with_address
    = (Ok instance_with_address, session_with_address) ∧
  snd (construct true [ProfileCommand]
         {[ "session" := OSession; "profile" := OProfile profile_without_types ]}
         session_with_address)
    = with_profile (OProfile profile_without_types) session_with_address ∧
  resolve_in_session "address"
      (with_profile (OProfile profile_without_types) session_with_address)
    = (Ok ONone, with_profile (OProfile profile_without_types) session_with_address) ∧
  reflect (Some example_header) instance_with_address (OStr "offset")
    = Ok (OType "Address").
Proof.
  split_and!; reflexivity.
Qed.

(** ** The metadata database *)

(** [Rebuild] files each class under its name, in registry order. *)
Lemma Rebuild_from (classes : list PluginClass) :
  ∀ (db : gmap PyObj (list CommandMetadata)) plugin_name,
  default [] (fold_left
                (λ db plugin_cls,
                   <[name plugin_cls :=
                       default [] (db !! name plugin_cls) ++ [mkCommandMetadata plugin_cls]]> db)
                classes db !! plugin_name)
  = default [] (db !! plugin_name) ++
    (mkCommandMetadata <$> implementations plugin_name classes).
Proof.
  unfold implementations.
  induction classes as [|cls rest IH]; intros db plugin_name; simpl.
  - by rewrite app_nil_r.
  - rewrite IH, filter_cons. destruct (decide (name cls = plugin_name)) as [<-|Hne].
    + rewrite lookup_insert_eq. simpl. by rewrite <-app_assoc.
    + by rewrite lookup_insert_ne.
Qed.

Lemma Rebuild_lookup (classes : list PluginClass) plugin_name :
  default [] (Rebuild classes !! plugin_name)
  = mkCommandMetadata <$> implementations plugin_name classes.
Proof. unfold Rebuild. by rewrite Rebuild_from, lookup_empty. Qed.

Section active_results.
Context (reports : PluginClass → bool) (stable : Session → Prop).

(** The loop of [GetActivePlugin] over classes whose [is_active] answers
    as [reports] says on every session in [stable], and keeps the session
    there. *)
Lemma active_results_stable (candidates : list PluginClass) :
  ∀ results s,
  stable s →
  (∀ cls s1, cls ∈ candidates → stable s1 →
     ∃ s2, is_active cls s1 = (Ok (reports cls), s2) ∧ stable s2) →
  ∃ s', stable s' ∧
        active_results (mkCommandMetadata <$> candidates) results s =
          (Ok (results ++ (mkCommandMetadata <$> reporting_active reports candidates)),
           s').
Proof.
  unfold reporting_active.
  induction candidates as [|cls rest IH]; intros results s Hs Hreports; simpl.
  - exists s. by rewrite app_nil_r.
  - destruct (Hreports cls s) as (s1 & Hcls & Hs1); [by left|done|].
    destruct (IH (if reports cls then results ++ [mkCommandMetadata cls] else results) s1)
      as (s' & Hs' & Hrest); [done| |].
    { intros c s2 Hc. apply Hreports. by right. }
    exists s'. split; [done|].
    unfold bind. simpl. rewrite Hcls. etrans; [exact Hrest|].
    rewrite filter_cons. case_decide as Hr.
    + rewrite Hr. simpl. by rewrite <-app_assoc.
    + apply not_true_is_false in Hr. by rewrite Hr.
Qed.
End active_results.

(** C1. Let the registered classes answer [is_active] as [reports] says, on
    every session the answers lead through. Then [GetActivePlugin(name)]
    raises [RuntimeError] when more than one implementation registered under
    the name reports active; returns the [NoneObject] sentinel, without
    raising, when none does; and returns the metadata of the one
    implementation that reports active when exactly one does. *)
Theorem GetActivePlugin_resolution (classes : list PluginClass) (plugin_name : PyObj)
    (reports : PluginClass → bool) (stable : Session → Prop) (s : Session) :
  stable s →
  (∀ cls s1, cls ∈ classes → name cls = plugin_name → stable s1 →
     ∃ s2, is_active cls s1 = (Ok (reports cls), s2) ∧ stable s2) →
  ∃ result s',
    GetActivePlugin (Rebuild classes) plugin_name s = (result, s') ∧ stable s' ∧
    ((1 < length (reporting_active reports (implementations plugin_name classes)))%nat →
       result = Raise RuntimeError) ∧
    (reporting_active reports (implementations plugin_name classes) = [] →
       result = Ok (NoneObject "Plugin not active")) ∧
    (∀ cls, reporting_active reports (implementations plugin_name classes) = [cls] →
       result = Ok (Metadata (mkCommandMetadata cls))).
Proof.
  intros Hs Hreports. unfold GetActivePlugin. rewrite Rebuild_lookup.
  destruct (active_results_stable reports stable
              (implementations plugin_name classes) [] s) as (s' & Hs' & Hloop); [done| |].
  { intros cls s1 [Hname Hin]%list_elem_of_filter. by apply Hreports. }
  unfold bind. rewrite Hloop. simpl.
  set (active := reporting_active reports (implementations plugin_name classes)).
  rewrite length_fmap.
  destruct active as [|first [|second more]]; simpl.
  - exists (Ok (NoneObject "Plugin not active")), s'.
    split_and!; [done|done|intros; lia|done|done].
  - exists (Ok (Metadata (mkCommandMetadata first))), s'.
    split_and!; [done|done|intros; lia|done|by intros cls [= ->]].
  - exists (Raise RuntimeError), s'.
    split_and!; [done|done|done|done|done].
Qed.

(** The specification's scenario: [class_B]'s metadata is returned. *)
Lemma GetActivePlugin_resolution_witness :
  GetActivePlugin (Rebuild [class_A; class_B]) (OStr "foo") blank_session
  = (Ok (Metadata (mkCommandMetadata class_B)), blank_session).
Proof.
  destruct (GetActivePlugin_resolution [class_A; class_B] (OStr "foo")
              (λ cls, bool_decide (cls__name__ cls = "B"))
              (λ s, s = blank_session) blank_session eq_refl)
    as (result & s' & -> & -> & _ & _ & Hone).
  - intros cls s1 Hin _ ->.
    apply elem_of_cons in Hin as [->|Hin]; [by exists blank_session|].
    apply list_elem_of_singleton in Hin as ->. by exists blank_session.
  - by rewrite (Hone class_B eq_refl).
Defined.

(** Two implementations that both report active: the call raises. On
    [detecting_session], the activation check of the profiled class runs the
    autodetection, whose result stays in the session. *)
Example GetActivePlugin_ambiguous :
  GetActivePlugin (Rebuild [pslist_plain; class_A; pslist_profiled]) (OStr "pslist")
                  detecting_session
  = (Raise RuntimeError,
     with_profile (OProfile profile_with_address) detecting_session).
Proof. reflexivity. Qed.

(** No implementation reports active, or none is registered: the sentinel. *)
Example GetActivePlugin_none :
  GetActivePlugin (Rebuild [pslist_profiled; class_A]) (OStr "pslist") blank_session
    = (Ok (NoneObject "Plugin not active"), blank_session) ∧
  GetActivePlugin (Rebuild [pslist_profiled; class_A]) (OStr "dlllist") blank_session
    = (Ok (NoneObject "Plugin not active"), blank_session).
Proof. split; reflexivity. Qed.

(** * Further properties of the module *)

(** ** dictify on rows of any length *)

(** X1. On a constructed schema, [dictify] raises [IndexError] on a row
    longer than the schema; on a row no longer than the schema it returns
    the dictionary whose keys are the cnames of the first [len(row)]
    columns, each holding the value of its position. *)
Theorem dictify_bounds (columns : list Column) (h : PluginHeader) (row : list PyObj) :
  PluginHeader__init__ columns = Ok h →
  if decide (length row ≤ length columns)%nat
  then ∃ d, dictify h row = Ok d ∧
            dom d = list_to_set (take (length row) (cnames columns)) ∧
            ∀ j c, (j < length row)%nat → cnames columns !! j = Some c →
                   d !! c = row !! j
  else dictify h row = Raise IndexError.
Proof.
  intros Hc. unfold dictify. rewrite (constructed_header _ _ Hc).
  destruct (constructed_well_formed _ _ Hc) as [_ Hnd].
  pose proof (constructed_cname_lookup _ _ Hc) as Hpresent.
  assert (length (cnames columns) = length columns) as Hlc
    by (unfold cnames; by rewrite length_fmap).
  case_decide as Hlen.
  - destruct (dictify_from_fits columns Hpresent Hnd row 0 ∅) as (d & Hd & Hin & Hout);
      [lia|].
    exists d. split_and!; [done| |by intros j c Hj Hcn; apply Hin].
    apply set_eq. intros c. rewrite elem_of_dom, elem_of_list_to_set. split.
    + intros [v Hv].
      destruct (decide (c ∈ take (length row) (cnames columns))) as [|Hnin]; [done|].
      rewrite Hout in Hv; [by rewrite lookup_empty in Hv|].
      intros j Hj Hcn. apply Hnin. apply list_elem_of_lookup. exists j.
      by rewrite lookup_take_lt.
    + intros [j Hj]%list_elem_of_lookup_1.
      pose proof (lookup_lt_Some _ _ _ Hj) as Hlt. rewrite length_take in Hlt.
      rewrite lookup_take_lt in Hj by lia.
      rewrite (Hin j c) by (simpl; done || lia).
      apply lookup_lt_is_Some_2. lia.
  - assert (∀ (rest : list PyObj) idx (result : gmap PyObj PyObj),
              (length columns < idx + length rest)%nat →
              (idx ≤ length columns)%nat →
              dictify_from columns idx rest result = Raise IndexError) as Hlong.
    { induction rest as [|value rest IH]; intros idx result Hover Hidx; simpl in *;
        [lia|].
      destruct (columns !! idx) as [column|] eqn:Hcol; [|done].
      rewrite (Hpresent column) by (by eapply list_elem_of_lookup_2).
      apply IH; [lia|]. apply lookup_lt_Some in Hcol. lia. }
    apply Hlong; lia.
Qed.

Lemma dictify_bounds_witness :
  PluginHeader__init__ example_columns = Ok example_header ∧
  (∃ d, dictify example_header short_row = Ok d ∧
        dom d = list_to_set (take (length short_row) (cnames example_columns)) ∧
        ∀ j c, (j < length short_row)%nat → cnames example_columns !! j = Some c →
               d !! c = short_row !! j) ∧
  dictify example_header long_row = Raise IndexError.
Proof.
  split; [exact example_header_constructed|]. split.
  - exact (dictify_bounds example_columns example_header short_row
             example_header_constructed).
  - exact (dictify_bounds example_columns example_header long_row
             example_header_constructed).
Defined.

(** ** find_column *)

Lemma index_by_name_lookup columns : ∀ (m : gmap PyObj Column) key,
  index_by_name columns m !! key =
    match last (filter (λ column, truthy (name_of column) = true ∧ name_of column = key)
                       columns) with
    | Some column => Some column
    | None => m !! key
    end.
Proof.
  unfold index_by_name.
  induction columns as [|c rest IH]; intros m key; simpl; [done|].
  rewrite IH, filter_cons. clear IH.
  destruct (truthy (name_of c)) eqn:Ht.
  - destruct (decide (name_of c = key)) as [Heq|Hne].
    + rewrite decide_True by done.
      destruct (filter _ rest) as [|c' rest'] eqn:Hf; simpl.
      * by rewrite Heq, lookup_insert_eq.
      * by destruct (last (c' :: rest')) eqn:Hl; [|apply last_None in Hl].
    + rewrite decide_False by (by intros [_ ?]).
      destruct (last _); [done|]. by rewrite lookup_insert_ne.
  - rewrite decide_False by (by intros [? _]). done.
Qed.

(** X2. On a constructed schema, [find_column] resolves a cname to its own
    column, also when some column carries the same string as human name; a
    key that is no cname resolves to the last column that provides it as
    human name, and to nothing when no column does. *)
Theorem find_column_resolution (columns : list Column) (h : PluginHeader) :
  PluginHeader__init__ columns = Ok h →
  (∀ column, column ∈ columns → find_column h (cname_of column) = Some column) ∧
  (∀ key, key ∉ cnames columns →
     find_column h key =
       last (filter (λ column, truthy (name_of column) = true ∧ name_of column = key)
                    columns)).
Proof.
  intros Hc. split.
  - intros column Hin. unfold find_column.
    by rewrite (constructed_by_cname_Some _ _ _ Hc Hin).
  - intros key Hnin. unfold find_column.
    rewrite (constructed_by_cname_None _ _ Hc) by done.
    apply PluginHeader__init__Ok in Hc as [_ ->]. simpl.
    rewrite index_by_name_lookup, lookup_empty. by destruct (last _).
Qed.

Lemma shadowing_header_constructed :
  PluginHeader__init__ shadowing_columns = Ok shadowing_header.
Proof.
  apply PluginHeader__init__Ok. split; [|done]. split.
  - repeat constructor.
  - unfold cnames. simpl. repeat (apply NoDup_cons; split);
      [rewrite !not_elem_of_cons; split_and!; try discriminate; apply not_elem_of_nil
      |rewrite !not_elem_of_cons; split_and!; try discriminate; apply not_elem_of_nil
      |apply not_elem_of_nil|apply NoDup_nil_2].
Qed.

(** In the shadowing schema, ["b"] finds the column whose cname it is, not
    the one it names; ["Name"] finds the second of the two columns it
    names. *)
Lemma find_column_resolution_witness :
  PluginHeader__init__ shadowing_columns = Ok shadowing_header ∧
  find_column shadowing_header (OStr "b")
    = Some {[ "cname" := OStr "b"; "name" := OStr "Name" ]} ∧
  find_column shadowing_header (OStr "Name")
    = Some {[ "cname" := OStr "b"; "name" := OStr "Name" ]}.
Proof.
  split; [exact shadowing_header_constructed|].
  destruct (find_column_resolution shadowing_columns shadowing_header
              shadowing_header_constructed) as [Hcname Hname].
  split.
  - exact (Hcname {[ "cname" := OStr "b"; "name" := OStr "Name" ]}
                   ltac:(right; left)).
  - rewrite Hname; [reflexivity|].
    unfold cnames; simpl.
    rewrite !not_elem_of_cons; split_and!; try discriminate; apply not_elem_of_nil.
Defined.

(** ** Producer.table_header *)

(** X3. A producer class whose [type_name] is false in a truth test (as the
    [None] of the abstract class) has no schema: building it raises
    [ValueError]. Otherwise the schema has the one column named, keyed and
    typed by [type_name]: its names and its output types are just
    [type_name], and a one-value row becomes the dictionary with that value
    under [type_name]. *)
Theorem Producer_table_header_schema (type_name : PyObj) :
  if truthy type_name
  then ∃ h, Producer_table_header type_name = Ok h ∧
            header h = [Producer_column type_name] ∧
            all_names h = {[ type_name ]} ∧
            types_in_output h = [type_name] ∧
            find_column h type_name = Some (Producer_column type_name) ∧
            ∀ value, dictify h [value] = Ok {[ type_name := value ]}
  else Producer_table_header type_name = Raise ValueError.
Proof.
  assert (cname_of (Producer_column type_name) = type_name) as Hcname.
  { unfold cname_of, dict_get, Producer_column.
    by rewrite !lookup_insert_ne, lookup_singleton_eq by done. }
  assert (name_of (Producer_column type_name) = type_name) as Hname.
  { unfold name_of, dict_get, Producer_column.
    by rewrite lookup_insert_ne, lookup_insert_eq by done. }
  assert (dict_get (Producer_column type_name) "type" = type_name) as Htype.
  { unfold dict_get, Producer_column. by rewrite lookup_insert_eq. }
  destruct (truthy type_name) eqn:Ht.
  - assert (well_formed [Producer_column type_name]) as Hwf.
    { split; [constructor; [by rewrite Hcname|constructor]|].
      unfold cnames; simpl. apply NoDup_singleton. }
    eexists. split; [by apply PluginHeader__init__Ok|].
    split; [done|]. split_and!.
    + unfold all_names, index_by_cname, index_by_name; simpl.
      rewrite Hname, Ht, Hcname, !dom_insert_L, dom_empty_L. set_solver.
    + unfold types_in_output; simpl. rewrite Htype, filter_cons, decide_True by done.
      done.
    + unfold find_column, index_by_cname; simpl.
      by rewrite Hcname, lookup_insert_eq.
    + intros value. unfold dictify; simpl.
      replace (Producer_column type_name !! "cname") with (Some type_name).
      * by rewrite insert_empty.
      * unfold Producer_column.
        by rewrite !lookup_insert_ne, lookup_singleton_eq by done.
  - apply PluginHeader__init__one_column. by rewrite Hcname.
Qed.

(** ** get_column *)

(** The dictionaries of [collect_as_dicts()] on rows of the schema's
    length. *)
Lemma collect_as_dicts_matching (columns : list Column) (h : PluginHeader)
    (collect : Gen (list PyObj)) :
  PluginHeader__init__ columns = Ok h →
  Forall (λ row, length row = length columns) (yielded collect) →
  ∃ dicts, collect_as_dicts (Some h) collect = mkGen dicts (raised collect) ∧
           Forall2 (λ row d, dom d = list_to_set (cnames columns) ∧
                             ∀ j c, cnames columns !! j = Some c → d !! c = row !! j)
                   (yielded collect) dicts.
Proof.
  intros Hc Hrows.
  pose proof (constructed_header _ _ Hc) as Hhdr.
  destruct (constructed_well_formed _ _ Hc) as [_ Hnd].
  assert (∃ dicts, Forall2 (λ row d, dictify h row = Ok d ∧
             dom d = list_to_set (cnames columns) ∧
             ∀ j c, cnames columns !! j = Some c → d !! c = row !! j)
            (yielded collect) dicts) as [dicts Hdicts].
  { induction Hrows as [|row rest Hrow _ [dicts IH]]; [by exists []|].
    destruct (dictify_from_full columns) with (row := row) as (d & Hd & Hdom & Hval);
      [by apply constructed_cname_lookup with h|done|done|].
    exists (d :: dicts). constructor; [|done].
    unfold dictify. by rewrite Hhdr. }
  exists dicts. split.
  - unfold collect_as_dicts. apply gen_each_Forall2.
    eapply Forall2_impl; [done|]. by intros row d [? _].
  - eapply Forall2_impl; [done|]. by intros row d (_ & ? & ?).
Qed.

(** X4. On a constructed schema and rows of the schema's length:
    [get_column(name)] for the cname of column [j] yields the [j]-th value
    of every row, in order, and ends as [collect()] ends; for a key that is
    no cname (a human name included) it yields nothing, raising [KeyError]
    at the first row, if there is one. *)
Theorem get_column_values (columns : list Column) (h : PluginHeader)
    (collect : Gen (list PyObj)) :
  PluginHeader__init__ columns = Ok h →
  Forall (λ row, length row = length columns) (yielded collect) →
  (∀ j c, cnames columns !! j = Some c →
     ∃ values, get_column (Some h) collect c = mkGen values (raised collect) ∧
               Forall2 (λ row value, row !! j = Some value) (yielded collect) values) ∧
  (∀ key, key ∉ cnames columns →
     get_column (Some h) collect key =
       mkGen [] (match yielded collect with
                 | [] => raised collect
                 | _ => Some KeyError
                 end)).
Proof.
  intros Hc Hrows.
  destruct (collect_as_dicts_matching _ _ _ Hc Hrows) as (dicts & Hdicts & Hrel).
  unfold get_column. rewrite Hdicts. simpl. split.
  - intros j c Hj.
    assert (length (cnames columns) = length columns) as Hlc
      by (unfold cnames; by rewrite length_fmap).
    pose proof (lookup_lt_Some _ _ _ Hj) as Hlt.
    assert (∃ values, Forall2 (λ d value, dict_item d c = Ok value) dicts values ∧
                      Forall2 (λ row value, row !! j = Some value)
                              (yielded collect) values) as (values & Hitems & Hvalues).
    { clear Hdicts. induction Hrel as [|row d rows ds [_ Hval] _ IH].
      - exists []. by split.
      - apply Forall_cons in Hrows as [Hrow Hrows].
        destruct (IH Hrows) as (values & ? & ?).
        destruct (lookup_lt_is_Some_2 row j) as [value Hvalue]; [lia|].
        exists (value :: values). split; constructor; try done.
        unfold dict_item. by rewrite (Hval j c Hj), Hvalue. }
    exists values. split; [|done]. by apply gen_each_Forall2.
  - intros key Hnin. destruct Hrel as [|row d rows ds [Hdom _] _]; simpl; [done|].
    unfold dict_item.
    assert (d !! key = None) as ->; [|done].
    apply not_elem_of_dom. rewrite Hdom, elem_of_list_to_set. done.
Qed.

(** The second column of the specification's example. *)
Lemma get_column_values_witness :
  PluginHeader__init__ example_columns = Ok example_header ∧
  Forall (λ row, length row = length example_columns) example_rows ∧
  (∃ values, get_column (Some example_header) (mkGen example_rows None) (OStr "name")
               = mkGen values None ∧
             Forall2 (λ row value, row !! 1 = Some value) example_rows values) ∧
  get_column (Some example_header) (mkGen example_rows None) (OStr "Name")
    = mkGen [] (Some KeyError).
Proof.
  assert (Forall (λ row, length row = length example_columns) example_rows) as Hrows
    by repeat constructor.
  split; [exact example_header_constructed|]. split; [exact Hrows|].
  destruct (get_column_values example_columns example_header (mkGen example_rows None)
              example_header_constructed Hrows) as [Hcname Hother].
  split.
  - exact (Hcname 1 (OStr "name") eq_refl).
  - apply (Hother (OStr "Name")). unfold cnames; simpl.
    rewrite !not_elem_of_cons; split_and!; try discriminate; apply not_elem_of_nil.
Defined.

(** X5. For a producer, whose schema is the one column of its [type_name],
    and rows of one value each, [get_column(type_name)] and [produce()] are
    the same sequence. *)
Theorem Producer_get_column_is_produce (type_name : PyObj) (h : PluginHeader)
    (collect : Gen (list PyObj)) :
  Producer_table_header type_name = Ok h →
  Forall (λ row, length row = 1) (yielded collect) →
  get_column (Some h) collect type_name = produce collect.
Proof.
  intros Hc Hrows.
  assert (cname_of (Producer_column type_name) = type_name) as Hcname.
  { unfold cname_of, dict_get, Producer_column.
    by rewrite !lookup_insert_ne, lookup_singleton_eq by done. }
  destruct (collect_as_dicts_matching [Producer_column type_name] h collect Hc Hrows)
    as (dicts & Hdicts & Hrel).
  unfold get_column, produce. rewrite Hdicts. simpl.
  assert (∃ values, Forall2 (λ d value, dict_item d type_name = Ok value) dicts values ∧
                    Forall2 (λ row value, first_item row = Ok value)
                            (yielded collect) values) as (values & Hitems & Hfirsts).
  { clear Hdicts. induction Hrel as [|row d rows ds [_ Hval] _ IH].
    - exists []. by split.
    - apply Forall_cons in Hrows as [Hrow Hrows].
      destruct (IH Hrows) as (values & ? & ?).
      destruct row as [|value [|? ?]]; simplify_eq/=.
      exists (value :: values). split; constructor; try done.
      unfold dict_item. rewrite (Hval 0 type_name); [done|].
      unfold cnames; simpl. by rewrite Hcname. }
  rewrite (gen_each_Forall2 _ _ values) by done.
  by rewrite (gen_each_Forall2 _ _ values).
Qed.

Lemma Producer_get_column_is_produce_witness :
  Producer_table_header (OStr "_EPROCESS")
    = Ok (mkPluginHeader [Producer_column (OStr "_EPROCESS")]
            (index_by_cname [Producer_column (OStr "_EPROCESS")] ∅)
            (index_by_name [Producer_column (OStr "_EPROCESS")] ∅)) ∧
  Forall (λ row, length row = 1) producer_rows ∧
  get_column (Some (mkPluginHeader [Producer_column (OStr "_EPROCESS")]
                      (index_by_cname [Producer_column (OStr "_EPROCESS")] ∅)
                      (index_by_name [Producer_column (OStr "_EPROCESS")] ∅)))
             (mkGen producer_rows None) (OStr "_EPROCESS")
    = produce (mkGen producer_rows None).
Proof.
  assert (Forall (λ row, length row = 1) producer_rows) as Hrows
    by repeat constructor.
  split; [reflexivity|]. split; [exact Hrows|].
  exact (Producer_get_column_is_produce (OStr "_EPROCESS") _
           (mkGen producer_rows None) eq_refl Hrows).
Defined.

(** ** The database: grouping and lookups *)

Lemma Rebuild_fold (classes : list PluginClass) :
  ∀ (db : gmap PyObj (list CommandMetadata)) plugin_name,
  fold_left
    (λ db plugin_cls,
       <[name plugin_cls :=
           default [] (db !! name plugin_cls) ++ [mkCommandMetadata plugin_cls]]> db)
    classes db !! plugin_name
  = if decide (implementations plugin_name classes = []) then db !! plugin_name
    else Some (default [] (db !! plugin_name) ++
               (mkCommandMetadata <$> implementations plugin_name classes)).
Proof.
  unfold implementations.
  induction classes as [|cls rest IH]; intros db plugin_name; simpl; [done|].
  rewrite IH, filter_cons. clear IH.
  destruct (decide (name cls = plugin_name)) as [<-|Hne].
  - rewrite lookup_insert_eq. simpl.
    destruct (filter (λ c, name c = name cls) rest) as [|c l] eqn:Hrest; simpl.
    + done.
    + by rewrite <-app_assoc.
  - by rewrite lookup_insert_ne.
Qed.

(** X6. [Rebuild] groups the registry by name: a name with no registered
    class has no entry, and every other name has the metadata of all its
    classes, each once, in registration order; no entry is an empty list. *)
Theorem Rebuild_groups (classes : list PluginClass) (plugin_name : PyObj) :
  Rebuild classes !! plugin_name
  = if decide (implementations plugin_name classes = []) then None
    else Some (mkCommandMetadata <$> implementations plugin_name classes).
Proof. unfold Rebuild. by rewrite Rebuild_fold, lookup_empty. Qed.

(** X7. [MetadataByName(name)] yields the metadata of every class
    registered under the name, in registration order; for a name no class
    is registered under it raises [KeyError], where [GetActivePlugin]
    returns the sentinel and leaves the session as it was. *)
Theorem MetadataByName_registered (classes : list PluginClass) (plugin_name : PyObj)
    (s : Session) :
  if decide (implementations plugin_name classes = [])
  then MetadataByName (Rebuild classes) plugin_name = mkGen [] (Some KeyError) ∧
       GetActivePlugin (Rebuild classes) plugin_name s
         = (Ok (NoneObject "Plugin not active"), s)
  else MetadataByName (Rebuild classes) plugin_name
         = mkGen (mkCommandMetadata <$> implementations plugin_name classes) None.
Proof.
  unfold MetadataByName, GetActivePlugin.
  pose proof (Rebuild_fold classes ∅ plugin_name) as Hlookup.
  fold (Rebuild classes) in Hlookup. rewrite Hlookup, lookup_empty. clear Hlookup.
  case_decide; [|done]. by split.
Qed.

(** X8. [GetRequirments(name)] raises [KeyError] for a name no class is
    registered under; otherwise it returns the requirements of all classes
    registered under the name, active or not: a requirement is in the result
    exactly when some such class has it. *)
Theorem GetRequirments_union (requirements : CommandMetadata → gset PyObj)
    (classes : list PluginClass) (command_name : PyObj) :
  if decide (implementations command_name classes = [])
  then GetRequirments requirements (Rebuild classes) command_name = Raise KeyError
  else ∃ result,
         GetRequirments requirements (Rebuild classes) command_name = Ok result ∧
         ∀ r, r ∈ result ↔
              ∃ cls, cls ∈ classes ∧ name cls = command_name ∧
                     r ∈ requirements (mkCommandMetadata cls).
Proof.
  unfold GetRequirments.
  pose proof (Rebuild_fold classes ∅ command_name) as Hlookup.
  fold (Rebuild classes) in Hlookup. rewrite Hlookup, lookup_empty. clear Hlookup.
  case_decide as Himpl; [done|]. simpl. eexists. split; [done|].
  assert (∀ (l : list CommandMetadata) (acc : gset PyObj) r,
            r ∈ fold_left (λ result metadata, result ∪ requirements metadata) l acc ↔
            r ∈ acc ∨ ∃ md, md ∈ l ∧ r ∈ requirements md) as Hfold.
  { induction l as [|md l IH]; intros acc r; simpl.
    - split; [by left|]. intros [?|(md & Hmd & _)]; [done|]. by apply elem_of_nil in Hmd.
    - rewrite IH, elem_of_union. split.
      + intros [[?|?]|(md' & ? & ?)]; [by left|right; exists md|right; exists md'];
          split; try done; by constructor.
      + intros [?|(md' & [->|?]%elem_of_cons & ?)];
          [by left; left|by left; right|right; by exists md']. }
  intros r. rewrite Hfold. split.
  - intros [Hempty|(md & Hmd & Hr)]; [by apply not_elem_of_empty in Hempty|].
    apply list_elem_of_fmap in Hmd as (cls & -> & Hcls).
    apply list_elem_of_filter in Hcls as [Hname Hin]. by exists cls.
  - intros (cls & Hin & Hname & Hr). right. exists (mkCommandMetadata cls).
    split; [|done]. apply list_elem_of_fmap. exists cls. split; [done|].
    by apply list_elem_of_filter.
Qed.

(** ** The database: resolution, the catalog and the active classes *)

Section resolution.
Context (classes : list PluginClass).
Context (reports : PluginClass → bool) (stable : Session → Prop).
Hypothesis answers :
  ∀ cls s1, cls ∈ classes → stable s1 →
    ∃ s2, is_active cls s1 = (Ok (reports cls), s2) ∧ stable s2.

(** [GetActivePlugin] as a function of the implementations that report
    active. *)
Lemma GetActivePlugin_stable plugin_name s :
  stable s →
  ∃ s', stable s' ∧
        GetActivePlugin (Rebuild classes) plugin_name s =
          (resolution (reporting_active reports (implementations plugin_name classes)),
           s').
Proof using answers.
  intros Hs. unfold GetActivePlugin. rewrite Rebuild_lookup.
  destruct (active_results_stable reports stable
              (implementations plugin_name classes) [] s) as (s' & Hs' & Hloop); [done| |].
  { intros cls s1 [Hname Hin]%list_elem_of_filter. by apply answers. }
  exists s'. split; [done|]. unfold bind. rewrite Hloop. simpl.
  rewrite length_fmap.
  by destruct (reporting_active reports (implementations plugin_name classes))
    as [|first [|second more]].
Qed.

Local Abbreviation ambiguous_here := (ambiguous reports classes).
Local Abbreviation entry_here M := (catalog_entry M reports classes).

Lemma Serialize_from_stable {V} (Metadata_of : CommandMetadata → V) names :
  ∀ (result : gmap PyObj V) s,
  stable s →
  ∃ s', stable s' ∧
        Serialize_from Metadata_of (Rebuild classes) names result s =
          (if decide (Exists ambiguous_here names) then Raise RuntimeError
           else Ok (fold_left (entry_here Metadata_of) names result),
           s').
Proof using answers.
  induction names as [|plugin_name rest IH]; intros result s Hs;
    cbn [Serialize_from fold_left].
  - exists s. split; [done|]. by case_decide as Hex; [apply Exists_nil in Hex|].
  - destruct (GetActivePlugin_stable plugin_name s Hs) as (s1 & Hs1 & Hfound).
    unfold bind. rewrite Hfound.
    assert (catalog_entry Metadata_of reports classes result plugin_name =
            match reporting_active reports (implementations plugin_name classes) with
            | [cls] => <[plugin_name := Metadata_of (mkCommandMetadata cls)]> result
            | _ => result
            end) as Hentry by done.
    assert (ambiguous_here plugin_name ↔
            (1 < length (reporting_active reports
                           (implementations plugin_name classes)))%nat) as Hamb by done.
    rewrite Hentry. clear Hentry.
    destruct (reporting_active reports (implementations plugin_name classes))
      as [|first [|second more]]; simpl in Hamb; simpl resolution; cbv iota beta.
    + destruct (IH result s1 Hs1) as (s' & Hs' & ->). exists s'. split; [done|].
      f_equal.
      destruct (decide (Exists ambiguous_here rest)) as [Hrest|Hrest];
        destruct (decide (Exists ambiguous_here (plugin_name :: rest)))
          as [Hall|Hall]; try done.
      * destruct Hall. by right.
      * apply Exists_cons in Hall as [Hhead|?]; [|done]. apply Hamb in Hhead. lia.
    + destruct (IH (<[plugin_name := Metadata_of (mkCommandMetadata first)]> result) s1 Hs1)
        as (s' & Hs' & ->). exists s'. split; [done|].
      f_equal.
      destruct (decide (Exists ambiguous_here rest)) as [Hrest|Hrest];
        destruct (decide (Exists ambiguous_here (plugin_name :: rest)))
          as [Hall|Hall]; try done.
      * destruct Hall. by right.
      * apply Exists_cons in Hall as [Hhead|?]; [|done]. apply Hamb in Hhead. lia.
    + exists s1. split; [done|]. rewrite decide_True; [done|].
      left. apply Hamb. lia.
Qed.

Lemma catalog_lookup {V} (Metadata_of : CommandMetadata → V) names :
  ∀ (result : gmap PyObj V) plugin_name,
  fold_left (entry_here Metadata_of) names result !! plugin_name =
    match reporting_active reports (implementations plugin_name classes) with
    | [cls] => if decide (plugin_name ∈ names)
               then Some (Metadata_of (mkCommandMetadata cls))
               else result !! plugin_name
    | _ => result !! plugin_name
    end.
Proof.
  induction names as [|n rest IH]; intros result plugin_name; simpl.
  - by destruct (reporting_active _ _) as [|? [|? ?]].
  - rewrite IH. clear IH. unfold catalog_entry.
    destruct (decide (n = plugin_name)) as [->|Hne].
    + destruct (reporting_active reports (implementations plugin_name classes))
        as [|first [|second more]]; try done.
      rewrite lookup_insert_eq, (decide_True (P := plugin_name ∈ plugin_name :: rest))
        by (by left).
      by case_decide.
    + destruct (reporting_active reports (implementations plugin_name classes))
        as [|first [|second more]] eqn:Hactive; try done;
        destruct (reporting_active reports (implementations n classes))
          as [|? [|? ?]]; rewrite ?lookup_insert_ne by done; try done;
        (destruct (decide (plugin_name ∈ rest)) as [Hin|Hnin];
          [rewrite decide_True by (by right)
          |rewrite decide_False by (by intros [?|?]%elem_of_cons)]); done.
Qed.

(** X9. Let the classes answer [is_active] as [reports] says on every
    session the answers lead through, and let [names] list the database's
    names. [Serialize] raises [RuntimeError] when some name has more than
    one implementation reporting active; otherwise it returns the catalog
    that has, for exactly the names with one implementation reporting
    active, the [Metadata()] of that implementation. *)
Theorem Serialize_catalog {V} (Metadata_of : CommandMetadata → V)
    (names : list PyObj) (s : Session) :
  stable s →
  (∀ plugin_name, plugin_name ∈ names ↔ is_Some (Rebuild classes !! plugin_name)) →
  ∃ s', stable s' ∧
    if decide (Exists ambiguous_here names)
    then Serialize Metadata_of (Rebuild classes) names s = (Raise RuntimeError, s')
    else ∃ result,
           Serialize Metadata_of (Rebuild classes) names s = (Ok result, s') ∧
           ∀ plugin_name,
             result !! plugin_name =
               match reporting_active reports (implementations plugin_name classes) with
               | [cls] => Some (Metadata_of (mkCommandMetadata cls))
               | _ => None
               end.
Proof using answers.
  intros Hs Hnames. unfold Serialize.
  destruct (Serialize_from_stable Metadata_of names ∅ s Hs) as (s' & Hs' & ->).
  exists s'. split; [done|]. case_decide; [done|].
  eexists. split; [done|]. intros plugin_name. rewrite catalog_lookup, lookup_empty.
  destruct (reporting_active reports (implementations plugin_name classes))
    as [|first [|second more]] eqn:Hactive; try done.
  rewrite decide_True; [done|]. apply Hnames. rewrite Rebuild_groups.
  rewrite decide_False; [done|]. intros Hnone.
  unfold reporting_active in Hactive. rewrite Hnone in Hactive. done.
Qed.

(** X10. Under the same assumption, [GetActiveClasses], iterated to its
    end, yields the classes that report active, in registry order, without
    raising; and [GetActivePlugin(name)] is decided by those among them that
    are registered under the name. *)
Theorem GetActiveClasses_active (plugin_name : PyObj) (s : Session) :
  stable s →
  ∃ s1 s2, stable s1 ∧ stable s2 ∧
    GetActiveClasses classes s = (mkGen (reporting_active reports classes) None, s1) ∧
    GetActivePlugin (Rebuild classes) plugin_name s =
      (resolution (implementations plugin_name (reporting_active reports classes)), s2).
Proof using answers.
  intros Hs.
  assert (∀ l s0, (∀ cls, cls ∈ l → cls ∈ classes) → stable s0 →
            ∃ s1, stable s1 ∧
                  GetActiveClasses l s0 = (mkGen (reporting_active reports l) None, s1))
    as Hall.
  { unfold reporting_active.
    induction l as [|cls rest IH]; intros s0 Hsub Hs0; simpl.
    - by exists s0.
    - destruct (answers cls s0) as (s1 & -> & Hs1); [apply Hsub; by left|done|].
      destruct (IH s1) as (s2 & Hs2 & ->); [intros c ?; apply Hsub; by right|done|].
      exists s2. split; [done|]. simpl. rewrite filter_cons. case_decide as Hr.
      + by rewrite Hr.
      + apply not_true_is_false in Hr. by rewrite Hr. }
  destruct (Hall classes s) as (s1 & Hs1 & Hclasses); [done|done|].
  destruct (GetActivePlugin_stable plugin_name s Hs) as (s2 & Hs2 & Hfound).
  exists s1, s2. split_and!; [done|done|done|].
  rewrite Hfound. do 2 f_equal.
  unfold reporting_active, implementations.
  rewrite !list_filter_filter. apply list_filter_iff. intros cls. tauto.
Qed.

End resolution.

Lemma registry_example_answers :
  ∀ cls s1, cls ∈ registry_example → s1 = blank_session →
    ∃ s2, is_active cls s1 = (Ok (registry_reports cls), s2) ∧ s2 = blank_session.
Proof.
  intros cls s1 Hin ->. exists blank_session.
  unfold registry_example in Hin.
  repeat (apply elem_of_cons in Hin as [->|Hin]; [by split|]).
  by apply elem_of_nil in Hin.
Qed.

Lemma registry_example_names :
  ∀ plugin_name, plugin_name ∈ [OStr "foo"; OStr "pslist"] ↔
                 is_Some (Rebuild registry_example !! plugin_name).
Proof.
  intros plugin_name. rewrite Rebuild_groups.
  unfold implementations, registry_example. rewrite !filter_cons, filter_nil. simpl.
  destruct (decide (OStr "foo" = plugin_name)) as [<-|Hfoo].
  - rewrite (decide_False (P := OStr "pslist" = OStr "foo")) by discriminate.
    split; [by eexists|]. intros _. by left.
  - destruct (decide (OStr "pslist" = plugin_name)) as [<-|Hps].
    + split; [by eexists|]. intros _. right. by left.
    + split.
      * intros [?|[?|Hnil%elem_of_nil]%elem_of_cons]%elem_of_cons; congruence || done.
      * by intros [? ?].
Qed.

(** The catalog of the example registry: one entry per name, for the class
    that is active. *)
Lemma Serialize_catalog_witness :
  ∃ result,
    Serialize (λ md, cls__name__ (plugin_cls md)) (Rebuild registry_example)
              [OStr "foo"; OStr "pslist"] blank_session
      = (Ok result, blank_session) ∧
    result !! OStr "foo" = Some "B" ∧
    result !! OStr "pslist" = Some "PlainPsList" ∧
    result !! OStr "handles" = None.
Proof.
  destruct (Serialize_catalog registry_example registry_reports
              (λ s, s = blank_session) registry_example_answers
              (λ md, cls__name__ (plugin_cls md))
              [OStr "foo"; OStr "pslist"] blank_session eq_refl registry_example_names)
    as (s' & -> & Hcatalog).
  destruct (decide (Exists (ambiguous registry_reports registry_example)
                           [OStr "foo"; OStr "pslist"])) as [Hamb|_].
  - exfalso. apply Exists_cons in Hamb as [Hamb|Hamb];
      [|apply Exists_cons in Hamb as [Hamb|Hamb%Exists_nil]; [|done]];
      unfold ambiguous in Hamb; simpl in Hamb; lia.
  - destruct Hcatalog as (result & Hresult & Hlookup).
    exists result. split; [exact Hresult|].
    split_and!; rewrite Hlookup; reflexivity.
Defined.

(** The active classes of the example registry, and the resolution of
    ["pslist"] among them. *)
Lemma GetActiveClasses_active_witness :
  GetActiveClasses registry_example blank_session
    = (mkGen [class_B; pslist_plain] None, blank_session) ∧
  GetActivePlugin (Rebuild registry_example) (OStr "pslist") blank_session
    = (Ok (Metadata (mkCommandMetadata pslist_plain)), blank_session).
Proof.
  destruct (GetActiveClasses_active registry_example registry_reports
              (λ s, s = blank_session) registry_example_answers
              (OStr "pslist") blank_session eq_refl)
    as (s1 & s2 & -> & -> & Hclasses & Hfound).
  split; [exact Hclasses|exact Hfound].
Defined.

(** ** get_plugin *)

Lemma recognized_profile mro : "profile" ∈ recognized mro ↔ ProfileCommand ∈ mro.
Proof.
  unfold recognized. rewrite elem_of_cons.
  induction mro as [|base rest IH]; simpl.
  - split; [intros [?|?%elem_of_nil]; done|by intros ?%elem_of_nil].
  - rewrite elem_of_app, (elem_of_cons _ _ base). destruct base; simpl.
    + split; [by left|]. intros _. right. left. by left.
    + rewrite elem_of_cons. split.
      * intros [?|[[?|?%elem_of_nil]|?]]; try done. right. apply IH. by right.
      * intros [?|Hin]; [done|]. apply IH in Hin as [?|?]; [done|]. right. by right.
    + split.
      * intros [?|[?%elem_of_nil|?]]; try done. right. apply IH. by right.
      * intros [?|Hin]; [done|]. apply IH in Hin as [?|?]; [done|]. right. by right.
Qed.

Section get_plugin.
Context (classes : list PluginImpl).
Context (reports : PluginClass → bool) (stable : Session → Prop).
Hypothesis answers :
  ∀ cls s1, cls ∈ classes → stable s1 →
    ∃ s2, is_active (impl_cls cls) s1 = (Ok (reports (impl_cls cls)), s2) ∧ stable s2.

(** The loop of [get_plugin]. *)
Lemma get_plugin_first_active_aux (self kwargs : Dict) (plugin_name : PyObj)
    (s : Session) :
  stable s →
  self !! "session" = Some OSession →
  match active_impls reports plugin_name classes with
  | [] => ∃ s', stable s' ∧
                get_plugin classes self plugin_name kwargs s = (Ok None, s')
  | first :: _ =>
      ∀ profile,
        self !! "profile" = Some profile →
        kwargs !! "session" = None → kwargs !! "profile" = None →
        ∃ s', stable s' ∧
              get_plugin classes self plugin_name kwargs s =
                (do instance <- construct (impl_PROFILE_REQUIRED first) (impl_mro first)
                                  (<["session" := OSession]>
                                     (<["profile" := profile]> kwargs));
                 ret (Some instance)) s'
  end.
Proof using answers.
  intros Hs Hsession. unfold active_impls.
  assert (∀ l s0, (∀ cls, cls ∈ l → cls ∈ classes) → stable s0 →
            match filter (λ cls, name (impl_cls cls) = plugin_name ∧
                                 reports (impl_cls cls) = true) l with
            | [] => ∃ s', stable s' ∧
                          get_plugin l self plugin_name kwargs s0 = (Ok None, s')
            | first :: _ =>
                ∀ profile,
                  self !! "profile" = Some profile →
                  kwargs !! "session" = None → kwargs !! "profile" = None →
                  ∃ s', stable s' ∧
                        get_plugin l self plugin_name kwargs s0 =
                          (do instance <- construct (impl_PROFILE_REQUIRED first)
                                            (impl_mro first)
                                            (<["session" := OSession]>
                                               (<["profile" := profile]> kwargs));
                           ret (Some instance)) s'
            end) as Hloop.
  { induction l as [|cls rest IH]; intros s0 Hsub Hs0.
    - exists s0. by split.
    - rewrite filter_cons. cbn [get_plugin].
      assert (∀ c, c ∈ rest → c ∈ classes) as Hrest
        by (intros c ?; apply Hsub; by right).
      destruct (decide (name (impl_cls cls) = plugin_name)) as [Hname|Hname].
      + rewrite (bool_decide_eq_true_2 _ Hname).
        destruct (answers cls s0) as (s1 & Hactive & Hs1); [apply Hsub; by left|done|].
        destruct (reports (impl_cls cls)) eqn:Hr.
        * rewrite decide_True by done.
          intros profile Hprofile Hks Hkp. exists s1. split; [done|].
          unfold bind at 1, getattr at 1. rewrite Hsession. unfold ret at 1.
          unfold bind at 1. rewrite Hactive.
          unfold bind at 1, getattr at 1. rewrite Hsession. unfold ret at 1.
          unfold bind at 1, getattr at 1. rewrite Hprofile. unfold ret at 1.
          rewrite bool_decide_eq_false_2; [done|].
          rewrite Hks, Hkp. by intros [[? ?]|[? ?]].
        * rewrite decide_False by (intros [_ ?]; congruence).
          specialize (IH s1 Hrest Hs1).
          destruct (filter _ rest) as [|first more].
          -- destruct IH as (s' & Hs' & Hget). exists s'. split; [done|].
             unfold bind at 1, getattr at 1. rewrite Hsession. unfold ret at 1.
             unfold bind at 1. by rewrite Hactive.
          -- intros profile Hprofile Hks Hkp.
             destruct (IH profile Hprofile Hks Hkp) as (s' & Hs' & Hget).
             exists s'. split; [done|].
             unfold bind at 1, getattr at 1. rewrite Hsession. unfold ret at 1.
             unfold bind at 1. by rewrite Hactive.
      + rewrite (bool_decide_eq_false_2 _ Hname).
        rewrite decide_False by (by intros [? _]).
        by apply IH. }
  by apply Hloop.
Qed.

(** X11. Let the classes answer [is_active] as [reports] says, and let the
    calling instance hold the session. When no class registered under the
    name reports active, [get_plugin] returns [None]. Otherwise it
    constructs the first such class in registry order, also when several
    report active, passing the caller's session and profile besides the
    given keywords. *)
Theorem get_plugin_first_active (self kwargs : Dict) (plugin_name : PyObj)
    (s : Session) :
  stable s →
  self !! "session" = Some OSession →
  match active_impls reports plugin_name classes with
  | [] => ∃ s', stable s' ∧
                get_plugin classes self plugin_name kwargs s = (Ok None, s')
  | first :: _ =>
      ∀ profile,
        self !! "profile" = Some profile →
        kwargs !! "session" = None → kwargs !! "profile" = None →
        ∃ s', stable s' ∧
              get_plugin classes self plugin_name kwargs s =
                (do instance <- construct (impl_PROFILE_REQUIRED first) (impl_mro first)
                                  (<["session" := OSession]>
                                     (<["profile" := profile]> kwargs));
                 ret (Some instance)) s'
  end.
Proof using answers. apply get_plugin_first_active_aux. Qed.

(** X12. Under the same assumptions, when the first active class of the
    name has no [ProfileCommand] in its constructor chain, [get_plugin]
    raises [InvalidArgs]: it always passes [profile], which such a class
    does not accept. *)
Theorem get_plugin_plain_target (self kwargs : Dict) (plugin_name : PyObj)
    (s : Session) (first : PluginImpl) (profile : PyObj) :
  stable s →
  self !! "session" = Some OSession →
  self !! "profile" = Some profile →
  kwargs !! "session" = None → kwargs !! "profile" = None →
  head (active_impls reports plugin_name classes) = Some first →
  ProfileCommand ∉ impl_mro first →
  ∃ s', stable s' ∧
        get_plugin classes self plugin_name kwargs s = (Raise InvalidArgs, s').
Proof using answers.
  intros Hs Hsession Hprofile Hks Hkp Hfirst Hplain.
  pose proof (get_plugin_first_active_aux self kwargs plugin_name s Hs Hsession) as Hget.
  destruct (active_impls reports plugin_name classes) as [|first' more]; [done|].
  injection Hfirst as ->.
  destruct (Hget profile Hprofile Hks Hkp) as (s' & Hs' & ->).
  exists s'. split; [done|]. apply bind_Raise. apply init_chain_InvalidArgs.
  left. exists "profile". split.
  - rewrite lookup_insert_ne, lookup_insert_eq by done. by eexists.
  - by rewrite recognized_profile.
Qed.

End get_plugin.

Lemma impls_answers (classes : list PluginImpl) :
  (∀ cls, cls ∈ classes → cls ∈ [impl_A; impl_profiled; impl_plain]) →
  ∀ cls s1, cls ∈ classes → s1 = session_with_address →
    ∃ s2, is_active (impl_cls cls) s1 = (Ok (reports_but_A (impl_cls cls)), s2) ∧
          s2 = session_with_address.
Proof.
  intros Hsub cls s1 Hin ->. exists session_with_address.
  specialize (Hsub cls Hin).
  repeat (apply elem_of_cons in Hsub as [->|Hsub]; [by split|]).
  by apply elem_of_nil in Hsub.
Qed.

(** Of two active implementations of ["pslist"], the first registered is
    constructed; for ["foo"], whose one implementation is inactive, the
    result is [None]. *)
Lemma get_plugin_first_active_witness :
  get_plugin [impl_A; impl_profiled; impl_plain] instance_with_address
             (OStr "pslist") ∅ session_with_address
    = (Ok (Some instance_with_address), session_with_address) ∧
  get_plugin [impl_A; impl_profiled; impl_plain] instance_with_address
             (OStr "foo") ∅ session_with_address
    = (Ok None, session_with_address).
Proof.
  assert (∀ cls s1, cls ∈ [impl_A; impl_profiled; impl_plain] →
            s1 = session_with_address →
            ∃ s2, is_active (impl_cls cls) s1 = (Ok (reports_but_A (impl_cls cls)), s2) ∧
                  s2 = session_with_address) as Hanswers
    by (apply impls_answers; done).
  split.
  - destruct (get_plugin_first_active [impl_A; impl_profiled; impl_plain]
                reports_but_A (λ s, s = session_with_address) Hanswers
                instance_with_address (∅ : Dict) (OStr "pslist") session_with_address
                eq_refl eq_refl (OProfile profile_with_address) eq_refl
                (lookup_empty _) (lookup_empty _))
      as (s' & -> & ->).
    reflexivity.
  - destruct (get_plugin_first_active [impl_A; impl_profiled; impl_plain]
                reports_but_A (λ s, s = session_with_address) Hanswers
                instance_with_address (∅ : Dict) (OStr "foo") session_with_address
                eq_refl eq_refl)
      as (s' & -> & ->).
    reflexivity.
Defined.

(** With the plain implementation registered first, [get_plugin("pslist")]
    fails on the [profile] keyword. *)
Lemma get_plugin_plain_target_witness :
  head (active_impls reports_but_A (OStr "pslist") [impl_plain; impl_profiled])
    = Some impl_plain ∧
  (ProfileCommand ∉ impl_mro impl_plain) ∧
  get_plugin [impl_plain; impl_profiled] instance_with_address (OStr "pslist") ∅
             session_with_address
    = (Raise InvalidArgs, session_with_address).
Proof.
  assert (ProfileCommand ∉ impl_mro impl_plain) as Hplain by apply not_elem_of_nil.
  assert (∀ cls, cls ∈ [impl_plain; impl_profiled] →
                 cls ∈ [impl_A; impl_profiled; impl_plain]) as Hsub.
  { intros cls [->|[->|?%elem_of_nil]%elem_of_cons]%elem_of_cons;
      [right; right; left|right; left|done]. }
  split; [reflexivity|]. split; [exact Hplain|].
  destruct (get_plugin_plain_target [impl_plain; impl_profiled]
              reports_but_A (λ s, s = session_with_address)
              (impls_answers _ Hsub)
              instance_with_address (∅ : Dict) (OStr "pslist") session_with_address
              impl_plain (OProfile profile_with_address)
              eq_refl eq_refl eq_refl (lookup_empty _) (lookup_empty _) eq_refl Hplain)
    as (s' & -> & Hget).
  exact Hget.
Defined.

(** ** What construction may change in the session *)

Lemma session_frame_refl s : session_frame s s.
Proof. by split_and!. Qed.

Lemma session_frame_trans s1 s2 s3 :
  session_frame s1 s2 → session_frame s2 s3 → session_frame s1 s3.
Proof.
  intros (Hh1 & Hp1 & Hs1) (Hh2 & Hp2 & Hs2). split_and!; [congruence|congruence|].
  intros item Hitem. by rewrite Hs2, Hs1.
Qed.

Lemma framed_ret {A} (a : A) : framed (ret a).
Proof. intros s r s' [= _ <-]. apply session_frame_refl. Qed.

Lemma framed_raise {A} e : framed (@raise A e).
Proof. intros s r s' [= _ <-]. apply session_frame_refl. Qed.

Lemma framed_bind {A B} (m : M A) (k : A → M B) :
  framed m → (∀ a, framed (k a)) → framed (bind m k).
Proof.
  intros Hm Hk s r s'. unfold bind.
  destruct (m s) as [[a|e] s1] eqn:Hms.
  - intros Hka. eapply session_frame_trans; [by eapply Hm|by eapply Hk].
  - intros [= _ <-]. by eapply Hm.
Qed.

Lemma framed_session_profile : framed session_profile.
Proof.
  intros s r s'. unfold session_profile, GetParameter.
  destruct (HasParameter "profile_obj" s).
  - intros [= _ <-]. apply session_frame_refl.
  - case_bool_decide; intros [= _ <-]; [apply session_frame_refl|].
    split_and!; [done|done|]. intros item Hitem. simpl. by rewrite lookup_insert_ne.
Qed.

Lemma framed_session_set_profile value : framed (session_set_profile value).
Proof.
  intros s r s' [= _ <-]. split_and!; [done|done|].
  intros item Hitem. simpl. by rewrite lookup_insert_ne.
Qed.

Lemma framed_self_session self : framed (self_session self).
Proof.
  unfold self_session.
  destruct (self !! "session") as [[]|]; apply framed_ret || apply framed_raise.
Qed.

Lemma framed_Command__init__ kwargs self : framed (Command__init__ kwargs self).
Proof.
  unfold Command__init__. repeat case_match; apply framed_ret || apply framed_raise.
Qed.

Lemma framed_ProfileCommand_acquire PROFILE_REQUIRED profile self :
  framed (ProfileCommand_acquire PROFILE_REQUIRED profile self).
Proof.
  unfold ProfileCommand_acquire.
  apply framed_bind.
  { case_bool_decide; [|apply framed_ret].
    apply framed_bind; [apply framed_self_session|].
    intros _. apply framed_session_set_profile. }
  intros _. apply framed_bind; [apply framed_self_session|]. intros _.
  intros s r s'. destruct (HasParameter "profile_obj" s).
  - apply framed_bind; [apply framed_session_profile|]. intros p. apply framed_ret.
  - destruct PROFILE_REQUIRED; [|apply framed_ret].
    apply framed_bind; [apply framed_session_profile|]. intros p.
    destruct (negb (truthy p)); apply framed_ret || apply framed_raise.
Qed.

Lemma framed_PrivilegedMixIn_check self : framed (PrivilegedMixIn_check self).
Proof.
  unfold PrivilegedMixIn_check.
  apply framed_bind; [apply framed_self_session|]. intros _.
  intros s r s'. destruct (negb (privileged s)); apply framed_ret || apply framed_raise.
Qed.

Lemma framed_init_chain PROFILE_REQUIRED mro : ∀ kwargs self,
  framed (init_chain PROFILE_REQUIRED mro kwargs self).
Proof.
  induction mro as [|base rest IH]; intros kwargs self; simpl.
  - apply framed_Command__init__.
  - destruct base.
    + apply framed_bind; [apply IH|]. intros self'. apply framed_ProfileCommand_acquire.
    + apply IH.
    + apply framed_bind; [apply IH|]. intros self'. apply framed_PrivilegedMixIn_check.
Qed.

(** X13. Whatever the class, the keywords and the outcome, construction
    leaves the session's hooks, its privilege flag and every parameter other
    than ["profile_obj"] as they were. *)
Theorem construct_session_frame (PROFILE_REQUIRED : bool) (mro : list Base)
    (kwargs : Dict) (s : Session) :
  hooks (construct PROFILE_REQUIRED mro kwargs s).2 = hooks s ∧
  privileged (construct PROFILE_REQUIRED mro kwargs s).2 = privileged s ∧
  ∀ item, item ≠ "profile_obj" →
    state (construct PROFILE_REQUIRED mro kwargs s).2 !! item = state s !! item.
Proof.
  destruct (construct PROFILE_REQUIRED mro kwargs s) as [r s'] eqn:Hc.
  exact (framed_init_chain PROFILE_REQUIRED mro kwargs ∅ s r s' Hc).
Qed.

(** ** PrivilegedMixIn *)

Lemma init_chain_unprivileged PROFILE_REQUIRED mro : ∀ kwargs self s,
  privileged s = false → PrivilegedMixIn ∈ mro →
  ∃ e s', init_chain PROFILE_REQUIRED mro kwargs self s = (Raise e, s').
Proof.
  induction mro as [|base rest IH]; intros kwargs self s Hs Hin.
  - by apply elem_of_nil in Hin.
  - assert (base = PrivilegedMixIn ∨ PrivilegedMixIn ∈ rest) as [->|Hrest].
    { apply elem_of_cons in Hin as [<-|?]; [by left|by right]. }
    + simpl. unfold bind at 1.
      destruct (init_chain PROFILE_REQUIRED rest kwargs self s) as [[self'|e] s1] eqn:Hc;
        [|by eexists _, _].
      destruct (framed_init_chain _ _ _ _ _ _ _ Hc) as (_ & Hpriv & _).
      unfold PrivilegedMixIn_check, bind, self_session.
      destruct (self' !! "session") as [[]|]; try by eexists _, _.
      unfold ret. rewrite Hpriv, Hs. simpl. by eexists _, _.
    + destruct base; simpl.
      * destruct (IH (delete "profile" kwargs) self s Hs Hrest) as (e & s' & Hc).
        exists e, s'. by apply bind_Raise.
      * by apply IH.
      * destruct (IH kwargs self s Hs Hrest) as (e & s' & Hc).
        exists e, s'. by apply bind_Raise.
Qed.

(** X14. A class with [PrivilegedMixIn] in its constructor chain is never
    constructed on a session that is not privileged: whatever the other
    mixins and the keywords, construction raises. *)
Theorem construct_unprivileged (PROFILE_REQUIRED : bool) (mro : list Base)
    (kwargs : Dict) (s : Session) :
  privileged s = false → PrivilegedMixIn ∈ mro →
  ∃ e s', construct PROFILE_REQUIRED mro kwargs s = (Raise e, s').
Proof. intros Hs Hin. by apply init_chain_unprivileged. Qed.

Lemma construct_unprivileged_witness :
  privileged blank_session = false ∧
  PrivilegedMixIn ∈ [VerbosityMixIn; PrivilegedMixIn; ProfileCommand] ∧
  ∃ e s', construct false [VerbosityMixIn; PrivilegedMixIn; ProfileCommand]
            {[ "session" := OSession ]} blank_session = (Raise e, s').
Proof.
  assert (PrivilegedMixIn ∈ [VerbosityMixIn; PrivilegedMixIn; ProfileCommand]) as Hin
    by (right; left).
  split; [reflexivity|]. split; [exact Hin|].
  exact (construct_unprivileged false _ {[ "session" := OSession ]}
           blank_session eq_refl Hin).
Defined.

(** With the session as only keyword and [PrivilegedMixIn] as only mixin,
    the exception is [PluginError] on a session that is not privileged, and
    there is none on one that is. *)
Lemma PrivilegedMixIn_alone (PROFILE_REQUIRED : bool) (s : Session) :
  construct PROFILE_REQUIRED [PrivilegedMixIn] {[ "session" := OSession ]} s
    = (if privileged s then Ok {[ "session" := OSession ]} else Raise PluginError, s).
Proof.
  unfold construct; simpl.
  erewrite bind_Ok; [|apply Command__init__Ok; [by rewrite delete_singleton_eq|done]].
  unfold PrivilegedMixIn_check, bind, self_session.
  rewrite lookup_insert_eq. unfold dict_get. rewrite lookup_singleton_eq. simpl.
  unfold ret, raise. rewrite insert_empty. by destruct (privileged s).
Qed.

(** ** The attributes of a constructed instance *)

Lemma Command__init__attributes kwargs self0 s self s' :
  Command__init__ kwargs self0 s = (Ok self, s') →
  self !! "session" = Some (dict_get kwargs "session") ∧
  dict_get kwargs "session" ≠ ONone ∧
  (∀ attr, attr ≠ "session" → self !! attr = self0 !! attr) ∧ s' = s.
Proof.
  unfold Command__init__. destruct (dict_truthy _); [done|].
  case_bool_decide as Hsession; [done|]. intros [= <- <-].
  split_and!; [apply lookup_insert_eq|done| |done].
  intros attr Hattr. by rewrite lookup_insert_ne.
Qed.

Lemma ProfileCommand_acquire_attributes PROFILE_REQUIRED profile self1 s1 self s' :
  ProfileCommand_acquire PROFILE_REQUIRED profile self1 s1 = (Ok self, s') →
  self1 !! "session" = Some OSession ∧
  (∀ attr, attr ≠ "profile" → self !! attr = self1 !! attr) ∧
  (PROFILE_REQUIRED = true →
   ∃ p, self !! "profile" = Some p ∧ p ≠ ONone ∧ resolved_profile s' = p).
Proof.
  intros Hacquire.
  assert (self1 !! "session" = Some OSession) as Hsession.
  { unfold ProfileCommand_acquire, bind, self_session in Hacquire.
    destruct (self1 !! "session") as [[]|]; try done;
      by case_bool_decide. }
  split; [done|].
  destruct (decide (profile = ONone)) as [->|Hprofile].
  - destruct (decide (dict_get (state s1) "profile_obj" = ONone)) as [Hunset|Hset].
    + unfold ProfileCommand_acquire in Hacquire.
      rewrite bool_decide_eq_false_2 in Hacquire by (by intros ?).
      unfold bind, self_session, ret in Hacquire. rewrite Hsession in Hacquire.
      rewrite (proj2 (HasParameter_false _ _) Hunset) in Hacquire.
      destruct PROFILE_REQUIRED.
      * destruct (session_profile_resolves s1) as (s2 & Hread & Hsame & _).
        rewrite Hread in Hacquire.
        destruct (truthy (resolved_profile s1)) eqn:Htruthy; [|done].
        simpl in Hacquire. injection Hacquire as <- <-.
        split; [intros attr Hattr; by rewrite lookup_insert_ne|].
        intros _. exists (resolved_profile s1).
        split_and!; [apply lookup_insert_eq| |done].
        intros Hnone. by rewrite Hnone in Htruthy.
      * injection Hacquire as <- <-. by split.
    + rewrite ProfileCommand_acquire_set in Hacquire by done.
      injection Hacquire as <- <-.
      split; [intros attr Hattr; by rewrite lookup_insert_ne|].
      intros _. exists (dict_get (state s1) "profile_obj").
      split_and!; [apply lookup_insert_eq|done|].
      unfold resolved_profile. by rewrite (proj2 (HasParameter_true _ _) Hset).
  - rewrite ProfileCommand_acquire_override in Hacquire by done.
    injection Hacquire as <- <-.
    split; [intros attr Hattr; by rewrite lookup_insert_ne|].
    intros _. exists profile. split_and!; [apply lookup_insert_eq|done|].
    unfold resolved_profile.
    assert (HasParameter "profile_obj" (with_profile profile s1) = true) as ->.
    { apply HasParameter_true. simpl. unfold dict_get. by rewrite lookup_insert_eq. }
    simpl. unfold dict_get. by rewrite lookup_insert_eq.
Qed.

Lemma PrivilegedMixIn_check_Ok self1 s1 self s' :
  PrivilegedMixIn_check self1 s1 = (Ok self, s') → self = self1 ∧ s' = s1.
Proof.
  unfold PrivilegedMixIn_check, bind, self_session.
  destruct (self1 !! "session") as [[]|]; try done.
  unfold ret. destruct (negb (privileged s1)); [done|]. by intros [= <- <-].
Qed.

Lemma init_chain_attributes PROFILE_REQUIRED mro : ∀ kwargs self0 s self s',
  NoDup mro →
  init_chain PROFILE_REQUIRED mro kwargs self0 s = (Ok self, s') →
  self !! "session" = Some (dict_get kwargs "session") ∧
  dict_get kwargs "session" ≠ ONone ∧
  self !! "verbosity" = (if decide (VerbosityMixIn ∈ mro)
                         then Some (default (OInt 1) (kwargs !! "verbosity"))
                         else self0 !! "verbosity") ∧
  (ProfileCommand ∈ mro →
   dict_get kwargs "session" = OSession ∧
   (PROFILE_REQUIRED = true →
    ∃ p, self !! "profile" = Some p ∧ p ≠ ONone ∧ resolved_profile s' = p)).
Proof.
  induction mro as [|base rest IH]; intros kwargs self0 s self s' Hnd Hchain.
  - simpl in Hchain.
    apply Command__init__attributes in Hchain as (Hsession & Hsome & Hother & _).
    split_and!; [done|done| |by intros ?%elem_of_nil].
    rewrite decide_False by apply not_elem_of_nil. by apply Hother.
  - apply NoDup_cons in Hnd as [Hfresh Hnd]. destruct base; simpl in Hchain.
    + unfold bind in Hchain.
      destruct (init_chain PROFILE_REQUIRED rest (delete "profile" kwargs) self0 s)
        as [[self1|e] s1] eqn:Hrest; [|done].
      destruct (IH _ _ _ _ _ Hnd Hrest) as (Hsession & Hsome & Hverbosity & _).
      apply ProfileCommand_acquire_attributes in Hchain as (Hsession1 & Hother & Hprofile).
      unfold dict_get in Hsession, Hsome.
      rewrite lookup_delete_ne in Hsession, Hsome by done.
      rewrite lookup_delete_ne in Hverbosity by done.
      split_and!.
      * by rewrite Hother.
      * done.
      * rewrite Hother, Hverbosity by done.
        destruct (decide (VerbosityMixIn ∈ rest)) as [Hin|Hnin].
        -- rewrite decide_True; [done|by right].
        -- rewrite decide_False; [done|]. by intros [?|?]%elem_of_cons.
      * intros _. split; [|done]. unfold dict_get. congruence.
    + destruct (IH _ _ _ _ _ Hnd Hchain) as (Hsession & Hsome & Hverbosity & Hprofile).
      unfold dict_get in Hsession, Hsome.
      rewrite lookup_delete_ne in Hsession, Hsome by done.
      rewrite decide_False in Hverbosity by done.
      rewrite lookup_insert_eq in Hverbosity.
      split_and!; [done|done| |].
      * rewrite decide_True; [done|by left].
      * intros [?|Hin]%elem_of_cons; [done|].
        destruct (Hprofile Hin) as [Hs Hp]. split; [|done].
        unfold dict_get in *. by rewrite lookup_delete_ne in Hs.
    + unfold bind in Hchain.
      destruct (init_chain PROFILE_REQUIRED rest kwargs self0 s)
        as [[self1|e] s1] eqn:Hrest; [|done].
      apply PrivilegedMixIn_check_Ok in Hchain as [-> ->].
      destruct (IH _ _ _ _ _ Hnd Hrest) as (Hsession & Hsome & Hverbosity & Hprofile).
      split_and!; [done|done| |].
      * rewrite Hverbosity.
        destruct (decide (VerbosityMixIn ∈ rest)) as [Hin|Hnin].
        -- rewrite decide_True; [done|by right].
        -- rewrite decide_False; [done|]. by intros [?|?]%elem_of_cons.
      * intros [?|Hin]%elem_of_cons; [done|]. by apply Hprofile.
Qed.

(** X15. When construction returns an instance (each class once in the
    chain): its [session] is the [session] keyword, which is not [None];
    with [VerbosityMixIn] in the chain its [verbosity] is the [verbosity]
    keyword, and [1] when none was given; with [ProfileCommand] in the chain
    the session keyword is the session object and, if [PROFILE_REQUIRED],
    the instance's [profile] is not [None] and is the profile the session
    resolves to after the construction. *)
Theorem construct_attributes (PROFILE_REQUIRED : bool) (mro : list Base)
    (kwargs : Dict) (s : Session) (self : Dict) (s' : Session) :
  NoDup mro →
  construct PROFILE_REQUIRED mro kwargs s = (Ok self, s') →
  self !! "session" = Some (dict_get kwargs "session") ∧
  dict_get kwargs "session" ≠ ONone ∧
  (VerbosityMixIn ∈ mro →
   self !! "verbosity" = Some (default (OInt 1) (kwargs !! "verbosity"))) ∧
  (ProfileCommand ∈ mro →
   dict_get kwargs "session" = OSession ∧
   (PROFILE_REQUIRED = true →
    ∃ p, self !! "profile" = Some p ∧ p ≠ ONone ∧ resolved_profile s' = p)).
Proof.
  intros Hnd Hc.
  destruct (init_chain_attributes _ _ _ _ _ _ _ Hnd Hc)
    as (Hsession & Hsome & Hverbosity & Hprofile).
  split_and!; [done|done| |done].
  intros Hin. by rewrite decide_True in Hverbosity.
Qed.

Lemma construct_attributes_witness :
  NoDup [VerbosityMixIn; ProfileCommand] ∧
  construct true [VerbosityMixIn; ProfileCommand] {[ "session" := OSession ]}
            detecting_session
    = (Ok detected_instance,
       with_profile (OProfile profile_with_address) detecting_session) ∧
  detected_instance !! "verbosity" = Some (OInt 1) ∧
  ∃ p, detected_instance !! "profile" = Some p ∧ p ≠ ONone ∧
       resolved_profile (with_profile (OProfile profile_with_address) detecting_session)
         = p.
Proof.
  assert (NoDup [VerbosityMixIn; ProfileCommand]) as Hnd.
  { apply NoDup_cons. split; [|apply NoDup_singleton].
    rewrite list_elem_of_singleton. discriminate. }
  assert (construct true [VerbosityMixIn; ProfileCommand] {[ "session" := OSession ]}
                    detecting_session
          = (Ok detected_instance,
             with_profile (OProfile profile_with_address) detecting_session)) as Hc
    by reflexivity.
  split; [exact Hnd|]. split; [exact Hc|].
  destruct (construct_attributes true _ _ _ _ _ Hnd Hc) as (_ & _ & Hverbosity & Hprofile).
  split.
  - exact (Hverbosity ltac:(left)).
  - exact (proj2 (Hprofile ltac:(right; left)) eq_refl).
Defined.

(** A caller whose [session] attribute is not the session: [is_active] is
    handed that object and [get_plugin] goes on; with no class of the name
    answering active, it returns [None]. *)
Example get_plugin_other_session :
  get_plugin [impl_A; impl_plain] {[ "session" := OInt 5 ]} (OStr "foo") ∅
             blank_session
    = (Ok None, blank_session).
Proof. reflexivity. Qed.

(** ** get_plugin and the session's profile *)

Lemma construct_ProfileCommand_override PROFILE_REQUIRED profile s :
  profile ≠ ONone →
  construct PROFILE_REQUIRED [ProfileCommand]
            (<["session" := OSession]> (<["profile" := profile]> ∅)) s =
    (Ok (<["profile" := profile]> {[ "session" := OSession ]}), with_profile profile s).
Proof.
  intros Hprofile. unfold construct. simpl.
  erewrite bind_Ok.
  - unfold dict_get at 1. rewrite lookup_insert_ne, lookup_insert_eq by done.
    simpl. apply ProfileCommand_acquire_override; [|done]. apply lookup_insert_eq.
  - rewrite delete_insert_ne, delete_insert_eq, delete_empty by done.
    rewrite Command__init__Ok; [by rewrite insert_empty| |].
    + by rewrite delete_insert_eq, delete_empty.
    + unfold dict_get. by rewrite lookup_insert_eq.
Qed.

Section get_plugin_profile.
Context (classes : list PluginImpl).
Context (reports : PluginClass → bool) (stable : Session → Prop).
Hypothesis answers :
  ∀ cls s1, cls ∈ classes → stable s1 →
    ∃ s2, is_active (impl_cls cls) s1 = (Ok (reports (impl_cls cls)), s2) ∧ stable s2.

(** X16. When the first active class of the name derives from
    [ProfileCommand] alone and the caller holds a profile, [get_plugin]
    without further keywords returns an instance holding the caller's
    session and profile, and the caller's profile is installed into the
    session, whatever profile the session had. *)
Theorem get_plugin_installs_profile (self : Dict) (plugin_name : PyObj)
    (s : Session) (first : PluginImpl) (profile : PyObj) :
  stable s →
  self !! "session" = Some OSession →
  self !! "profile" = Some profile → profile ≠ ONone →
  head (active_impls reports plugin_name classes) = Some first →
  impl_mro first = [ProfileCommand] →
  ∃ s', stable s' ∧
        get_plugin classes self plugin_name ∅ s =
          (Ok (Some (<["profile" := profile]> {[ "session" := OSession ]})),
           with_profile profile s').
Proof using answers.
  intros Hs Hsession Hprofile Hsome Hfirst Hmro.
  pose proof (get_plugin_first_active_aux classes reports stable answers
                self ∅ plugin_name s Hs Hsession) as Hget.
  destruct (active_impls reports plugin_name classes) as [|first' more]; [done|].
  injection Hfirst as ->.
  destruct (Hget profile Hprofile (lookup_empty _) (lookup_empty _)) as (s' & Hs' & ->).
  exists s'. split; [done|]. rewrite Hmro.
  erewrite bind_Ok; [done|]. by apply construct_ProfileCommand_override.
Qed.

End get_plugin_profile.

(** An instance that holds [profile_without_types] asks for ["pslist"] on
    [session_with_address]: the new instance gets the caller's profile, and
    so does the session. *)
Lemma get_plugin_installs_profile_witness :
  head (active_impls reports_but_A (OStr "pslist") [impl_A; impl_profiled; impl_plain])
    = Some impl_profiled ∧
  get_plugin [impl_A; impl_profiled; impl_plain]
             (<["profile" := OProfile profile_without_types]> {[ "session" := OSession ]})
             (OStr "pslist") ∅ session_with_address
    = (Ok (Some (<["profile" := OProfile profile_without_types]>
                   {[ "session" := OSession ]})),
       with_profile (OProfile profile_without_types) session_with_address).
Proof.
  split; [reflexivity|].
  assert ((<["profile" := OProfile profile_without_types]> {[ "session" := OSession ]}
             : Dict) !! "session" = Some OSession) as Hsession
    by (by rewrite lookup_insert_ne, lookup_singleton_eq).
  assert ((<["profile" := OProfile profile_without_types]> {[ "session" := OSession ]}
             : Dict) !! "profile" = Some (OProfile profile_without_types)) as Hprofile
    by apply lookup_insert_eq.
  destruct (get_plugin_installs_profile [impl_A; impl_profiled; impl_plain]
              reports_but_A (λ s, s = session_with_address)
              (impls_answers _ (λ cls H, H))
              (<["profile" := OProfile profile_without_types]> {[ "session" := OSession ]})
              (OStr "pslist") session_with_address impl_profiled
              (OProfile profile_without_types)
              eq_refl Hsession Hprofile ltac:(discriminate) eq_refl eq_refl)
    as (s' & -> & Hget).
  exact Hget.
Defined.

(** ** Plugins that do not require a profile *)

Lemma ProfileCommand_acquire_optional (self : Dict) s :
  self !! "session" = Some OSession →
  dict_get (state s) "profile_obj" = ONone →
  ProfileCommand_acquire false ONone self s = (Ok self, s).
Proof.
  intros Hself Hstate. unfold ProfileCommand_acquire.
  rewrite bool_decide_eq_false_2 by (by intros ?).
  assert (HasParameter "profile_obj" s = false) as Hhas
    by (by apply HasParameter_false).
  unfold bind, self_session, ret. by rewrite Hself, Hhas.
Qed.

(** X17. A class with [PROFILE_REQUIRED] false, constructed without a
    profile on a session that has none, is constructed without running the
    autodetection (the session is left exactly as it was) and gets no
    [profile] attribute; on such an instance, [reflect] of a column whose
    declared type is a non-empty string raises [AttributeError]. *)
Theorem optional_profile_reflect (s : Session) (columns : list Column)
    (h : PluginHeader) (column : Column) (type_name : string) :
  dict_get (state s) "profile_obj" = ONone →
  PluginHeader__init__ columns = Ok h →
  column ∈ columns →
  dict_get column "type" = OStr type_name → type_name ≠ "" →
  ∃ self, ProfileCommand__init__ false {[ "session" := OSession ]} s = (Ok self, s) ∧
          self !! "profile" = None ∧
          reflect (Some h) self (cname_of column) = Raise AttributeError.
Proof.
  intros Hunset Hc Hin Htype Hname.
  exists {[ "session" := OSession ]}. split_and!.
  - unfold ProfileCommand__init__, construct. simpl.
    erewrite bind_Ok.
    + unfold dict_get at 1. rewrite lookup_singleton_ne by done. simpl.
      apply ProfileCommand_acquire_optional; [apply lookup_singleton_eq|done].
    + rewrite delete_singleton_ne by done.
      rewrite Command__init__Ok; [|by rewrite delete_singleton_eq|done].
      unfold dict_get. by rewrite lookup_singleton_eq, insert_empty.
  - by rewrite lookup_singleton_ne.
  - unfold reflect. rewrite (constructed_by_cname_Some _ _ _ Hc Hin).
    destruct (constructed_well_formed _ _ Hc) as [Hall _].
    rewrite Forall_forall in Hall.
    rewrite (truthy_cname_nonempty column) by (by apply Hall). simpl.
    rewrite Htype. simpl. destruct (String.eqb_spec type_name ""); [done|]. simpl.
    by rewrite lookup_singleton_ne.
Qed.

Lemma optional_profile_reflect_witness :
  dict_get (state detecting_session) "profile_obj" = ONone ∧
  PluginHeader__init__ example_columns = Ok example_header ∧
  ∃ self, ProfileCommand__init__ false {[ "session" := OSession ]} detecting_session
            = (Ok self, detecting_session) ∧
          self !! "profile" = None ∧
          reflect (Some example_header) self (cname_of offset_column)
            = Raise AttributeError.
Proof.
  split; [reflexivity|]. split; [exact example_header_constructed|].
  exact (optional_profile_reflect detecting_session example_columns example_header
           offset_column "address" eq_refl example_header_constructed
           ltac:(left) eq_refl ltac:(discriminate)).
Defined.

(** * The kernel configuration parser *)

(** ** Lines *)

Lemma split_lines_nonempty config : split_lines config ≠ [].
Proof.
  destruct config as [|c rest]; simpl; [done|].
  destruct (Ascii.eqb c newline_char); [done|]. by destruct (split_lines rest).
Qed.

Lemma split_lines_joined before after :
  split_lines (joined before after) = split_lines before ++ split_lines after.
Proof.
  unfold joined. induction before as [|c rest IH]; simpl.
  - done.
  - destruct (Ascii.eqb c newline_char); [by rewrite IH|].
    rewrite IH. pose proof (split_lines_nonempty rest).
    by destruct (split_lines rest).
Qed.

Lemma no_newline_one_line text : no_newline text = true → split_lines text = [text].
Proof.
  induction text as [|c rest IH]; simpl; [done|].
  destruct (Ascii.eqb c newline_char); simpl; [done|].
  intros Hrest. by rewrite IH.
Qed.

Lemma no_newline_append a b :
  no_newline a = true → no_newline b = true → no_newline (a +:+ b) = true.
Proof.
  induction a as [|c rest IH]; simpl; [done|].
  destruct (Ascii.eqb c newline_char); simpl; [done|]. apply IH.
Qed.

Lemma word_char_not_newline c : is_word_char c = true → Ascii.eqb c newline_char = false.
Proof. by destruct c as [[] [] [] [] [] [] [] []]. Qed.

Lemma word_char_not_space_hash c :
  is_word_char c = true → is_space_char c = false ∧ c ≠ hash_char.
Proof. by destruct c as [[] [] [] [] [] [] [] []]. Qed.

Lemma all_word_no_newline text : all_word text = true → no_newline text = true.
Proof.
  induction text as [|c rest IH]; simpl; [done|].
  intros [Hc Hrest]%andb_true_iff. by rewrite word_char_not_newline, IH.
Qed.

Lemma span_word_flag flag e rest :
  all_word flag = true → is_word_char e = false →
  span_word (flag +:+ String e rest) = (flag, String e rest).
Proof.
  intros Hflag He. induction flag as [|c flag IH]; simpl.
  - by rewrite He.
  - simpl in Hflag. apply andb_true_iff in Hflag as [Hc Hflag].
    by rewrite Hc, IH.
Qed.

(** A flag name, [=] and a value is read as that flag and that value. *)
Lemma match_flag_and_value_assignment flag value :
  is_flag_name flag →
  match_flag_and_value (flag +:+ String equals_char value) = Some (flag, value).
Proof.
  intros [Hne Hword]. unfold match_flag_and_value.
  rewrite span_word_flag by done. by destruct flag.
Qed.

(** A line that is passed over is no assignment. *)
Lemma match_flag_and_value_skipped line :
  skipped_line line = true → match_flag_and_value line = None.
Proof.
  unfold skipped_line, match_flag_and_value.
  destruct line as [|c rest]; [done|]. simpl.
  destruct (is_word_char c) eqn:Hc; [|done].
  destruct (word_char_not_space_hash c Hc) as [Hspace Hhash].
  rewrite Hspace. simpl. rewrite bool_decide_eq_false_2; [done|]. congruence.
Qed.

Section ConfigParser_properties.
Context {CValue : Type} (CNumber : Z → CValue) (CLiteral : string → CValue).
Context (int_base0 : string → option Z).

Local Abbreviation parse_here := (parse CNumber CLiteral int_base0).
Local Abbreviation parse_lines_here := (parse_lines CNumber CLiteral int_base0).
Local Abbreviation parse_line_here := (parse_line CNumber CLiteral int_base0).

(** A line adds at most one flag to those read so far, whatever they are. *)
Lemma parse_line_overlay line (flags : gmap string CValue) :
  parse_line_here line flags =
    match parse_line_here line ∅ with
    | Flags added => Flags (added ∪ flags)
    | UnknownConfigLineFormatException l => UnknownConfigLineFormatException l
    end.
Proof.
  unfold parse_line. destruct (match_flag_and_value line) as [[flag value]|].
  - unfold _process_flag_and_value_line. destruct (String.eqb value "m").
    + by rewrite insert_union_singleton_l, insert_empty.
    + destruct (_parse_value _ _ _ value); [|done].
      by rewrite insert_union_singleton_l, insert_empty.
  - destruct (_ || _ || _); [|done]. by rewrite (left_id_L ∅ (∪)).
Qed.

Lemma parse_lines_overlay lines : ∀ (flags : gmap string CValue),
  parse_lines_here lines flags =
    match parse_lines_here lines ∅ with
    | Flags added => Flags (added ∪ flags)
    | UnknownConfigLineFormatException l => UnknownConfigLineFormatException l
    end.
Proof.
  induction lines as [|line rest IH]; intros flags; simpl.
  - by rewrite (left_id_L ∅ (∪)).
  - rewrite (parse_line_overlay line flags).
    destruct (parse_line_here line ∅) as [added|l]; [|done].
    rewrite (IH (added ∪ flags)), (IH added).
    destruct (parse_lines_here rest ∅) as [later|l]; [|done].
    by rewrite (assoc_L (∪)).
Qed.

Lemma parse_lines_app first second : ∀ (flags : gmap string CValue),
  parse_lines_here (first ++ second) flags =
    match parse_lines_here first flags with
    | Flags flags' => parse_lines_here second flags'
    | UnknownConfigLineFormatException l => UnknownConfigLineFormatException l
    end.
Proof.
  induction first as [|line rest IH]; intros flags; simpl; [done|].
  destruct (parse_line_here line flags); [apply IH|done].
Qed.

(** X18. Parsing two texts joined by a newline is parsing each: an unknown
    line of the first text is raised first, else one of the second; when
    both parse, the result has the flags of both, and a flag set in both has
    the value from the second text. *)
Theorem parse_joined (before after : string) :
  parse_here (joined before after) =
    match parse_here before with
    | UnknownConfigLineFormatException l => UnknownConfigLineFormatException l
    | Flags earlier =>
        match parse_here after with
        | UnknownConfigLineFormatException l => UnknownConfigLineFormatException l
        | Flags later => Flags (later ∪ earlier)
        end
    end.
Proof.
  unfold parse. rewrite split_lines_joined, parse_lines_app.
  destruct (parse_lines_here (split_lines before) ∅) as [earlier|l]; [|done].
  apply parse_lines_overlay.
Qed.

(** X19. A line made of a flag name, [=] and a value sets: for the value
    [y], the flag to the number 1; for the value [m], the flag with
    [_MODULE] appended to the number 1, and not the flag itself; for a value
    between double quotes, the flag to the literal between the quotes. *)
Theorem parse_assignment (flag : string) :
  is_flag_name flag →
  parse_here (flag +:+ String equals_char "y") = Flags {[ flag := CNumber 1 ]} ∧
  parse_here (flag +:+ String equals_char "m")
    = Flags {[ flag +:+ "_MODULE" := CNumber 1 ]} ∧
  ∀ value, no_newline value = true →
    parse_here (flag +:+ String equals_char (quoted value))
      = Flags {[ flag := CLiteral value ]}.
Proof.
  intros Hflag.
  assert (∀ value, no_newline value = true →
            parse_here (flag +:+ String equals_char value) =
            _process_flag_and_value_line CNumber CLiteral int_base0
              (flag +:+ String equals_char value) flag value ∅) as Hline.
  { intros value Hvalue. unfold parse.
    rewrite no_newline_one_line.
    - simpl. unfold parse_line. rewrite match_flag_and_value_assignment by done.
      by destruct (_process_flag_and_value_line _ _ _ _ _ _ _).
    - apply no_newline_append; [apply all_word_no_newline, Hflag|done]. }
  split_and!.
  - rewrite Hline by done. unfold _process_flag_and_value_line, _parse_value. simpl.
    by rewrite insert_empty.
  - rewrite Hline by done. unfold _process_flag_and_value_line. simpl.
    by rewrite insert_empty.
  - intros value Hvalue. rewrite Hline.
    + unfold _process_flag_and_value_line.
      assert (String.eqb (quoted value) "m" = false) as ->.
      { apply String.eqb_neq. unfold quoted. intros Heq. discriminate Heq. }
      assert (_parse_value CNumber CLiteral int_base0 (quoted value)
              = Some (CLiteral value)) as ->; [|by rewrite insert_empty].
      unfold _parse_value.
      assert (String.eqb (quoted value) "y" = false) as ->.
      { apply String.eqb_neq. unfold quoted. intros Heq. discriminate Heq. }
      assert (last_char (quoted value) = Some quote_char) as Hlast.
      { unfold quoted. simpl.
        assert (∀ c, last_char (String c (value +:+ String quote_char EmptyString))
                     = Some quote_char) as Hl; [|apply Hl].
        induction value as [|d value IH]; intros c; simpl; [done|].
        simpl in Hvalue. apply andb_true_iff in Hvalue as [_ Hvalue].
        specialize (IH Hvalue d). simpl in IH. by rewrite IH. }
      assert (String.length (quoted value) = S (S (String.length value))) as Hlen.
      { unfold quoted. simpl. f_equal.
        clear. induction value as [|d value IH]; simpl; [done|]. by rewrite IH. }
      rewrite Hlast, Hlen. simpl. do 2 f_equal.
      rewrite Nat.sub_0_r. clear.
      induction value as [|d value IH]; simpl; [done|]. by rewrite IH.
    + unfold quoted. simpl. apply no_newline_append; [done|]. done.
Qed.

(** X20. An empty line, a line of whitespace and a line that starts with
    [#] add nothing, wherever they stand: a text parses as it does without
    the line. *)
Theorem parse_skips (line text : string) :
  no_newline line = true → skipped_line line = true →
  parse_here (joined line text) = parse_here text ∧
  parse_here (joined text line) = parse_here text.
Proof.
  intros Hone Hskip.
  assert (parse_here line = Flags ∅) as Hline.
  { unfold parse. rewrite no_newline_one_line by done. simpl.
    unfold parse_line. rewrite match_flag_and_value_skipped by done.
    fold (skipped_line line). by rewrite Hskip. }
  split; rewrite parse_joined, Hline.
  - destruct (parse_here text) as [flags|l]; [|done]. by rewrite (right_id_L ∅ (∪)).
  - destruct (parse_here text) as [flags|l]; [|done]. by rewrite (left_id_L ∅ (∪)).
Qed.

(** X21. A line that starts with a character that is neither a word
    character nor [#], and that is not whitespace only (an indented
    assignment, for one), raises [UnknownConfigLineFormatException] with
    that line, once the text before it has parsed; the flags read before it
    are lost with the exception. *)
Theorem parse_rejects (before after : string) (c : Ascii.ascii) (rest : string) :
  no_newline (String c rest) = true →
  is_word_char c = false → c ≠ hash_char → isspace (String c rest) = false →
  (∃ earlier, parse_here before = Flags earlier) →
  parse_here (joined before (joined (String c rest) after))
    = UnknownConfigLineFormatException (String c rest).
Proof.
  intros Hone Hword Hhash Hspace [earlier Hbefore].
  assert (parse_here (String c rest) = UnknownConfigLineFormatException (String c rest))
    as Hline.
  { unfold parse. rewrite no_newline_one_line by done.
    cbn [parse_lines]. unfold parse_line, match_flag_and_value.
    cbn [span_word]. rewrite Hword, Hspace.
    rewrite bool_decide_eq_false_2 by done. simpl.
    rewrite bool_decide_eq_false_2; [done|]. congruence. }
  by rewrite parse_joined, Hbefore, parse_joined, Hline.
Qed.

End ConfigParser_properties.

Lemma CONFIG_SMP_is_flag_name : is_flag_name "CONFIG_SMP".
Proof. by split. Qed.

Lemma parse_assignment_witness :
  is_flag_name "CONFIG_SMP" ∧
  parse inl inr reads_nothing ("CONFIG_SMP" +:+ String equals_char "y")
    = Flags {[ "CONFIG_SMP" := inl 1%Z ]} ∧
  parse inl inr reads_nothing ("CONFIG_SMP" +:+ String equals_char "m")
    = Flags {[ "CONFIG_SMP" +:+ "_MODULE" := inl 1%Z ]} ∧
  parse inl inr reads_nothing ("CONFIG_SMP" +:+ String equals_char (quoted "x86_64"))
    = Flags {[ "CONFIG_SMP" := inr "x86_64" ]}.
Proof.
  split; [exact CONFIG_SMP_is_flag_name|].
  destruct (parse_assignment (CValue := Z + string) inl inr reads_nothing "CONFIG_SMP"
              CONFIG_SMP_is_flag_name) as (Hy & Hm & Hquoted).
  split; [exact Hy|]. split; [exact Hm|]. exact (Hquoted "x86_64" eq_refl).
Defined.

Lemma parse_skips_witness :
  no_newline comment_line = true ∧ skipped_line comment_line = true ∧
  parse inl inr reads_nothing (joined comment_line smp_line)
    = parse (CValue := Z + string) inl inr reads_nothing smp_line ∧
  parse inl inr reads_nothing (joined smp_line comment_line)
    = parse (CValue := Z + string) inl inr reads_nothing smp_line.
Proof.
  split; [reflexivity|]. split; [reflexivity|].
  exact (parse_skips (CValue := Z + string) inl inr reads_nothing comment_line smp_line
           eq_refl eq_refl).
Defined.

Lemma parse_rejects_witness :
  (∃ earlier, parse (CValue := Z + string) inl inr reads_nothing smp_line
              = Flags earlier) ∧
  parse (CValue := Z + string) inl inr reads_nothing
        (joined smp_line (joined indented_line smp_line))
    = UnknownConfigLineFormatException indented_line.
Proof.
  assert (∃ earlier, parse (CValue := Z + string) inl inr reads_nothing smp_line
                     = Flags earlier) as Hbefore by (by eexists).
  split; [exact Hbefore|].
  exact (parse_rejects (CValue := Z + string) inl inr reads_nothing
           smp_line smp_line (Ascii.ascii_of_nat 32)
           ("CONFIG_NUMA" +:+ String equals_char "y")
           eq_refl eq_refl ltac:(discriminate) eq_refl Hbefore).
Defined.

(** A configuration of four lines: a comment, two flags and a module. *)
Example parse_example :
  parse (CValue := Z + string) inl inr reads_nothing
        (joined comment_line
           (joined smp_line
              (joined ("CONFIG_ARCH" +:+ String equals_char (quoted "x86"))
                      ("CONFIG_EXT4_FS" +:+ String equals_char "m"))))
  = Flags {[ "CONFIG_SMP" := inl 1%Z; "CONFIG_ARCH" := inr "x86";
             "CONFIG_EXT4_FS_MODULE" := inl 1%Z ]}.
Proof.
  reflexivity.
Qed.

(** * The handles plugin *)

Lemma sublist_omap {A B} (f g : A → option B) (l : list A) :
  (∀ x y, f x = Some y → g x = Some y) → sublist (omap f l) (omap g l).
Proof.
  intros Hfg. induction l as [|x l IH]; simpl; [constructor|].
  destruct (f x) as [y|] eqn:Hf.
  - rewrite (Hfg x y Hf). by constructor.
  - destruct (g x); [by constructor|done].
Qed.

Section Handles_properties.
Context {Handle Task NameObject : Type}.
Context (get_object_type : Handle → option string).
Context (file_name_with_device full_key_name : Handle → string).
Context (process_texts thread_texts : Handle → string * string).
Context (NameInfo_Name : Handle → option NameObject).
Context (name_truth : NameObject → bool) (SmartUnicode : NameObject → string).
Context (HandleTableList : Task → bool) (handles : Task → list Handle).

Local Abbreviation enumerate_with object_list named_only :=
  (enumerate_handles get_object_type file_name_with_device full_key_name
     process_texts thread_texts NameInfo_Name name_truth HandleTableList handles
     object_list named_only).
Local Abbreviation name_here :=
  (handle_name file_name_with_device full_key_name process_texts thread_texts
     NameInfo_Name).
Local Abbreviation render_here object_list silent named_only :=
  (Handles_render get_object_type file_name_with_device full_key_name
     process_texts thread_texts NameInfo_Name name_truth SmartUnicode
     HandleTableList handles object_list silent named_only).
Local Abbreviation Yield := (Handle * string * (string + NameObject))%type.

(** X22. What [enumerate_handles] yields for a task is a handle of the
    task's table with the type found for it and the name derived for that
    type; the type is one of [object_types] when some are given, and the
    name is true when [named_only] is set. A process or thread handle of a
    permitted type is yielded also under [named_only]: its name is never
    empty. *)
Theorem enumerate_handles_yields (object_list : option (list string))
    (named_only : bool) (task : Task) :
  (∀ handle object_type name,
     (handle, object_type, name) ∈ enumerate_with object_list named_only task →
     HandleTableList task = true ∧ handle ∈ handles task ∧
     get_object_type handle = Some object_type ∧
     name = name_here handle object_type ∧
     (object_list_given object_list = true → object_type ∈ default [] object_list) ∧
     (named_only = true → name_truthy name_truth name = true)) ∧
  (∀ handle object_type,
     HandleTableList task = true → handle ∈ handles task →
     get_object_type handle = Some object_type →
     object_type = "Process" ∨ object_type = "Thread" →
     (object_list_given object_list = true → object_type ∈ default [] object_list) →
     (handle, object_type, name_here handle object_type)
       ∈ enumerate_with object_list named_only task).
Proof.
  unfold enumerate_handles. split.
  - intros handle object_type name Hin.
    destruct (HandleTableList task); [|by apply elem_of_nil in Hin].
    apply list_elem_of_omap in Hin as (h & Hh & Hyield).
    unfold enumerate_handle in Hyield.
    destruct (get_object_type h) as [t|] eqn:Htype; [|done].
    destruct (object_list_given object_list
              && negb (bool_decide (t ∈ default [] object_list))) eqn:Hlist; [done|].
    destruct (negb (name_truthy name_truth (name_here h t)) && named_only)
      eqn:Hnamed; [done|].
    injection Hyield as -> -> <-.
    split_and!; try done.
    + intros Hgiven. rewrite Hgiven in Hlist. simpl in Hlist.
      apply negb_false_iff, bool_decide_eq_true in Hlist. done.
    + intros ->. rewrite andb_true_r in Hnamed. by apply negb_false_iff in Hnamed.
  - intros handle object_type Htable Hin Htype Hkind Hlist.
    rewrite Htable. apply list_elem_of_omap. exists handle. split; [done|].
    unfold enumerate_handle. rewrite Htype.
    assert (object_list_given object_list
            && negb (bool_decide (object_type ∈ default [] object_list)) = false) as ->.
    { destruct (object_list_given object_list); [|done]. simpl.
      apply negb_false_iff, bool_decide_eq_true. by apply Hlist. }
    assert (name_truthy name_truth (name_here handle object_type) = true) as ->; [|done].
    unfold handle_name.
    destruct Hkind as [-> | ->]; simpl.
    + by destruct (process_texts handle) as [[|c image] pid].
    + done.
Qed.

(** X23. The filters only remove: what [enumerate_handles] yields with
    [object_types] and [named_only] is, in the same order, among what it
    yields with neither. *)
Theorem enumerate_handles_filtered (object_list : option (list string))
    (named_only : bool) (task : Task) :
  sublist (enumerate_handles get_object_type file_name_with_device full_key_name
             process_texts thread_texts NameInfo_Name name_truth HandleTableList
             handles object_list named_only task)
          (enumerate_handles get_object_type file_name_with_device full_key_name
             process_texts thread_texts NameInfo_Name name_truth HandleTableList
             handles None false task).
Proof.
  unfold enumerate_handles. destruct (HandleTableList task); [|constructor].
  apply sublist_omap. intros handle [[h t] n]. unfold enumerate_handle.
  destruct (get_object_type handle) as [object_type|]; [|done].
  destruct (_ && negb _); [done|].
  destruct (negb _ && named_only); [done|].
  simpl. by rewrite andb_false_r.
Qed.

(** X24. [render] calls [table_header] first. Its [table_row] calls are, in
    order, for the handles [enumerate_handles] yields for the tasks in
    turn, except, under [silent], those whose name has as text no character
    other than apostrophes; and it reports progress once for every yielded
    handle, counting from 0 within each task, whether or not the row is
    written. *)
Theorem Handles_render_rows (object_list : option (list string))
    (silent named_only : bool) (tasks : list Task) :
  head (render_here object_list silent named_only tasks)
    = Some handles_table_header ∧
  rows_of (render_here object_list silent named_only tasks)
    = flat_map (λ task,
                  (λ item : Yield, (item.1.1, task, item.1.2, item.2)) <$>
                  filter (λ item : Yield,
                            ¬ (silent = true ∧
                               remove_apostrophes (name_text SmartUnicode item.2) = ""))
                         (enumerate_with object_list named_only task))
               tasks ∧
  progress_of (render_here object_list silent named_only tasks)
    = flat_map (λ task,
                  (λ count, (task, count)) <$>
                  seq 0 (length (enumerate_with object_list named_only task)))
               tasks.
Proof.
  unfold Handles_render. split; [done|].
  assert (∀ (task : Task) (items : list Yield) count,
            rows_of (flat_map (render_handle SmartUnicode silent task)
                              (enumerate_from count items))
              = (λ item : Yield, (item.1.1, task, item.1.2, item.2)) <$>
                filter (λ item : Yield,
                          ¬ (silent = true ∧
                             remove_apostrophes (name_text SmartUnicode item.2) = ""))
                       items
            ∧ progress_of (flat_map (render_handle SmartUnicode silent task)
                                    (enumerate_from count items))
              = (λ c, (task, c)) <$> seq count (length items)) as Hinner.
  { intros task items. induction items as [|[[h t] n] items IH]; intros count; simpl.
    - done.
    - destruct (IH (S count)) as [Hrows Hprogress].
      assert ((String.length (remove_apostrophes (name_text SmartUnicode n)) =? 0)%nat
                = true
              ↔ remove_apostrophes (name_text SmartUnicode n) = "") as Hempty.
      { rewrite Nat.eqb_eq.
        by destruct (remove_apostrophes (name_text SmartUnicode n)). }
      unfold rows_of, progress_of in *. rewrite !omap_app, filter_cons.
      cbn [omap fst snd]. rewrite Hrows, Hprogress.
      destruct (decide (¬ (silent = true ∧
                           remove_apostrophes (name_text SmartUnicode n) = "")))
        as [Hkeep|Hkeep].
      + destruct silent; simpl; [|done].
        destruct (String.length (remove_apostrophes (name_text SmartUnicode n)) =? 0)%nat
          eqn:Hlen; [|done].
        destruct Hkeep. split; [done|]. by apply Hempty.
      + destruct silent; simpl; [|by destruct Hkeep; intros [? _]].
        destruct (String.length (remove_apostrophes (name_text SmartUnicode n)) =? 0)%nat
          eqn:Hlen; [done|].
        destruct Hkeep. intros [_ Hn]. apply Hempty in Hn. congruence. }
  assert (∀ tasks : list Task,
          rows_of (flat_map (λ task, flat_map (render_handle SmartUnicode silent task)
                               (enumerate_from 0
                                  (enumerate_with object_list named_only task)))
                            tasks)
            = flat_map (λ task,
                  (λ item : Yield, (item.1.1, task, item.1.2, item.2)) <$>
                  filter (λ item : Yield,
                            ¬ (silent = true ∧
                               remove_apostrophes (name_text SmartUnicode item.2) = ""))
                         (enumerate_with object_list named_only task))
               tasks
          ∧ progress_of (flat_map (λ task, flat_map (render_handle SmartUnicode silent task)
                                     (enumerate_from 0
                                        (enumerate_with object_list named_only task)))
                                  tasks)
            = flat_map (λ task,
                  (λ count, (task, count)) <$>
                  seq 0 (length (enumerate_with object_list named_only task)))
               tasks) as Houter.
  { clear tasks. intros tasks.
    induction tasks as [|task tasks [IHrows IHprogress]]; [done|].
    cbn [flat_map]. unfold rows_of, progress_of in *.
    rewrite !omap_app, IHrows, IHprogress.
    destruct (Hinner task (enumerate_with object_list named_only task) 0)
      as [Hrows Hprogress].
    unfold rows_of, progress_of in *. by rewrite Hrows, Hprogress. }
  exact (Houter tasks).
Qed.

End Handles_properties.

(** On the example table: the typeless handle is never yielded; under
    [named_only] the file, whose file name is empty, is dropped although its
    [NameInfo] has a name, and the process stays. *)
Lemma enumerate_handles_yields_witness :
  table_enumerate None false
    = [(0, "File", inl ""); (2, "Process", inl "cmd.exe(1234)");
       (3, "Mutant", inr "'")] ∧
  table_enumerate None true
    = [(2, "Process", inl "cmd.exe(1234)"); (3, "Mutant", inr "'")] ∧
  (2, "Process", inl "cmd.exe(1234)") ∈ table_enumerate (Some ["Process"]) true.
Proof.
  split; [reflexivity|]. split; [reflexivity|].
  exact (proj2 (enumerate_handles_yields table_object_type (λ _, "") (λ _, "")
                  (λ _, ("cmd.exe", "1234")) (λ _, ("0", "0")) table_NameInfo
                  table_truth (λ _ : unit, true) (λ _, [0; 1; 2; 3])
                  (Some ["Process"]) true tt)
               2 "Process" eq_refl ltac:(right; right; left) eq_refl
               (or_introl eq_refl) ltac:(intros _; left)).
Defined.

(** On the example table, a silent [render] reports progress for all three
    yielded handles and writes no row for the mutant, whose name is a lone
    apostrophe. *)
Example Handles_render_example :
  Handles_render table_object_type (λ _, "") (λ _, "")
    (λ _, ("cmd.exe", "1234")) (λ _, ("0", "0")) table_NameInfo table_truth
    (λ text, text) (λ _ : unit, true) (λ _, [0; 1; 2; 3]) None true false [tt]
  = [handles_table_header;
     handles_report_progress tt 0;
     handles_report_progress tt 1;
     handles_table_row 2 tt "Process" (inl "cmd.exe(1234)");
     handles_report_progress tt 2].
Proof. reflexivity. Qed.

(** * Declaring arguments and requirements *)

(** X25. The declarations of a class are those of the first class of its
    method resolution order that is [Command] or [ProfileCommand], followed
    by those of the mixins before it, the nearest first; what the classes
    after it declare is never reached. Without [Command] or
    [ProfileCommand] in the order, [args] raises [AttributeError]. *)
Theorem args_stops_at_command (mixins : list ArgsClass) :
  Forall (λ cls, calls_super cls = true) mixins →
  args mixins = Raise AttributeError ∧
  ∀ base later, calls_super base = false →
    args (mixins ++ base :: later)
      = Ok (own_declarations base ++ flat_map own_declarations (reverse mixins)).
Proof.
  induction 1 as [|cls mixins Hcls _ [IHnone IHbase]]; simpl.
  - split; [done|]. intros base later ->. by rewrite app_nil_r.
  - rewrite Hcls. split; [by rewrite IHnone|].
    intros base later Hbase. rewrite (IHbase base later Hbase). simpl.
    rewrite reverse_cons, flat_map_app. simpl.
    by rewrite app_nil_r, <-app_assoc.
Qed.

(** A class listing [PhysicalASMixin] before [ProfileCommand] requires the
    physical address space and the profile; listing it after, only the
    profile. *)
Lemma args_stops_at_command_witness :
  Forall (λ cls, calls_super cls = true) [Args_PhysicalASMixin] ∧
  args [Args_PhysicalASMixin; Args_ProfileCommand; Args_Command]
    = Ok [add_argument ["-p"; "--profile"] [("critical", OInt 1)];
          add_requirement "profile";
          add_requirement "physical_address_space"] ∧
  args [Args_ProfileCommand; Args_Command; Args_PhysicalASMixin]
    = Ok [add_argument ["-p"; "--profile"] [("critical", OInt 1)];
          add_requirement "profile"].
Proof.
  assert (Forall (λ cls, calls_super cls = true) [Args_PhysicalASMixin]) as Hmixins
    by (by repeat constructor).
  split; [exact Hmixins|]. split.
  - exact (proj2 (args_stops_at_command [Args_PhysicalASMixin] Hmixins)
             Args_ProfileCommand [Args_Command] eq_refl).
  - exact (proj2 (args_stops_at_command [] (Forall_nil_2 _))
             Args_ProfileCommand [Args_Command; Args_PhysicalASMixin] eq_refl).
Defined.

(** * PluginHeader: the exception of a rejected header *)

Lemma add_columns_app (all pre rest : list Column)
    (st : gmap PyObj Column * gmap PyObj Column) :
  add_columns all st (pre ++ rest)
    = rbind (add_columns all st pre) (λ st', add_columns all st' rest).
Proof.
  revert st. induction pre as [|column pre IH]; intros st; simpl; [done|].
  destruct (add_column all st column); simpl; [apply IH|done].
Qed.

(** X26. Which exception a rejected header raises. Let the columns before
    [column] be acceptable. When the cname of [column] is missing or false,
    the constructor raises [ValueError] if [column] is the only column, and
    [TypeError] if there are others, before or after it: the message cannot
    be formatted. When its cname is true and that of an earlier column, the
    constructor raises [ValueError]. *)
Theorem PluginHeader__init__exception (pre : list Column) (column : Column)
    (post : list Column) :
  well_formed pre →
  (truthy (cname_of column) = false →
   PluginHeader__init__ (pre ++ column :: post)
     = Raise (if bool_decide (pre = [] ∧ post = []) then ValueError else TypeError)) ∧
  (truthy (cname_of column) = true → cname_of column ∈ cnames pre →
   PluginHeader__init__ (pre ++ column :: post) = Raise ValueError).
Proof.
  intros Hwf.
  assert (∀ all, add_columns all (∅, ∅) pre
                   = Ok (index_by_cname pre ∅, index_by_name pre ∅)) as Hpre.
  { intros all. apply add_columns_Ok; [by intros ? ? ?|]. split_and!; done. }
  unfold PluginHeader__init__. rewrite add_columns_app, Hpre.
  cbn [rbind add_columns]. unfold add_column. fold (cname_of column).
  split.
  - intros ->. cbn [negb rbind].
    destruct pre as [|first pre]; [destruct post as [|second post]|];
      [by rewrite bool_decide_eq_true_2
      |by rewrite bool_decide_eq_false_2 by (by intros [_ ?])
      |rewrite bool_decide_eq_false_2 by (by intros [? _])].
    by destruct pre.
  - intros -> Hin. cbn [negb fst].
    apply list_elem_of_fmap in Hin as (earlier & Hcname & Hearlier).
    destruct Hwf as [Hall Hnd].
    rewrite Hcname, (index_by_cname_lookup pre ∅ earlier Hnd Hearlier).
    cbn [from_option]. rewrite truthy_cname_nonempty; [done|].
    rewrite Forall_forall in Hall. by apply Hall.
Qed.

(** A lone column with an empty cname raises [ValueError]; the same column
    after an acceptable one raises [TypeError]; the first column of the
    example schema given again raises [ValueError]. *)
Lemma PluginHeader__init__exception_witness :
  PluginHeader__init__ [empty_cname_column] = Raise ValueError ∧
  PluginHeader__init__ [offset_column; empty_cname_column] = Raise TypeError ∧
  PluginHeader__init__ [offset_column; name_column; offset_column] = Raise ValueError.
Proof.
  assert (well_formed []) as Hnil by (split; constructor).
  assert (well_formed [offset_column]) as Hone.
  { split; [by repeat constructor|]. apply NoDup_singleton. }
  split; [|split].
  - exact (proj1 (PluginHeader__init__exception [] empty_cname_column [] Hnil) eq_refl).
  - exact (proj1 (PluginHeader__init__exception [offset_column] empty_cname_column []
                    Hone) eq_refl).
  - exact (proj2 (PluginHeader__init__exception [offset_column; name_column]
                    offset_column [] example_columns_well_formed)
                 eq_refl ltac:(left)).
Defined.
